(** * AI-Scrapping: the two-pass extraction core, verified against its specification

    A shallow embedding of [src/llm/enhanced_data_extractor.py] (website type
    detection, heuristic chunk classification, prioritised extraction and
    type-aware aggregation), together with the length-based chunker and the
    per-domain rate limiter, whose sources are not part of the tree and are
    therefore modelled from the specification.

    Conventions of the embedding:
    - a Python [str] is the list of its code points ([pystr]);
    - a Python value that a provider may hand back is a [pyval]; a [dict]
      with string keys is a [gmap pystr pyval] (insertion order, which no
      key lookup or dict comparison observes, is not recorded);
    - a Python [float] is an exact rational: binary64 rounding, NaN and the
      infinities are not represented;
    - code that may raise returns a [result]; [try_except] is the
      [try: ... except Exception: ...] statement;
    - what Python's runtime and standard library compute ([str.lower], the
      [\d] and [\s] classes of [re], [float(str)], [int(str)],
      [urllib.parse.urlparse]) is the interface [PyRuntime]. *)

From Stdlib Require Import Ascii String QArith Qminmax Lqa.
From stdpp Require Import gmap strings list fin_maps sorting.

Set Warnings "-register-all".
Set Default Proof Using "Type".

(** ** Python strings *)

Abbreviation pystr := (list N).

Fixpoint bytes_of_string (s : string) : list N :=
  match s with
  | EmptyString => []
  | String a s' => N_of_ascii a :: bytes_of_string s'
  end.

(** UTF-8 decoding of a source literal into code points. *)
Fixpoint utf8_decode (bs : list N) : pystr :=
  match bs with
  | [] => []
  | b :: r =>
      if (b <? 128)%N then b :: utf8_decode r
      else if (b <? 224)%N then
        match r with
        | c :: r' => ((b - 192) * 64 + (c - 128))%N :: utf8_decode r'
        | _ => []
        end
      else if (b <? 240)%N then
        match r with
        | c :: d :: r' =>
            ((b - 224) * 4096 + (c - 128) * 64 + (d - 128))%N :: utf8_decode r'
        | _ => []
        end
      else
        match r with
        | c :: d :: e :: r' =>
            ((b - 240) * 262144 + (c - 128) * 4096 + (d - 128) * 64 + (e - 128))%N
              :: utf8_decode r'
        | _ => []
        end
  end.

Definition py (s : string) : pystr := utf8_decode (bytes_of_string s).

(** The euro sign, U+20AC. *)
Definition euro : N := 8364%N.

Fixpoint is_prefix (p s : pystr) : bool :=
  match p, s with
  | [], _ => true
  | _ :: _, [] => false
  | a :: p', b :: s' => (a =? b)%N && is_prefix p' s'
  end.

(** [needle in hay] on strings. *)
Fixpoint str_in (needle hay : pystr) : bool :=
  is_prefix needle hay ||
  match hay with
  | [] => false
  | _ :: hay' => str_in needle hay'
  end.

(** [sep.join(parts)] on a list of strings. *)
Fixpoint str_join (sep : pystr) (parts : list pystr) : pystr :=
  match parts with
  | [] => []
  | [p] => p
  | p :: rest => p ++ sep ++ str_join sep rest
  end.

(** ** Exceptions *)

Inductive exn : Type :=
  | TypeError
  | ValueError
  | IndexError
  | ProviderError (msg : pystr).

Inductive result (A : Type) : Type :=
  | Ok (a : A)
  | Raise (e : exn).
Arguments Ok {A} a.
Arguments Raise {A} e.

#[global] Instance result_ret : MRet result := λ A a, Ok a.
#[global] Instance result_bind : MBind result := λ A B f r,
  match r with
  | Ok a => f a
  | Raise e => Raise e
  end.
#[global] Instance result_fmap : FMap result := λ A B f r,
  match r with
  | Ok a => Ok (f a)
  | Raise e => Raise e
  end.

(** [try: body except Exception as e: handler e] *)
Definition try_except {A} (body : result A) (handler : exn → result A) : result A :=
  match body with
  | Ok a => Ok a
  | Raise e => handler e
  end.

Definition is_ok {A} (r : result A) : bool :=
  match r with Ok _ => true | Raise _ => false end.

(** A [for] loop with an accumulator whose body may raise. *)
Fixpoint for_each {A S} (body : S → A → result S) (xs : list A) (s : S) : result S :=
  match xs with
  | [] => Ok s
  | x :: xs' => s' ← body s x; for_each body xs' s'
  end.

(** ** Python values *)

Inductive pyval : Type :=
  | PNone
  | PBool (b : bool)
  | PInt (z : Z)
  | PFloat (q : Q)
  | PStr (s : pystr)
  | PList (l : list pyval)
  | PDict (d : gmap pystr pyval).

Abbreviation pydict := (gmap pystr pyval).

Definition is_dict (v : pyval) : bool :=
  match v with PDict _ => true | _ => false end.

(** The number behind a value of a numeric type ([bool] is a subtype of [int]). *)
Definition py_number (v : pyval) : option Q :=
  match v with
  | PBool b => Some (if b then 1 else 0)%Q
  | PInt z => Some (inject_Z z)
  | PFloat q => Some q
  | _ => None
  end.

(** [hash(v)] succeeds: lists and dicts are unhashable. *)
Definition py_hashable (v : pyval) : bool :=
  match v with
  | PList _ | PDict _ => false
  | _ => true
  end.

(** [a == b] on hashable values: numbers compare by value across [bool],
    [int] and [float]; [None] and strings only equal themselves. *)
Definition py_eqb (a b : pyval) : bool :=
  match a, b with
  | PNone, PNone => true
  | PStr s, PStr t => bool_decide (s = t)
  | _, _ =>
      match py_number a, py_number b with
      | Some x, Some y => Qeq_bool x y
      | _, _ => false
      end
  end.

(** [bool(v)] *)
Definition py_truthy (v : pyval) : bool :=
  match v with
  | PNone => false
  | PBool b => b
  | PInt z => negb (z =? 0)%Z
  | PFloat q => negb (Qeq_bool q 0)
  | PStr s => negb (bool_decide (s = []))
  | PList l => negb (bool_decide (length l = 0))
  | PDict d => negb (bool_decide (d = ∅))
  end.

(** What [list.extend(v)] appends: the items of a list, the characters of a
    string, the keys of a dict; any other value is not iterable. The keys of
    a dict come in the order of [map_to_list], not in the order of their
    insertion, which Python follows and a [gmap] does not record: a
    statement that fixes the order of the items leaves dict values out. *)
Definition py_iter (v : pyval) : result (list pyval) :=
  match v with
  | PList l => Ok l
  | PStr s => Ok ((λ c, PStr [c]) <$> s)
  | PDict d => Ok ((λ kv, PStr kv.1) <$> map_to_list d)
  | _ => Raise TypeError
  end.

Fixpoint py_dedup (seen : list pyval) (xs : list pyval) : list pyval :=
  match xs with
  | [] => []
  | x :: xs' =>
      if existsb (py_eqb x) seen then py_dedup seen xs'
      else x :: py_dedup (x :: seen) xs'
  end.

(** [list(set(xs))]: raises on an unhashable item; otherwise one
    representative (the first added) of every class of equal items. Python
    leaves the order of the resulting list unspecified; the model lists the
    representatives by first occurrence, and no statement below depends on
    that order. *)
Definition py_list_set (xs : list pyval) : result (list pyval) :=
  if forallb py_hashable xs then Ok (py_dedup [] xs) else Raise TypeError.

(** [sep.join(vs)] on a list of values: every item must be a [str]. *)
Fixpoint py_strs (vs : list pyval) : result (list pystr) :=
  match vs with
  | [] => Ok []
  | PStr s :: vs' => ss ← py_strs vs'; Ok (s :: ss)
  | _ :: _ => Raise TypeError
  end.

Definition py_join (sep : pystr) (vs : list pyval) : result pyval :=
  ss ← py_strs vs; Ok (PStr (str_join sep ss)).

(** [l[i]] with Python's negative indices. *)
Definition py_index {A} (l : list A) (i : Z) : result A :=
  let n := Z.of_nat (length l) in
  let j := (if i <? 0 then i + n else i)%Z in
  if (j <? 0)%Z then Raise IndexError
  else match l !! Z.to_nat j with
       | Some x => Ok x
       | None => Raise IndexError
       end.

(** [l[:k]] *)
Definition py_slice_to {A} (l : list A) (k : Z) : list A :=
  if (k <? 0)%Z then take (Z.to_nat (Z.of_nat (length l) + k)) l
  else take (Z.to_nat k) l.

(** ** The Python runtime

    Built-ins and standard-library functions the extractor calls. Their
    definitions are Python's, not this repository's, so the development is
    parametric in them. *)
Class PyRuntime : Type := {
  (** [str.lower()] *)
  str_lower : pystr → pystr;
  (** the class [\d] of [re] *)
  re_digit : N → bool;
  (** the class [\s] of [re] *)
  re_space : N → bool;
  (** [float(s)] on a string: [None] stands for [ValueError] *)
  float_of_str : pystr → option Q;
  (** [int(s)] on a string: [None] stands for [ValueError] *)
  int_of_str : pystr → option Z;
  (** [urllib.parse.urlparse(url).netloc]: [None] stands for the
      [ValueError] that [urlparse] raises on a malformed authority *)
  urlparse_netloc : pystr → option pystr
}.

(** [float(v)] *)
Definition py_float `{PyRuntime} (v : pyval) : result Q :=
  match v with
  | PStr s => match float_of_str s with Some q => Ok q | None => Raise ValueError end
  | _ => match py_number v with Some q => Ok q | None => Raise TypeError end
  end.

(** Rounding towards zero, as [int] does on a [float]. *)
Definition Qtrunc (q : Q) : Z := Z.quot (Qnum q) (Z.pos (Qden q)).

(** [int(v)] *)
Definition py_int `{PyRuntime} (v : pyval) : result Z :=
  match v with
  | PStr s => match int_of_str s with Some z => Ok z | None => Raise ValueError end
  | PBool b => Ok (if b then 1 else 0)%Z
  | PInt z => Ok z
  | PFloat q => Ok (Qtrunc q)
  | _ => Raise TypeError
  end.

(** [d.get(key, default)] *)
Definition dict_get (d : pydict) (key : pystr) (default : pyval) : pyval :=
  match d !! key with
  | Some v => v
  | None => default
  end.

(** ** Data model of the extractor *)

Inductive WebsiteType : Type :=
  | REVIEW | ECOMMERCE | NEWS | BLOG | TECHNICAL | GENERAL.

#[global] Instance WebsiteType_eq_dec : EqDecision WebsiteType.
Proof. solve_decision. Defined.

Record ChunkAnalysis : Type := {
  chunk_index : Z;
  content_type : pyval;
  relevance_score : Q;
  contains_specs : pyval;
  contains_pricing : pyval;
  contains_review : pyval;
  key_topics : pyval;
  priority : Z
}.

Definition with_chunk_index (a : ChunkAnalysis) (i : Z) : ChunkAnalysis :=
  {| chunk_index := i;
     content_type := content_type a;
     relevance_score := relevance_score a;
     contains_specs := contains_specs a;
     contains_pricing := contains_pricing a;
     contains_review := contains_review a;
     key_topics := key_topics a;
     priority := priority a |}.

Record patterns : Type := {
  domains : list pystr;
  indicators : list pystr;
  priority_sections : list pystr
}.

(** [self.website_patterns], in the insertion order of the dict. *)
Definition website_patterns : list (WebsiteType * patterns) :=
  [ (REVIEW,
      {| domains := py <$> ["frandroid.com"; "phonandroid.com"; "numerama.com"; "clubic.com"];
         indicators := py <$> ["test"; "review"; "avis"; "critique"; "verdict"; "note"; "rating"];
         priority_sections := py <$> ["specs"; "pros"; "cons"; "rating"; "conclusion"] |});
    (ECOMMERCE,
      {| domains := py <$> ["cdiscount.com"; "amazon.fr"; "fnac.com"; "darty.com"];
         indicators := py <$> ["prix"; "acheter"; "ajouter panier"; "promotion"; "offre"];
         priority_sections := py <$> ["price"; "product"; "offer"; "specs"; "availability"] |});
    (NEWS,
      {| domains := py <$> ["lemonde.fr"; "lefigaro.fr"; "bfmtv.com"];
         indicators := py <$> ["actualité"; "news"; "info"; "article"];
         priority_sections := py <$> ["headline"; "summary"; "content"; "details"] |}) ].

(** [self.website_patterns[t]['indicators']] for a type that has an entry. *)
Definition indicators_of (t : WebsiteType) : list pystr :=
  match list_find (λ e, e.1 = t) website_patterns with
  | Some (_, (_, p)) => indicators p
  | None => []
  end.

(** [sum(1 for x in xs if p x)] *)
Definition count_if {A} (p : A → bool) (xs : list A) : nat := length (filter (λ x, p x = true) xs).

(** [x in xs] on a list of strings. *)
Definition str_elem (x : pystr) (xs : list pystr) : bool := bool_decide (x ∈ xs).

Section Extractor.
Context `{RT : PyRuntime}.

Definition _extract_domain (url : pystr) : result pystr :=
  match urlparse_netloc url with
  | Some netloc => Ok (str_lower netloc)
  | None => Raise ValueError
  end.

(** The generator of the domain test,
    [any(domain in patterns['domains'] for domain in patterns['domains'])],
    binds its own [domain]: the domain extracted from the URL is not the one
    that is tested. *)
Definition detect_website_type (url content : pystr) : result WebsiteType :=
  domain ← _extract_domain url;
  let content_lower := str_lower content in
  match
    list_find
      (λ entry, existsb (λ domain, str_elem domain (domains entry.2)) (domains entry.2) = true)
      website_patterns
  with
  | Some (_, (website_type, _)) => Ok website_type
  | None =>
      let review_score :=
        count_if (λ indicator, str_in indicator content_lower) (indicators_of REVIEW) in
      let ecommerce_score :=
        count_if (λ indicator, str_in indicator content_lower) (indicators_of ECOMMERCE) in
      if (ecommerce_score <? review_score)%nat && (2 <=? review_score)%nat
      then Ok REVIEW
      else if (2 <=? ecommerce_score)%nat then Ok ECOMMERCE
      else Ok GENERAL
  end.

(** *** Instructions and the extraction capability

    The text of a prompt is represented by what determines it: the prompt of
    pass 1 by the query, the addendum chosen for the website type and the
    excerpt of the chunk; a prompt of pass 2 by the query and the JSON schema
    it asks for. *)

Inductive extraction_schema : Type :=
  | SpecsSchema
  | ReviewSchema
  | PricingSchema
  | ProductListSchema
  | GenericSchema (content_type : pyval).

Inductive instruction : Type :=
  | AnalysisInstruction (original_query : pystr) (addendum : option WebsiteType)
      (excerpt : pystr)
  | ExtractionInstruction (original_query : pystr) (schema : extraction_schema).

(** [llm_provider.extract(content, instruction, output_format)] *)
Record LLMProvider : Type := {
  extract : pystr → instruction → pystr → result pyval
}.

(** The prompt of pass 1, still waiting for the excerpt that
    [_analyze_single_chunk] appends to it. *)
Definition _create_analysis_prompt (website_type : WebsiteType) (original_query : pystr)
    : pystr → instruction :=
  AnalysisInstruction original_query
    (match website_type with
     | REVIEW => Some REVIEW
     | ECOMMERCE => Some ECOMMERCE
     | _ => None
     end).

(** *** Heuristic analysis *)

Definition specs_keywords : list pystr :=
  py <$> ["processeur"; "cpu"; "ram"; "mémoire"; "stockage"; "écran"; "batterie";
          "mah"; "mp"; "ghz"].

Definition pricing_keywords : list pystr :=
  py <$> ["€"; "prix"; "coût"; "promotion"; "offre"; "tarif"].

Definition review_keywords : list pystr :=
  py <$> ["points forts"; "points faibles"; "verdict"; "note"; "avis"; "critique"].

(** [re.search(r'\d+\s*€', s)]: the three functions follow the pattern from
    its end, [\s*€] first, then the digits that precede it. *)
Fixpoint re_spaces_euro (s : pystr) : bool :=
  match s with
  | [] => false
  | c :: r => (c =? euro)%N || (re_space c && re_spaces_euro r)
  end.

Fixpoint re_digits_then (s : pystr) : bool :=
  re_spaces_euro s ||
  match s with
  | [] => false
  | c :: r => re_digit c && re_digits_then r
  end.

Definition re_price_at (s : pystr) : bool :=
  match s with
  | [] => false
  | c :: r => re_digit c && re_digits_then r
  end.

Fixpoint re_search_price (s : pystr) : bool :=
  re_price_at s ||
  match s with
  | [] => false
  | _ :: r => re_search_price r
  end.

(** [True * w] is [w] and [False * w] is [0]. *)
Definition bool_times (b : bool) (w : Q) : Q := if b then w else 0.

Definition _heuristic_analysis (chunk : pystr) (index : Z) : ChunkAnalysis :=
  let chunk_lower := str_lower chunk in
  let contains_specs :=
    (2 <=? count_if (λ kw, str_in kw chunk_lower) specs_keywords)%nat in
  let contains_pricing :=
    existsb (λ kw, str_in kw chunk_lower) pricing_keywords || re_search_price chunk in
  let contains_review :=
    (1 <=? count_if (λ kw, str_in kw chunk_lower) review_keywords)%nat in
  let '(content_type, priority) :=
    if contains_specs
       && (3 <=? length (filter (λ kw, str_in kw chunk_lower = true) specs_keywords))%nat
    then (py "specs", 1%Z)
    else if contains_pricing then (py "pricing", 2%Z)
    else if contains_review then (py "review", 1%Z)
    else (py "general", 3%Z) in
  let relevance_score :=
    Qmin 1 (inject_Z (Z.of_nat (length chunk)) / 1000
            + bool_times contains_specs (3 # 10)
            + bool_times contains_pricing (2 # 10)
            + bool_times contains_review (3 # 10)) in
  {| chunk_index := index;
     content_type := PStr content_type;
     relevance_score := relevance_score;
     contains_specs := PBool contains_specs;
     contains_pricing := PBool contains_pricing;
     contains_review := PBool contains_review;
     key_topics := PList [];
     priority := priority |}.

(** *** Pass 1 *)

Definition _analyze_single_chunk (chunk : pystr) (index : Z)
    (prompt : pystr → instruction) (llm_provider : LLMProvider) : result ChunkAnalysis :=
  returned ←
    try_except
      (let full_prompt := prompt (take 2000 chunk) in
       result ← extract llm_provider chunk full_prompt (py "json");
       match result with
       | PDict d =>
           if bool_decide (is_Some (d !! py "content_type")) then
             score ← py_float (dict_get d (py "relevance_score") (PFloat (1 # 2)));
             prio ← py_int (dict_get d (py "priority") (PInt 3));
             Ok (Some {| chunk_index := index;
                         content_type := dict_get d (py "content_type") (PStr (py "general"));
                         relevance_score := score;
                         contains_specs := dict_get d (py "contains_specs") (PBool false);
                         contains_pricing := dict_get d (py "contains_pricing") (PBool false);
                         contains_review := dict_get d (py "contains_review") (PBool false);
                         key_topics := dict_get d (py "key_topics") (PList []);
                         priority := prio |})
           else Ok None
       | _ => Ok None
       end)
      (λ e, Ok None);
  match returned with
  | Some analysis => Ok analysis
  | None => Ok (_heuristic_analysis chunk index)
  end.

Definition default_analysis (chunk_index : Z) : ChunkAnalysis :=
  {| chunk_index := chunk_index;
     content_type := PStr (py "unknown");
     relevance_score := 1 # 2;
     contains_specs := PBool false;
     contains_pricing := PBool false;
     contains_review := PBool false;
     key_topics := PList [];
     priority := 3 |}.

(** [enumerate(xs)] *)
Definition enumerate {A} (xs : list A) : list (Z * A) :=
  imap (λ i x, (Z.of_nat i, x)) xs.

(** Stable insertion sort, [sorted(l, key=...)] for a key whose [<] is [lt]. *)
Fixpoint insert_sorted {A} (lt : A → A → bool) (x : A) (l : list A) : list A :=
  match l with
  | [] => [x]
  | y :: l' => if lt y x then y :: insert_sorted lt x l' else x :: y :: l'
  end.

Definition py_sorted {A} (lt : A → A → bool) (l : list A) : list A :=
  foldr (insert_sorted lt) [] l.

(** The futures are collected as they complete; the model collects them in
    the order of submission, one of the possible completion orders, and the
    final sort on [chunk_index] is the one of the source. *)
Definition analyze_chunks_first_pass (chunks : list pystr) (website_type : WebsiteType)
    (llm_provider : LLMProvider) (query : pystr) : result (list ChunkAnalysis) :=
  let analysis_prompt := _create_analysis_prompt website_type query in
  analyses ←
    for_each
      (λ analyses '(chunk_index, chunk),
         try_except
           (analysis ← _analyze_single_chunk chunk chunk_index analysis_prompt llm_provider;
            Ok (analyses ++ [with_chunk_index analysis chunk_index]))
           (λ e, Ok (analyses ++ [default_analysis chunk_index])))
      (enumerate chunks) [];
  Ok (py_sorted (λ x y, (chunk_index x <? chunk_index y)%Z) analyses).

(** *** Pass 2: prioritisation, grouping, extraction *)

Definition Qltb (a b : Q) : bool := negb (Qle_bool b a).

(** [<] on the sort keys [(x.priority, -x.relevance_score)]. *)
Definition priority_key_lt (x y : ChunkAnalysis) : bool :=
  (priority x <? priority y)%Z
  || ((priority x =? priority y)%Z && Qltb (- relevance_score x) (- relevance_score y)).

(** The sorted analyses, cut by [if max_chunks: ... [:max_chunks]]. *)
Definition prioritized (analyses : list ChunkAnalysis) (max_chunks : option Z)
    : list ChunkAnalysis :=
  let sorted_analyses := py_sorted priority_key_lt analyses in
  match max_chunks with
  | None => sorted_analyses
  | Some k => if (k =? 0)%Z then sorted_analyses else py_slice_to sorted_analyses k
  end.

(** [groups[key].append(item)], after [groups[key] = []] for a new key: a
    dict keeps its keys in the order of their insertion. *)
Fixpoint group_append {V} (key : pyval) (item : V) (groups : list (pyval * list V))
    : list (pyval * list V) :=
  match groups with
  | [] => [(key, [item])]
  | (k, items) :: rest =>
      if py_eqb k key then (k, items ++ [item]) :: rest
      else (k, items) :: group_append key item rest
  end.

Definition group_by_content_type (chunks : list pystr)
    (sorted_analyses : list ChunkAnalysis)
    : result (list (pyval * list (pystr * ChunkAnalysis))) :=
  for_each
    (λ chunks_by_type analysis,
       let content_type := content_type analysis in
       if py_hashable content_type then
         chunk ← py_index chunks (chunk_index analysis);
         Ok (group_append content_type (chunk, analysis) chunks_by_type)
       else Raise TypeError)
    sorted_analyses [].

Definition _create_specialized_extraction_prompt (content_type : pyval)
    (website_type : WebsiteType) (original_query : pystr) : instruction :=
  ExtractionInstruction original_query
    (if py_eqb content_type (PStr (py "specs")) && bool_decide (website_type = REVIEW)
     then SpecsSchema
     else if py_eqb content_type (PStr (py "review")) && bool_decide (website_type = REVIEW)
     then ReviewSchema
     else if py_eqb content_type (PStr (py "pricing")) then PricingSchema
     else if py_eqb content_type (PStr (py "product_list"))
             && bool_decide (website_type = ECOMMERCE)
     then ProductListSchema
     else GenericSchema content_type).

(** The inner loop of pass 2 over the chunks of one content type. *)
Definition extract_type_results (llm_provider : LLMProvider)
    (specialized_prompt : instruction) (chunk_list : list (pystr * ChunkAnalysis))
    : result (list pydict) :=
  for_each
    (λ type_results '(chunk_content, analysis),
       try_except
         (result ← extract llm_provider chunk_content specialized_prompt (py "json");
          match result with
          | PDict d => Ok (type_results ++ [d])
          | _ => Ok type_results
          end)
         (λ e, Ok type_results))
    chunk_list [].

(** *** Aggregation *)

(** [extraction_results[key]] when [key in extraction_results]. *)
Definition er_lookup (key : string) (extraction_results : list (pyval * list pydict))
    : option (list pydict) :=
  snd <$> List.find (λ e, py_eqb e.1 (PStr (py key))) extraction_results.

(** One [result] of the specs loop: [for key, value in result.items()].
    After [specs[key] = value] the dict [value] is shared with [result], and
    a later [update] changes both; the results are JSON trees decoded one
    per call, so no other result sees that change. *)
Definition specs_merge (specs result : pydict) : pydict :=
  map_fold
    (λ key value specs,
       match specs !! key with
       | None => <[key := value]> specs
       | Some old =>
           match value, old with
           | PDict v, PDict o => <[key := PDict (v ∪ o)]> specs
           | _, _ => specs
           end
       end)
    specs result.

Record review_lists : Type := {
  points_forts : list pyval;
  points_faibles : list pyval;
  notes : list pyval;
  verdicts : list pyval
}.

(** [acc.extend(result[key])] if [key in result]. *)
Definition extend_from (res : pydict) (key : string) (acc : list pyval)
    : result (list pyval) :=
  match res !! py key with
  | Some v => items ← py_iter v; Ok (acc ++ items)
  | None => Ok acc
  end.

(** [acc.append(result[key])] if [key in result]. *)
Definition append_from (res : pydict) (key : string) (acc : list pyval) : list pyval :=
  match res !! py key with
  | Some v => acc ++ [v]
  | None => acc
  end.

Definition collect_review (results : list pydict) : result review_lists :=
  for_each
    (λ acc res,
       pf ← extend_from res "points_forts" (points_forts acc);
       pfa ← extend_from res "points_faibles" (points_faibles acc);
       Ok {| points_forts := pf;
             points_faibles := pfa;
             notes := append_from res "note_globale" (notes acc);
             verdicts := append_from res "verdict" (verdicts acc) |})
    results
    {| points_forts := []; points_faibles := []; notes := []; verdicts := [] |}.

Definition aggregate_review (results : list pydict) (aggregated : pydict) : result pydict :=
  acc ← collect_review results;
  forts ← py_list_set (points_forts acc);
  faibles ← py_list_set (points_faibles acc);
  let note := match notes acc with n :: _ => n | [] => PNone end in
  verdict ← (match verdicts acc with
             | [] => Ok PNone
             | _ :: _ => py_join (py " ") (verdicts acc)
             end);
  Ok (<[py "verdict" := verdict]>
      (<[py "note_globale" := note]>
       (<[py "points_faibles" := PList faibles]>
        (<[py "points_forts" := PList forts]> aggregated)))).

Definition aggregate_pricing (results : list pydict) (aggregated : pydict) : result pydict :=
  prix_info ←
    for_each
      (λ '(prix, promotions) res,
         let prix :=
           match res !! py "prix_principal" with
           | Some v => if py_truthy v then prix ++ [v] else prix
           | None => prix
           end in
         promotions ← extend_from res "promotions" promotions;
         Ok (prix, promotions))
      results ([], []);
  Ok (<[py "prix_et_disponibilite" :=
          PDict (<[py "promotions" := PList prix_info.2]>
                 (<[py "prix" := PList prix_info.1]> ∅))]> aggregated).

Definition aggregate_product_list (results : list pydict) (aggregated : pydict)
    : result pydict :=
  produits ← for_each (λ produits res, extend_from res "produits" produits) results [];
  Ok (<[py "produits" := PList produits]> aggregated).

(** [general_info.update(result)] for every result, in order. *)
Definition merge_general (results : list pydict) : pydict :=
  foldl (λ general_info res, res ∪ general_info) ∅ results.

Definition _aggregate_extraction_results (extraction_results : list (pyval * list pydict))
    (website_type : WebsiteType) (original_query : pystr) : result pydict :=
  let aggregated : pydict := ∅ in
  let aggregated :=
    match er_lookup "specs" extraction_results with
    | Some results =>
        <[py "caracteristiques_techniques" := PDict (foldl specs_merge ∅ results)]> aggregated
    | None => aggregated
    end in
  aggregated ←
    match er_lookup "review" extraction_results with
    | Some results => aggregate_review results aggregated
    | None => Ok aggregated
    end;
  aggregated ←
    match er_lookup "pricing" extraction_results with
    | Some results => aggregate_pricing results aggregated
    | None => Ok aggregated
    end;
  aggregated ←
    match er_lookup "product_list" extraction_results with
    | Some results => aggregate_product_list results aggregated
    | None => Ok aggregated
    end;
  let aggregated :=
    match er_lookup "general" extraction_results with
    | Some results =>
        let general_info := merge_general results in
        if bool_decide (general_info = ∅) then aggregated
        else <[py "informations_generales" := PDict general_info]> aggregated
    | None => aggregated
    end in
  Ok aggregated.

(** For every content type, in the order of the groups: its prompt, its
    results, and an entry of [extraction_results] when there is a result. *)
Definition extract_all (llm_provider : LLMProvider) (website_type : WebsiteType)
    (original_query : pystr) (chunks_by_type : list (pyval * list (pystr * ChunkAnalysis)))
    : result (list (pyval * list pydict)) :=
  for_each
    (λ extraction_results '(content_type, chunk_list),
       let specialized_prompt :=
         _create_specialized_extraction_prompt content_type website_type original_query in
       type_results ← extract_type_results llm_provider specialized_prompt chunk_list;
       match type_results with
       | [] => Ok extraction_results
       | _ :: _ => Ok (extraction_results ++ [(content_type, type_results)])
       end)
    chunks_by_type [].

Definition extract_from_prioritized_chunks (chunks : list pystr)
    (analyses : list ChunkAnalysis) (website_type : WebsiteType) (original_query : pystr)
    (llm_provider : LLMProvider) (max_chunks : option Z) : result pydict :=
  let sorted_analyses := prioritized analyses max_chunks in
  chunks_by_type ← group_by_content_type chunks sorted_analyses;
  extraction_results ← extract_all llm_provider website_type original_query chunks_by_type;
  _aggregate_extraction_results extraction_results website_type original_query.

(** *** The entry point *)

Definition enhanced_extract_data_from_chunks (chunks : list pystr) (query : pystr)
    (llm_provider : LLMProvider) (url : pystr) (max_workers max_chunks_per_type : Z)
    : result pydict :=
  let content_sample := str_join (py " ") (take 3 chunks) in
  website_type ← detect_website_type url content_sample;
  analyses ← analyze_chunks_first_pass chunks website_type llm_provider query;
  extract_from_prioritized_chunks chunks analyses website_type query llm_provider
    (Some (max_chunks_per_type * 4)%Z).

End Extractor.

(** ** Length-based chunking *)

Module Chunker.

(** Break characters, in the priority order of the search. *)
Definition is_sentence_end (c : N) : bool := bool_decide (c ∈ py ".!?").
Definition is_newline (c : N) : bool := (c =? 10)%N.
Definition is_word_boundary (c : N) : bool := (c =? 32)%N.

(** The position just after the last character of [window] that satisfies
    [p], among its last [lookback] characters. *)
Definition break_after (p : N → bool) (window : pystr) (lookback : nat) : option nat :=
  (λ hit, length window - hit.1) <$>
    list_find (λ c, p c = true) (take lookback (reverse window)).

Definition choose_cut (window : pystr) (max_length lookback : nat) : nat :=
  match break_after is_sentence_end window lookback with
  | Some cut => cut
  | None =>
      match break_after is_newline window lookback with
      | Some cut => cut
      | None =>
          match break_after is_word_boundary window lookback with
          | Some cut => cut
          | None => max_length
          end
      end
  end.

Fixpoint chunk_windows (fuel : nat) (rest : pystr) (max_length overlap lookback : nat)
    : list pystr :=
  match fuel with
  | 0 => []
  | S fuel' =>
      if (length rest <=? max_length)%nat then [rest]
      else
        let cut := choose_cut (take max_length rest) max_length lookback in
        take cut rest
          :: chunk_windows fuel' (drop (Nat.max 1 (cut - overlap)) rest)
               max_length overlap lookback
  end.

(** Modelled from the spec: [chunk_by_length] of [src/processors/html_chunker.py]
    and of [src/processors/pdf_processor.py], which are not in the tree (only
    their tests are). Section 4.2: a window of [max_length] characters slides
    over the text; the cut is searched backwards from the end of the window
    for a sentence terminator, then a newline, then a word boundary, within
    [lookback] characters, and falls at [max_length] when there is none; the
    next window starts [overlap] characters before the cut, so that it
    repeats the last [overlap] characters of its predecessor; empty or null
    input yields the empty list. A window always advances by one character
    at least. [None] is the null text. *)
Definition chunk_by_length (text : option pystr) (max_length overlap lookback : nat)
    : list pystr :=
  match text with
  | None => []
  | Some [] => []
  | Some t => chunk_windows (S (length t)) t max_length overlap lookback
  end.

End Chunker.

(** ** The per-domain rate limiter *)

Module RobotsChecker.

(** A parsed robots policy: what it allows to an agent, and the crawl delay
    it declares for it. *)
Record robots_policy : Type := {
  allows : pystr → pystr → bool;
  crawl_delay : pystr → option Q
}.

(** What surrounds the limiter: how a URL names its domain, and what the
    retrieval of the policy document of a domain gives. *)
Record environment : Type := {
  domain_of : pystr → pystr;
  fetch_policy : pystr → result robots_policy
}.

Record checker : Type := {
  user_agent : pystr;
  respect_robots : bool;
  rate_limit : Q;
  parsers : gmap pystr robots_policy;
  last_request_time : gmap pystr Q;
  (** the wall clock, which [sleep] advances *)
  now : Q
}.

Definition sleep (d : Q) (c : checker) : checker :=
  {| user_agent := user_agent c; respect_robots := respect_robots c;
     rate_limit := rate_limit c; parsers := parsers c;
     last_request_time := last_request_time c; now := now c + d |}.

Definition cache_parser (domain : pystr) (p : robots_policy) (c : checker) : checker :=
  {| user_agent := user_agent c; respect_robots := respect_robots c;
     rate_limit := rate_limit c; parsers := <[domain := p]> (parsers c);
     last_request_time := last_request_time c; now := now c |}.

Definition record_request (domain : pystr) (c : checker) : checker :=
  {| user_agent := user_agent c; respect_robots := respect_robots c;
     rate_limit := rate_limit c; parsers := parsers c;
     last_request_time := <[domain := now c]> (last_request_time c); now := now c |}.

(** [max(declared_crawl_delay, configured_rate_limit)] *)
Definition required_spacing (p : robots_policy) (c : checker) : Q :=
  match crawl_delay p (user_agent c) with
  | Some delay => Qmax delay (rate_limit c)
  | None => rate_limit c
  end.

Definition exception_text (e : exn) : pystr :=
  match e with
  | TypeError => py "TypeError"
  | ValueError => py "ValueError"
  | IndexError => py "IndexError"
  | ProviderError msg => msg
  end.

(** Modelled from the spec: [RobotsChecker.can_fetch] of
    [src/scrapers/robots_checker.py], which is not in the tree (only its
    test is). Section 4.4: (a) with policy checking disabled, allow at once;
    (b) fetch the policy of the domain once and keep its parser; (c) deny,
    with a reason, what the policy disallows for the agent; (d) otherwise
    the spacing is the larger of the declared crawl delay and the configured
    rate limit: when the domain has a [last_request_time], sleep for that
    spacing, then record the current time as the new [last_request_time]
    and allow. A failure of the retrieval allows, after a sleep of the
    configured rate limit, with the text of the exception as reason. *)
Definition can_fetch (env : environment) (c : checker) (url : pystr)
    : (bool * option pystr) * checker :=
  if negb (respect_robots c) then ((true, None), c)
  else
    let domain := domain_of env url in
    let lookup :=
      match parsers c !! domain with
      | Some p => Ok (p, c)
      | None => p ← fetch_policy env domain; Ok (p, cache_parser domain p c)
      end in
    match lookup with
    | Raise e =>
        ((true, Some (py "Erreur de vérification: " ++ exception_text e)),
         sleep (rate_limit c) c)
    | Ok (p, c) =>
        if negb (allows p (user_agent c) url)
        then ((false, Some (py "Interdit par robots.txt")), c)
        else
          let delay := required_spacing p c in
          let c :=
            match last_request_time c !! domain with
            | Some _ => sleep delay c
            | None => c
            end in
          ((true, None), record_request domain c)
    end.

(** The checker starts with no parser and no request time. *)
Definition init (agent : pystr) (respect : bool) (rate : Q) (t0 : Q) : checker :=
  {| user_agent := agent; respect_robots := respect; rate_limit := rate;
     parsers := ∅; last_request_time := ∅; now := t0 |}.

(** The states a checker goes through: calls of [can_fetch], and time that
    passes between them. *)
Inductive reachable (env : environment) (agent : pystr) (respect : bool) (rate : Q)
    : checker → Prop :=
  | reach_init t0 : reachable env agent respect rate (init agent respect rate t0)
  | reach_fetch c url :
      reachable env agent respect rate c →
      reachable env agent respect rate (can_fetch env c url).2
  | reach_wait c d :
      reachable env agent respect rate c → (0 <= d)%Q →
      reachable env agent respect rate (sleep d c).

(** What every reachable state satisfies: the configuration is the one the
    checker started with, no recorded request is in the future, and a
    checker that does not check policies records nothing. *)
Record consistent (agent : pystr) (respect : bool) (rate : Q) (c : checker) : Prop := {
  cons_agent : user_agent c = agent;
  cons_respect : respect_robots c = respect;
  cons_rate : rate_limit c = rate;
  cons_times : ∀ d t, last_request_time c !! d = Some t → (t <= now c)%Q;
  cons_disabled : respect = false → last_request_time c = ∅
}.

(** A site that allows everything and declares no crawl delay. *)
Definition open_site : environment :=
  {| domain_of := take 19;
     fetch_policy := λ _, Ok {| allows := λ _ _, true; crawl_delay := λ _, None |} |}.

Definition example_page : pystr := py "https://example.com/page".

(** The checker of the rate-limiting test, after a first request at time 100. *)
Definition after_first_request : checker :=
  (can_fetch open_site (init (py "*") true 2 100) example_page).2.

End RobotsChecker.

(** ** A runtime for closed examples

    [latin1_runtime] computes what Python computes on text of the Basic Latin
    and Latin-1 blocks: lower case letter by letter, the ASCII digits and
    white space, decimal literals without sign or exponent, and the
    authority of a URL between [//] and the next [/], [?] or [#]. *)

Definition lower_code_point (c : N) : N :=
  if ((65 <=? c) && (c <=? 90))%N then (c + 32)%N
  else if ((192 <=? c) && (c <=? 222) && negb (c =? 215))%N then (c + 32)%N
  else c.

Definition ascii_digit (c : N) : bool := ((48 <=? c) && (c <=? 57))%N.

Definition ascii_space (c : N) : bool := (((9 <=? c) && (c <=? 13)) || (c =? 32))%N.

Fixpoint take_while {A} (p : A → bool) (l : list A) : list A :=
  match l with
  | [] => []
  | x :: l' => if p x then x :: take_while p l' else []
  end.

Definition digits_value (s : pystr) : option Z :=
  if forallb ascii_digit s && negb (bool_decide (s = []))
  then Some (foldl (λ acc c, acc * 10 + Z.of_N (c - 48))%Z 0%Z s)
  else None.

Definition decimal_value (s : pystr) : option Q :=
  let whole := take_while (λ c, bool_decide (c ≠ 46%N)) s in
  let frac := drop (S (length whole)) s in
  match digits_value whole, frac with
  | Some w, [] => Some (inject_Z w)
  | Some w, _ =>
      match digits_value frac with
      | Some f => Some (inject_Z w + inject_Z f / inject_Z (10 ^ Z.of_nat (length frac)))%Q
      | None => None
      end
  | None, _ => None
  end.

Definition is_scheme_char (c : N) : bool :=
  (((97 <=? c) && (c <=? 122)) || ((65 <=? c) && (c <=? 90)) || ascii_digit c
   || (c =? 43) || (c =? 45) || (c =? 46))%N.

Definition after_scheme (url : pystr) : pystr :=
  let scheme := take_while (λ c, bool_decide (c ≠ 58%N)) url in
  if (length scheme <? length url)%nat && forallb is_scheme_char scheme
     && negb (bool_decide (scheme = []))
  then drop (S (length scheme)) url
  else url.

Definition simple_netloc (url : pystr) : option pystr :=
  let rest := after_scheme url in
  if is_prefix (py "//") rest then
    let netloc := take_while (λ c, bool_decide (c ∉ py "/?#")) (drop 2 rest) in
    if xorb (bool_decide (91%N ∈ netloc)) (bool_decide (93%N ∈ netloc)) then None
    else Some netloc
  else Some [].

Definition latin1_runtime : PyRuntime :=
  {| str_lower := fmap lower_code_point;
     re_digit := ascii_digit;
     re_space := ascii_space;
     float_of_str := decimal_value;
     int_of_str := digits_value;
     urlparse_netloc := simple_netloc |}.

(** ** Reference definitions, after the words of the specification *)

Module Spec.
Section Spec.
Context `{RT : PyRuntime}.

(** The number of keywords of a vocabulary that occur in a text. *)
Definition keyword_hits (vocabulary : list pystr) (text : pystr) : nat :=
  length (filter (λ kw, str_in kw text = true) vocabulary).

Definition price_words : list pystr :=
  py <$> ["prix"; "coût"; "promotion"; "offre"; "tarif"].

(** Section 4.5: [specs] with three spec keywords or more, else [pricing]
    with a currency symbol or a price keyword, else [review] with one review
    keyword or more, else [general]. Keywords are looked for in the chunk
    put to lower case. *)
Definition classify (chunk : pystr) : string :=
  let text := str_lower chunk in
  if (3 <=? keyword_hits specs_keywords text)%nat then "specs"
  else if bool_decide (euro ∈ text) || existsb (λ kw, str_in kw text) price_words
  then "pricing"
  else if (1 <=? keyword_hits review_keywords text)%nat then "review"
  else "general".

(** Priority 1 for specs and review, 2 for pricing, 3 for general. *)
Definition priority_of (content_type : string) : Z :=
  if bool_decide (content_type = "specs") || bool_decide (content_type = "review") then 1
  else if bool_decide (content_type = "pricing") then 2
  else 3.

(** The weighted keyword bonuses: 0.3 for two spec keywords or more, 0.2 for
    a currency symbol or a price keyword, 0.3 for a review keyword. *)
Definition keyword_bonus (chunk : pystr) : Q :=
  let text := str_lower chunk in
  (if (2 <=? keyword_hits specs_keywords text)%nat then 3 # 10 else 0)
  + (if bool_decide (euro ∈ text) || existsb (λ kw, str_in kw text) price_words
     then 2 # 10 else 0)
  + (if (1 <=? keyword_hits review_keywords text)%nat then 3 # 10 else 0).

(** [min(1, len(chunk)/1000 + weighted keyword bonuses)] *)
Definition relevance (chunk : pystr) : Q :=
  Qmin 1 (inject_Z (Z.of_nat (length chunk)) / 1000 + keyword_bonus chunk).

End Spec.

(** Section 4.6 on [review] results: the first non-null [note_globale]. *)
Definition first_non_null_note (results : list pydict) : pyval :=
  match
    List.find (λ v, negb (py_eqb v PNone)) (omap (λ r : pydict, r !! py "note_globale") results)
  with
  | Some v => v
  | None => PNone
  end.

(** Section 4.6 on [review] results: the non-null [verdict] strings. *)
Definition non_null_verdicts (results : list pydict) : list pystr :=
  omap (λ r : pydict, match r !! py "verdict" with Some (PStr s) => Some s | _ => None end)
    results.

End Spec.

(** ** Shapes the aggregation relies on *)

(** [p] holds of the value of [key] in [res], when there is one. *)
Definition field_is (p : pyval → bool) (key : string) (res : pydict) : bool :=
  match res !! py key with
  | Some v => p v
  | None => true
  end.

Definition iterable (v : pyval) : bool := is_ok (py_iter v).

Definition hashable_items (v : pyval) : bool :=
  match py_iter v with
  | Ok items => forallb py_hashable items
  | Raise _ => false
  end.

Definition is_str (v : pyval) : bool :=
  match v with PStr _ => true | _ => false end.

Definition review_iterable (res : pydict) : bool :=
  field_is iterable "points_forts" res && field_is iterable "points_faibles" res.

Definition review_shaped (res : pydict) : bool :=
  field_is hashable_items "points_forts" res
  && field_is hashable_items "points_faibles" res
  && field_is is_str "verdict" res.

Definition results_satisfy (p : pydict → bool) (key : string)
    (extraction_results : list (pyval * list pydict)) : bool :=
  match er_lookup key extraction_results with
  | Some results => forallb p results
  | None => true
  end.

(** The lists that the aggregation extends from are iterable, the items it
    puts in a set are hashable, and the verdicts it joins are strings. *)
Definition aggregable (extraction_results : list (pyval * list pydict)) : bool :=
  results_satisfy review_shaped "review" extraction_results
  && results_satisfy (field_is iterable "promotions") "pricing" extraction_results
  && results_satisfy (field_is iterable "produits") "product_list" extraction_results.

(** The keys of an aggregated result. *)
Definition aggregated_keys : gset pystr :=
  list_to_set
    (py <$> ["caracteristiques_techniques"; "points_forts"; "points_faibles";
             "note_globale"; "verdict"; "prix_et_disponibilite"; "produits";
             "informations_generales"]).

(** The content types that the aggregation reads. *)
Definition aggregated_type (content_type : pyval) : bool :=
  existsb (λ t, py_eqb content_type (PStr (py t)))
    ["specs"; "review"; "pricing"; "product_list"; "general"].

(** The items of the value found under [key], if it is there and iterable. *)
Definition field_items (key : string) (res : pydict) : list pyval :=
  match res !! py key with
  | Some v => match py_iter v with Ok items => items | Raise _ => [] end
  | None => []
  end.

(** All the items found under [key], in the order of the results. *)
Definition items_under (key : string) (results : list pydict) : list pyval :=
  concat (field_items key <$> results).

(** The values found under [key], in the order of the results. *)
Definition values_under (key : string) (results : list pydict) : list pyval :=
  omap (λ r : pydict, r !! py key) results.

(** Two specs results have no key-level conflict: a top-level key that both
    have holds a dict in both, and the two dicts have no key in common. *)
Definition no_conflict (a b : pydict) : Prop :=
  ∀ key va vb, a !! key = Some va → b !! key = Some vb →
    ∃ da db, va = PDict da ∧ vb = PDict db ∧ da ##ₘ db.

(** [no_conflict], computed. *)
Definition no_conflictb (a b : pydict) : bool :=
  forallb
    (λ entry : pystr * pyval,
       match b !! entry.1 with
       | None => true
       | Some vb =>
           match entry.2, vb with
           | PDict da, PDict db => bool_decide ((dom da : gset pystr) ## dom db)
           | _, _ => false
           end
       end)
    (map_to_list a).

(** What one result makes of the entry of a key in [specs]. *)
Definition merge_value (old new : option pyval) : option pyval :=
  match old, new with
  | None, _ => new
  | Some o, None => Some o
  | Some (PDict o), Some (PDict v) => Some (PDict (v ∪ o))
  | Some o, Some _ => Some o
  end.

(** [<=] on the sort keys [(x.priority, -x.relevance_score)]. *)
Definition priority_key_le (x y : ChunkAnalysis) : Prop :=
  (priority x < priority y)%Z
  ∨ (priority x = priority y ∧ (relevance_score y <= relevance_score x)%Q).

(** ** The aggregation, as a value

    What [_aggregate_extraction_results] returns when it returns: the same
    steps, without the exceptions. *)

Definition head_or_none (vs : list pyval) : pyval :=
  match vs with
  | v :: _ => v
  | [] => PNone
  end.

Definition strings_of (vs : list pyval) : list pystr :=
  omap (λ v, match v with PStr s => Some s | _ => None end) vs.

Definition joined (vs : list pyval) : pyval :=
  match vs with
  | [] => PNone
  | _ :: _ => PStr (str_join (py " ") (strings_of vs))
  end.

Definition specs_value (results : list pydict) (aggregated : pydict) : pydict :=
  <[py "caracteristiques_techniques" := PDict (foldl specs_merge ∅ results)]> aggregated.

Definition review_value (results : list pydict) (aggregated : pydict) : pydict :=
  <[py "verdict" := joined (values_under "verdict" results)]>
  (<[py "note_globale" := head_or_none (values_under "note_globale" results)]>
   (<[py "points_faibles" := PList (py_dedup [] (items_under "points_faibles" results))]>
    (<[py "points_forts" := PList (py_dedup [] (items_under "points_forts" results))]>
     aggregated))).

Definition pricing_value (results : list pydict) (aggregated : pydict) : pydict :=
  <[py "prix_et_disponibilite" :=
      PDict (<[py "promotions" := PList (items_under "promotions" results)]>
             (<[py "prix" :=
                  PList (filter (λ v, py_truthy v = true)
                           (values_under "prix_principal" results))]> ∅))]> aggregated.

Definition product_list_value (results : list pydict) (aggregated : pydict) : pydict :=
  <[py "produits" := PList (items_under "produits" results)]> aggregated.

Definition general_value (results : list pydict) (aggregated : pydict) : pydict :=
  if bool_decide (merge_general results = ∅) then aggregated
  else <[py "informations_generales" := PDict (merge_general results)]> aggregated.

Definition when_present (key : string) (extraction_results : list (pyval * list pydict))
    (step : list pydict → pydict → pydict) (aggregated : pydict) : pydict :=
  match er_lookup key extraction_results with
  | Some results => step results aggregated
  | None => aggregated
  end.

Definition aggregated_value (extraction_results : list (pyval * list pydict)) : pydict :=
  when_present "general" extraction_results general_value
  (when_present "product_list" extraction_results product_list_value
   (when_present "pricing" extraction_results pricing_value
    (when_present "review" extraction_results review_value
     (when_present "specs" extraction_results specs_value ∅)))).

(** [out] lists [items] without duplicates: nothing but items, an equal of
    every item, and no two equal entries. *)
Definition deduplicates (out items : list pyval) : Prop :=
  (∀ x, x ∈ out → x ∈ items)
  ∧ (∀ x, x ∈ items → ∃ y, y ∈ out ∧ py_eqb x y = true)
  ∧ ForallOrdPairs (λ a b, py_eqb a b = false) out.

(** [groups] is a grouping of [items] by content type: every item is in one
    group, the items of a group have the content type that names it and
    keep the order they have in [items], and no two groups have equal
    names. *)
Definition grouped (groups : list (pyval * list (pystr * ChunkAnalysis)))
    (items : list (pystr * ChunkAnalysis)) : Prop :=
  mjoin (snd <$> groups) ≡ₚ items
  ∧ Forall
      (λ g, Forall (λ item, py_eqb g.1 (content_type item.2) = true) g.2
            ∧ g.2 `sublist_of` items)
      groups
  ∧ ForallOrdPairs (λ g g', py_eqb g.1 g'.1 = false) groups.

(** ** The two passes, as values

    What the loops of the two passes build, as their proofs of totality
    below show. *)

Section Passes.
Context `{RT : PyRuntime}.

(** The analysis that pass 1 keeps for the chunk at [index]. *)
Definition analysis_at (website_type : WebsiteType) (llm_provider : LLMProvider)
    (query : pystr) (index : Z) (chunk : pystr) : ChunkAnalysis :=
  match
    _analyze_single_chunk chunk index (_create_analysis_prompt website_type query)
      llm_provider
  with
  | Ok analysis => with_chunk_index analysis index
  | Raise _ => default_analysis index
  end.

Definition first_pass_analyses (chunks : list pystr) (website_type : WebsiteType)
    (llm_provider : LLMProvider) (query : pystr) : list ChunkAnalysis :=
  imap (λ i chunk, analysis_at website_type llm_provider query (Z.of_nat i) chunk) chunks.

End Passes.

(** The results that pass 2 collects for one content type: the dicts that
    the provider returns, the chunks on which it fails being skipped. *)
Definition collected (llm_provider : LLMProvider) (specialized_prompt : instruction)
    (chunk_list : list (pystr * ChunkAnalysis)) : list pydict :=
  omap
    (λ item : pystr * ChunkAnalysis,
       match extract llm_provider item.1 specialized_prompt (py "json") with
       | Ok (PDict d) => Some d
       | _ => None
       end)
    chunk_list.

Definition collected_results (llm_provider : LLMProvider) (website_type : WebsiteType)
    (original_query : pystr) (chunks_by_type : list (pyval * list (pystr * ChunkAnalysis)))
    : list (pyval * list pydict) :=
  omap
    (λ group : pyval * list (pystr * ChunkAnalysis),
       match
         collected llm_provider
           (_create_specialized_extraction_prompt group.1 website_type original_query)
           group.2
       with
       | [] => None
       | results => Some (group.1, results)
       end)
    chunks_by_type.

(** ** Inputs of the examples *)

(** A provider whose [extract] raises on every call. *)
Definition failing_provider : LLMProvider :=
  {| extract := λ _ _ _, Raise (ProviderError (py "service unavailable")) |}.

(** A provider that answers every call with
    [{"content_type": "review", "verdict": null}]. *)
Definition null_verdict_provider : LLMProvider :=
  {| extract := λ _ _ _,
       Ok (PDict (<[py "verdict" := PNone]> {[ py "content_type" := PStr (py "review") ]})) |}.

Definition example_chunk : pystr := py "prix: 999€, promotion".

Definition amazon_url : pystr := py "https://amazon.fr/dp/B0".

Definition plain_url : pystr := py "https://example.org/page".




Definition null_note_results : list pydict :=
  [ {[ py "note_globale" := PNone ]}; {[ py "note_globale" := PStr (py "8/10") ]} ].

Definition unknown_results : list (pyval * list pydict) :=
  [ (PStr (py "unknown"), [ {[ py "titre" := PStr (py "Galaxy") ]} ]) ].

Definition review_example : list pydict :=
  [ {[ py "points_forts" := PList [PStr (py "A")] ]};
    {[ py "points_forts" := PList [PStr (py "A"); PStr (py "B")] ]} ].

Definition general_example : list pydict :=
  [ {[ py "titre" := PStr (py "Galaxy") ]}; {[ py "titre" := PStr (py "Galaxy S25") ]} ].

Definition screen_specs : pydict :=
  {[ py "ecran" := PDict {[ py "taille" := PStr (py "6.2") ]} ]}.

Definition resolution_specs : pydict :=
  <[ py "os" := PStr (py "Android") ]>
    {[ py "ecran" := PDict {[ py "resolution" := PStr (py "FHD+") ]} ]}.

Definition battery_specs : pydict :=
  {[ py "batterie" := PDict {[ py "capacite" := PStr (py "4000 mAh") ]} ]}.

(** ** The OpenAI provider

    [OpenAIProvider.extract] of [src/llm/providers/openai_provider.py], the
    implementation of [llm_provider.extract] that the tree has. *)

(** [s.endswith(suffix)] *)
Definition str_endswith (suffix s : pystr) : bool :=
  is_prefix (reverse suffix) (reverse s).

Module OpenAIProvider.

(** What [extract] calls outside the repository: the [openai] library, and
    built-ins that the extractor does not use. *)
Record library : Type := {
  (** [self.openai.ChatCompletion.create(model=..., messages=[system, user],
      temperature=..., **extra_params)] for a model, a temperature and the
      two messages, followed by [response.choices[0].message.content]; what
      either raises is raised *)
  chat_completion : pystr → Q → pystr → pystr → result pystr;
  (** [str.strip()] *)
  str_strip : pystr → pystr;
  (** [json.loads(s)] on a string: [ValueError] stands for its subclass
      [json.JSONDecodeError], the only [ValueError] that [json.loads]
      raises *)
  json_loads : pystr → result pyval;
  (** [str(e)] *)
  exception_text : exn → pystr
}.

Record OpenAIProvider : Type := {
  (** [api_key or os.environ.get("OPENAI_API_KEY")]: a string or [None] *)
  api_key : option pystr;
  model : pystr;
  temperature : Q;
  openai : library
}.

(** [bool(self.api_key)] *)
Definition has_api_key (self : OpenAIProvider) : bool :=
  match api_key self with
  | Some (_ :: _) => true
  | _ => false
  end.

Definition system_prompt (output_format : pystr) : pystr :=
  py "Tu es un assistant spécialisé dans l'extraction de données à partir de contenu HTML. "
  ++ py "Analyse le contenu et extrait les informations demandées selon l'instruction. "
  ++ py "Réponds uniquement avec les données extraites au format " ++ output_format
  ++ py ". "
  ++ py "Si tu ne trouves pas d'information, renvoie un tableau/objet vide.".

(** The line feed. *)
Definition LF : N := 10%N.

Definition user_prompt (instruction content : pystr) : pystr :=
  py "### Instruction:" ++ [LF] ++ instruction ++ [LF; LF]
  ++ py "### Contenu:" ++ [LF] ++ content.

Section Extract.
Context `{RT : PyRuntime}.

(** The [if]/[elif] on the code fences; [result[a:-3]] is
    [(result[a:])[:-3]]. *)
Definition strip_fence (lib : library) (result : pystr) : pystr :=
  if is_prefix (py "```json") result && str_endswith (py "```") result
  then str_strip lib (py_slice_to (drop 7 result) (-3))
  else if is_prefix (py "```") result && str_endswith (py "```") result
  then str_strip lib (py_slice_to (drop 3 result) (-3))
  else result.

Definition extract (self : OpenAIProvider) (content instruction output_format : pystr)
    : result pyval :=
  if negb (has_api_key self) then Raise ValueError
  else
    let system_prompt := system_prompt output_format in
    let user_prompt := user_prompt instruction content in
    try_except
      (response ←
         chat_completion (openai self) (model self) (temperature self)
           system_prompt user_prompt;
       let result := str_strip (openai self) response in
       if bool_decide (str_lower output_format = py "json") then
         let result := strip_fence (openai self) result in
         match json_loads (openai self) result with
         | Ok value => Ok value
         | Raise ValueError =>
             Ok (PDict (<[py "error" := PStr (py "parsing_error")]>
                        {[ py "raw_response" := PStr result ]}))
         | Raise e => Raise e
         end
       else Ok (PDict {[ py "raw_response" := PStr result ]}))
      (λ e,
         Ok (PDict (<[py "content" := PStr (take 100 content ++ py "...")]>
                    {[ py "error" := PStr (exception_text (openai self) e) ]}))).

(** The provider as the extractor uses it: the extractor hands the text of
    its prompt, [text_of] an instruction, to [extract]. *)
Definition as_provider (text_of : instruction → pystr) (self : OpenAIProvider)
    : LLMProvider :=
  Build_LLMProvider
    (λ content instruction output_format,
       extract self content (text_of instruction) output_format).

End Extract.

(** What the provider returns when the call to the service raises [e]. *)
Definition error_answer (lib : library) (e : exn) (content : pystr) : pydict :=
  <[py "content" := PStr (take 100 content ++ py "...")]>
  {[ py "error" := PStr (exception_text lib e) ]}.

End OpenAIProvider.

(** ** Where the grouping of pass 2 stops *)

(** An analysis that [chunks_by_type[content_type].append((chunks[index], ...))]
    cannot take: its content type is unhashable, or its index is outside
    [-len(chunks) .. len(chunks) - 1]. *)
Definition ungroupable (chunks : list pystr) (a : ChunkAnalysis) : Prop :=
  ¬ (py_hashable (content_type a) = true
     ∧ (- Z.of_nat (length chunks) <= chunk_index a < Z.of_nat (length chunks))%Z).

#[global] Instance ungroupable_dec chunks a : Decision (ungroupable chunks a).
Proof. unfold ungroupable. apply _. Defined.

(** ** More inputs of the examples *)

(** A text of a thousand characters without any keyword. *)
Definition long_chunk : pystr := replicate 1000 120%N.

(** A URL whose authority opens a bracket that it does not close. *)
Definition bracket_url : pystr := py "http://[::1/page".

(** A provider that answers every call with [{"content_type": ["specs"]}]. *)
Definition list_type_provider : LLMProvider :=
  {| extract := λ _ _ _, Ok (PDict {[ py "content_type" := PList [PStr (py "specs")] ]}) |}.

(** A provider that answers every call with
    [{"content_type": "specs", "relevance_score": null}]. *)
Definition null_score_provider : LLMProvider :=
  {| extract := λ _ _ _,
       Ok (PDict (<[py "relevance_score" := PNone]>
                  {[ py "content_type" := PStr (py "specs") ]})) |}.

(** A provider that answers every call with [{"content_type": "pricing"}]. *)
Definition bare_type_provider : LLMProvider :=
  {| extract := λ _ _ _, Ok (PDict {[ py "content_type" := PStr (py "pricing") ]}) |}.

(** A provider that answers every call with the JSON array [[]]. *)
Definition list_answer_provider : LLMProvider :=
  {| extract := λ _ _ _, Ok (PList []) |}.

Fixpoint drop_while {A} (p : A → bool) (l : list A) : list A :=
  match l with
  | [] => []
  | x :: l' => if p x then drop_while p l' else l
  end.

(** A library for closed examples: the service answers with [response];
    [str.strip] removes ASCII white space; [json.loads] knows the empty
    object and rejects every other text. *)
Definition example_library (response : result pystr) : OpenAIProvider.library :=
  {| OpenAIProvider.chat_completion := λ _ _ _ _, response;
     OpenAIProvider.str_strip :=
       λ s, reverse (drop_while ascii_space (reverse (drop_while ascii_space s)));
     OpenAIProvider.json_loads :=
       λ s, if bool_decide (s = py "{}") then Ok (PDict ∅) else Raise ValueError;
     OpenAIProvider.exception_text := RobotsChecker.exception_text |}.

Definition example_openai (response : result pystr) : OpenAIProvider.OpenAIProvider :=
  {| OpenAIProvider.api_key := Some (py "sk-test");
     OpenAIProvider.model := py "gpt-3.5-turbo";
     OpenAIProvider.temperature := 0;
     OpenAIProvider.openai := example_library response |}.

(** A rendering of instructions for closed examples: the query alone. *)
Definition query_text (i : instruction) : pystr :=
  match i with
  | AnalysisInstruction original_query _ _ => original_query
  | ExtractionInstruction original_query _ => original_query
  end.

Definition price_results : list pydict :=
  [ <[py "promotions" := PList [PStr (py "-10%")]]> {[ py "prix_principal" := PStr (py "999€") ]};
    {[ py "prix_principal" := PStr [] ]};
    {[ py "prix_principal" := PStr (py "899€") ]} ].

Definition product_results : list pydict :=
  [ {[ py "produits" := PList [PStr (py "S25")] ]};
    {[ py "produits" := PList [PStr (py "S25"); PStr (py "S25+")] ]} ].

Definition ios_specs : pydict := {[ py "os" := PStr (py "iOS") ]}.

(** * Properties

    From here on, the claims of the specification about these definitions. *)

(** ** The heuristic classification *)

Section HeuristicFacts.
Context `{RT : PyRuntime}.

Lemma is_prefix_elem p s c : is_prefix p s = true → c ∈ p → c ∈ s.
Proof.
  revert s. induction p as [|a p IH]; intros [|b s] Hp Hc; simpl in *; try done.
  - by apply elem_of_nil in Hc.
  - apply andb_true_iff in Hp as [Hab Hp]. apply N.eqb_eq in Hab. subst b.
    apply elem_of_cons in Hc as [->|Hc]; [left|right; by apply IH].
Qed.

Lemma str_in_elem needle hay c : str_in needle hay = true → c ∈ needle → c ∈ hay.
Proof.
  induction hay as [|b hay IH]; simpl; intros H Hc.
  - rewrite orb_false_r in H. by eapply is_prefix_elem.
  - apply orb_true_iff in H as [H|H]; [by eapply is_prefix_elem|].
    right. by apply IH.
Qed.

Lemma elem_str_in c s : c ∈ s → str_in [c] s = true.
Proof.
  induction s as [|b s IH]; intros Hc.
  - by apply elem_of_nil in Hc.
  - simpl. apply elem_of_cons in Hc as [->|Hc].
    + by rewrite N.eqb_refl.
    + rewrite (IH Hc). by rewrite orb_true_r.
Qed.

Lemma re_spaces_euro_elem s : re_spaces_euro s = true → euro ∈ s.
Proof.
  induction s as [|c s IH]; simpl; [done|]. intros H.
  apply orb_true_iff in H as [H|H].
  - apply N.eqb_eq in H. subst. left.
  - apply andb_true_iff in H as [_ H]. right. by apply IH.
Qed.

Lemma re_digits_then_elem s : re_digits_then s = true → euro ∈ s.
Proof.
  induction s as [|c s IH]; simpl; [done|]. intros H.
  apply orb_true_iff in H as [H|H].
  - by apply (re_spaces_euro_elem (c :: s)).
  - apply andb_true_iff in H as [_ H]. right. by apply IH.
Qed.

Lemma re_search_price_elem s : re_search_price s = true → euro ∈ s.
Proof.
  induction s as [|c s IH]; simpl; [done|]. intros H.
  apply orb_true_iff in H as [H|H].
  - apply andb_true_iff in H as [_ H]. right. by apply re_digits_then_elem.
  - right. by apply IH.
Qed.

Lemma pricing_keywords_split text :
  existsb (λ kw, str_in kw text) pricing_keywords
  = bool_decide (euro ∈ text) || existsb (λ kw, str_in kw text) Spec.price_words.
Proof.
  change pricing_keywords with ([euro] :: Spec.price_words).
  cbn [existsb]. f_equal.
  apply eq_true_iff_eq. rewrite bool_decide_eq_true. split.
  - intros H. eapply str_in_elem; [done|left].
  - apply elem_str_in.
Qed.



Lemma bool_times_nonneg b w : (0 <= w)%Q → (0 <= bool_times b w)%Q.
Proof. destruct b; simpl; [done|]. intros _. apply Qle_refl. Qed.

Lemma length_ratio_nonneg (n : nat) : (0 <= inject_Z (Z.of_nat n) / 1000)%Q.
Proof. unfold Qle, Qdiv. simpl. lia. Qed.

Lemma heuristic_flags chunk index :
  let text := str_lower chunk in
  let a := _heuristic_analysis chunk index in
  contains_specs a = PBool (2 <=? Spec.keyword_hits specs_keywords text)%nat
  ∧ contains_pricing a
    = PBool (existsb (λ kw, str_in kw text) pricing_keywords || re_search_price chunk)
  ∧ contains_review a = PBool (1 <=? Spec.keyword_hits review_keywords text)%nat.
Proof.
  cbv zeta. unfold _heuristic_analysis, Spec.keyword_hits, count_if.
  repeat match goal with |- context [if ?b then _ else _] => destruct b end; done.
Qed.

Lemma heuristic_pricing_flag chunk :
  (∀ s, euro ∈ s → euro ∈ str_lower s) →
  existsb (λ kw, str_in kw (str_lower chunk)) pricing_keywords || re_search_price chunk
  = bool_decide (euro ∈ str_lower chunk)
    || existsb (λ kw, str_in kw (str_lower chunk)) Spec.price_words.
Proof.
  intros Hlower. rewrite pricing_keywords_split.
  destruct (re_search_price chunk) eqn:Hre; [|by rewrite orb_false_r].
  rewrite orb_true_r. symmetry. apply orb_true_iff. left.
  apply bool_decide_eq_true. by apply Hlower, re_search_price_elem.
Qed.


Lemma heuristic_normal_form chunk index :
  (∀ s, euro ∈ s → euro ∈ str_lower s) →
  let text := str_lower chunk in
  let hs := Spec.keyword_hits specs_keywords text in
  let cp := bool_decide (euro ∈ text) || existsb (λ kw, str_in kw text) Spec.price_words in
  let hr := Spec.keyword_hits review_keywords text in
  _heuristic_analysis chunk index
  = {| chunk_index := index;
       content_type :=
         PStr (if (3 <=? hs)%nat then py "specs" else if cp then py "pricing"
               else if (1 <=? hr)%nat then py "review" else py "general");
       relevance_score :=
         Qmin 1 (inject_Z (Z.of_nat (length chunk)) / 1000
                 + bool_times (2 <=? hs)%nat (3 # 10)
                 + bool_times cp (2 # 10)
                 + bool_times (1 <=? hr)%nat (3 # 10));
       contains_specs := PBool (2 <=? hs)%nat;
       contains_pricing := PBool cp;
       contains_review := PBool (1 <=? hr)%nat;
       key_topics := PList [];
       priority :=
         if (3 <=? hs)%nat then 1 else if cp then 2
         else if (1 <=? hr)%nat then 1 else 3 |}.
Proof.
  intros Hlower. cbv zeta. unfold _heuristic_analysis.
  rewrite (heuristic_pricing_flag chunk Hlower).
  unfold Spec.keyword_hits, count_if.
  set (hs := length (filter _ specs_keywords)).
  set (hr := length (filter _ review_keywords)).
  set (cp := bool_decide _ || _).
  destruct (3 <=? hs)%nat eqn:H3.
  - apply Nat.leb_le in H3. assert ((2 <=? hs)%nat = true) as -> by (apply Nat.leb_le; lia).
    done.
  - rewrite andb_false_r. by destruct cp, (1 <=? hr)%nat.
Qed.

(** C2: the heuristic fallback is a function of the chunk text alone, and it
    is the classifier of the specification. Provided that [str.lower] keeps
    the euro sign, for every chunk: the content type is [specs] with three
    spec keywords or more, else [pricing] with a currency symbol or a price
    keyword, else [review] with a review keyword, else [general]; the
    priority is 1 for specs and review, 2 for pricing, 3 for general; the
    relevance score is [min(1, len(chunk)/1000 + bonuses)] and lies between
    0 and 1; whatever provider fails on the chunk, [_analyze_single_chunk]
    returns this analysis; and a chunk that contains ["prix: 999€,
    promotion"] has [contains_pricing] true. The chunk ["prix: 999€,
    promotion"] itself, which [str.lower] leaves as it is, is classified
    [pricing] with priority 2 and [contains_pricing] true. *)
Theorem heuristic_fallback_meets_spec :
  (∀ s, euro ∈ s → euro ∈ str_lower s) →
  (∀ chunk index,
     let a := _heuristic_analysis chunk index in
     content_type a = PStr (py (Spec.classify chunk))
     ∧ priority a = Spec.priority_of (Spec.classify chunk)
     ∧ (relevance_score a == Spec.relevance chunk)%Q
     ∧ (0 <= relevance_score a <= 1)%Q
     ∧ (∀ llm prompt,
          is_ok (extract llm chunk (prompt (take 2000 chunk)) (py "json")) = false →
          _analyze_single_chunk chunk index prompt llm = Ok a)
     ∧ (str_in example_chunk chunk = true → contains_pricing a = PBool true))
  ∧ (str_lower example_chunk = example_chunk →
     ∀ index,
       let a := _heuristic_analysis example_chunk index in
       content_type a = PStr (py "pricing") ∧ priority a = 2%Z
       ∧ contains_pricing a = PBool true).
Proof.
  intros Hlower. split.
  - intros chunk index. cbv zeta.
    rewrite (heuristic_normal_form chunk index Hlower). cbn [content_type priority
      relevance_score contains_pricing].
    unfold Spec.classify, Spec.relevance, Spec.keyword_bonus.
    set (hs := Spec.keyword_hits specs_keywords _).
    set (hr := Spec.keyword_hits review_keywords _).
    set (cp := bool_decide _ || _).
    set (len := (inject_Z _ / 1000)%Q).
    assert (0 <= len)%Q as Hlen by apply length_ratio_nonneg.
    repeat split.
    + by destruct (3 <=? hs)%nat, cp, (1 <=? hr)%nat.
    + by destruct (3 <=? hs)%nat, cp, (1 <=? hr)%nat.
    + apply Q.min_compat; [reflexivity|].
      destruct (2 <=? hs)%nat, cp, (1 <=? hr)%nat; simpl; ring.
    + apply Q.min_glb; [done|].
      destruct (2 <=? hs)%nat, cp, (1 <=? hr)%nat; simpl; lra.
    + apply Q.le_min_l.
    + intros llm prompt Hfail. unfold _analyze_single_chunk.
      destruct (extract llm chunk _ _) eqn:Hex; [done|]. simpl.
      by rewrite (heuristic_normal_form chunk index Hlower).
    + intros Hin. subst cp. f_equal. apply orb_true_iff. left.
      apply bool_decide_eq_true, Hlower.
      eapply str_in_elem; [exact Hin|]. vm_compute. set_solver.
  - intros Hfix index. cbv zeta.
    rewrite (heuristic_normal_form example_chunk index Hlower).
    rewrite Hfix. cbn [content_type priority contains_pricing].
    assert (Spec.keyword_hits specs_keywords example_chunk = 0) as -> by by vm_compute.
    assert (euro ∈ example_chunk) as Heuro by (vm_compute; set_solver).
    rewrite (bool_decide_true _ Heuro). done.
Qed.

End HeuristicFacts.

Lemma latin1_lower_keeps_euro (s : pystr) :
  euro ∈ s → euro ∈ str_lower (PyRuntime := latin1_runtime) s.
Proof.
  intros H. simpl. apply list_elem_of_fmap. exists euro. by split.
Qed.

Lemma heuristic_fallback_meets_spec_witness :
  str_lower (PyRuntime := latin1_runtime) example_chunk = example_chunk
  ∧ content_type (_heuristic_analysis (RT := latin1_runtime) example_chunk 0)
    = PStr (py "pricing")
  ∧ priority (_heuristic_analysis (RT := latin1_runtime) example_chunk 0) = 2%Z
  ∧ contains_pricing (_heuristic_analysis (RT := latin1_runtime) example_chunk 0)
    = PBool true.
Proof.
  assert (str_lower (PyRuntime := latin1_runtime) example_chunk = example_chunk) as Hfix
    by (vm_compute; reflexivity).
  split; [exact Hfix|].
  exact (proj2 (heuristic_fallback_meets_spec (RT := latin1_runtime)
                  latin1_lower_keeps_euro) Hfix 0%Z).
Defined.

(** ** Website type detection *)

Lemma known_domain_test_holds_first :
  list_find
    (λ entry : WebsiteType * patterns,
       existsb (λ domain, str_elem domain (domains entry.2)) (domains entry.2) = true)
    website_patterns
  = Some (0, (REVIEW, {| domains := py <$> ["frandroid.com"; "phonandroid.com"; "numerama.com"; "clubic.com"];
         indicators := py <$> ["test"; "review"; "avis"; "critique"; "verdict"; "note"; "rating"];
         priority_sections := py <$> ["specs"; "pros"; "cons"; "rating"; "conclusion"] |})).
Proof. reflexivity. Qed.

(** C5: what [detect_website_type] computes. The test on the known domains
    does not look at the domain of the URL and holds for the first entry of
    [website_patterns]: whenever [urlparse] accepts the URL the result is
    [REVIEW], for [https://amazon.fr/dp/B0] (a domain of the e-commerce list)
    as for [https://example.org/page] with a content that has no indicator
    word. *)
Theorem detect_website_type_is_review `{RT : PyRuntime} :
  (∀ url content,
     detect_website_type url content
     = match urlparse_netloc url with
       | Some _ => Ok REVIEW
       | None => Raise ValueError
       end)
  ∧ detect_website_type (RT := latin1_runtime) amazon_url (py "") = Ok REVIEW
  ∧ detect_website_type (RT := latin1_runtime) plain_url (py "bonjour") = Ok REVIEW.
Proof.
  split; [|split; reflexivity].
  intros url content. unfold detect_website_type, _extract_domain.
  destruct (urlparse_netloc url); [|done]. cbn [mbind result_bind].
  by rewrite known_domain_test_holds_first.
Qed.

(** ** Chunking and rate limiting *)

Module ChunkerFacts.
Import Chunker.

(** The fuel that [chunk_by_length] gives is never used up: any two amounts
    above the length of the text give the same chunks. *)
Lemma chunk_windows_fuel fuel fuel' rest max_length overlap lookback :
  length rest < fuel → length rest < fuel' →
  chunk_windows fuel rest max_length overlap lookback
  = chunk_windows fuel' rest max_length overlap lookback.
Proof.
  revert fuel' rest. induction fuel as [|fuel IH]; intros [|fuel'] rest Hf Hf'; try lia.
  simpl. destruct (length rest <=? max_length)%nat eqn:Hlen; [done|].
  f_equal. apply Nat.leb_gt in Hlen.
  apply IH; rewrite length_drop; lia.
Qed.

(** C9, amended: for every text that is not empty and whose length is
    strictly less than [max_length], [chunk_by_length] returns exactly one
    chunk, the text itself. *)
Theorem chunk_by_length_short_text (text : pystr) (max_length overlap lookback : nat) :
  text ≠ [] → length text < max_length →
  chunk_by_length (Some text) max_length overlap lookback = [text].
Proof.
  intros Hne Hlen. destruct text as [|c text]; [done|].
  unfold chunk_by_length. cbn [chunk_windows].
  assert ((length (c :: text) <=? max_length)%nat = true) as ->; [|done].
  apply Nat.leb_le. lia.
Qed.

Lemma chunk_by_length_short_text_witness :
  py "This is a short text." ≠ []
  ∧ length (py "This is a short text.") < 100
  ∧ chunk_by_length (Some (py "This is a short text.")) 100 20 50
    = [py "This is a short text."].
Proof.
  assert (py "This is a short text." ≠ []) as Hne by (vm_compute; discriminate).
  assert (length (py "This is a short text.") < 100) as Hlen by (vm_compute; lia).
  split; [exact Hne|]. split; [exact Hlen|].
  exact (chunk_by_length_short_text _ 100 20 50 Hne Hlen).
Defined.

Lemma chunk_by_length_empty_text :
  length ([] : pystr) < 100
  ∧ chunk_by_length (Some []) 100 20 50 = []
  ∧ chunk_by_length (Some []) 100 20 50 ≠ [[]].
Proof. split; [simpl; lia|]. split; [reflexivity|discriminate]. Qed.

End ChunkerFacts.

Module RobotsCheckerFacts.
Import RobotsChecker.

Lemma required_spacing_nonneg p c : (0 <= rate_limit c)%Q → (0 <= required_spacing p c)%Q.
Proof.
  intros H. unfold required_spacing. destruct (crawl_delay p (user_agent c)); [|done].
  eapply Qle_trans; [exact H|]. apply Q.le_max_r.
Qed.

Lemma sleep_consistent agent respect rate c d :
  (0 <= d)%Q → consistent agent respect rate c → consistent agent respect rate (sleep d c).
Proof.
  intros Hd [Ha Hr Hrt Ht Hdis]. split; simpl; try done.
  intros dom t Hl. specialize (Ht dom t Hl). lra.
Qed.

Lemma record_request_consistent agent respect rate c domain :
  respect = true →
  consistent agent respect rate c → consistent agent respect rate (record_request domain c).
Proof.
  intros Hres [Ha Hr Hrt Ht Hdis]. split; simpl; try done.
  - intros dom t. rewrite lookup_insert. case_decide.
    + intros [= <-]. apply Qle_refl.
    + apply Ht.
  - intros ?; congruence.
Qed.

Lemma cache_parser_consistent agent respect rate c domain p :
  consistent agent respect rate c → consistent agent respect rate (cache_parser domain p c).
Proof. intros [Ha Hr Hrt Ht Hdis]. by split. Qed.

Lemma can_fetch_consistent env agent respect rate c url :
  (0 <= rate)%Q →
  consistent agent respect rate c → consistent agent respect rate (can_fetch env c url).2.
Proof.
  intros Hrate Hc. unfold can_fetch.
  destruct (respect_robots c) eqn:Hres; simpl; [|done].
  assert (respect = true) as Hrespect by (destruct Hc; congruence).
  assert (rate_limit c = rate) as Hrl by by destruct Hc.
  destruct (parsers c !! domain_of env url) as [p|] eqn:Hp.
  - simpl. destruct (allows p (user_agent c) url); simpl; [|done].
    apply record_request_consistent; [done|].
    destruct (last_request_time c !! domain_of env url); [|done].
    apply sleep_consistent; [|done]. apply required_spacing_nonneg. by rewrite Hrl.
  - destruct (fetch_policy env (domain_of env url)) as [p|e]; simpl.
    + pose proof (cache_parser_consistent _ _ _ _ (domain_of env url) p Hc) as Hc'.
      destruct (allows p (user_agent c) url); simpl; [|done].
      apply record_request_consistent; [done|].
      destruct (last_request_time c !! domain_of env url); [|done].
      apply sleep_consistent; [|done].
      apply (required_spacing_nonneg p (cache_parser (domain_of env url) p c)).
      simpl. by rewrite Hrl.
    + apply sleep_consistent; [by rewrite Hrl|done].
Qed.

Lemma reachable_consistent env agent respect rate c :
  (0 <= rate)%Q → reachable env agent respect rate c → consistent agent respect rate c.
Proof.
  intros Hrate. induction 1 as [t0|c url _ IH|c d _ IH Hd].
  - by split.
  - by apply can_fetch_consistent.
  - by apply sleep_consistent.
Qed.


(** C8: in every state that the checker reaches, when the domain of the URL
    has a [last_request_time] [t1] and [can_fetch] allows the fetch, the
    request has slept for the full spacing, the larger of the crawl delay
    that the policy of the domain declares and the configured rate limit,
    and has then recorded the current time: the new [last_request_time] is
    at least [t1] plus that spacing. The rate limit is not negative. *)
Theorem can_fetch_spacing env agent respect rate c url t1 c' :
  (0 <= rate)%Q →
  reachable env agent respect rate c →
  last_request_time c !! domain_of env url = Some t1 →
  can_fetch env c url = ((true, None), c') →
  ∃ p spacing,
    parsers c' !! domain_of env url = Some p
    ∧ spacing = match crawl_delay p agent with
                | Some delay => Qmax delay rate
                | None => rate
                end
    ∧ now c' = (now c + spacing)%Q
    ∧ last_request_time c' !! domain_of env url = Some (now c')
    ∧ (t1 + spacing <= now c')%Q.
Proof.
  intros Hrate Hreach Hlast Hfetch.
  destruct (reachable_consistent _ _ _ _ _ Hrate Hreach) as [Ha Hr Hrt Ht Hdis].
  unfold can_fetch in Hfetch.
  destruct (respect_robots c) eqn:Hres; simpl in Hfetch.
  2:{ rewrite Hdis in Hlast by congruence. by rewrite lookup_empty in Hlast. }
  assert (∀ p c0,
    user_agent c0 = agent → rate_limit c0 = rate → now c0 = now c →
    last_request_time c0 = last_request_time c →
    parsers c0 !! domain_of env url = Some p →
    (if negb (allows p (user_agent c0) url)
     then ((false, Some (py "Interdit par robots.txt")), c0)
     else ((true, None),
           record_request (domain_of env url)
             match last_request_time c0 !! domain_of env url with
             | Some _ => sleep (required_spacing p c0) c0
             | None => c0
             end)) = ((true, None), c') →
    ∃ p spacing,
      parsers c' !! domain_of env url = Some p
      ∧ spacing = match crawl_delay p agent with
                  | Some delay => Qmax delay rate
                  | None => rate
                  end
      ∧ now c' = (now c + spacing)%Q
      ∧ last_request_time c' !! domain_of env url = Some (now c')
      ∧ (t1 + spacing <= now c')%Q) as Hpolicy.
  { intros p c0 Ha0 Hrt0 Hnow0 Hlast0 Hp0 Heq.
    destruct (allows p (user_agent c0) url); simpl in Heq; [|done].
    rewrite Hlast0, Hlast in Heq. injection Heq as <-.
    exists p, (required_spacing p c0). simpl.
    split; [done|]. split; [unfold required_spacing; by rewrite Ha0, Hrt0|].
    split; [by rewrite Hnow0|]. split; [by rewrite lookup_insert_eq|].
    specialize (Ht _ _ Hlast). rewrite Hnow0. lra. }
  destruct (parsers c !! domain_of env url) as [p|] eqn:Hp.
  - by apply (Hpolicy p c).
  - destruct (fetch_policy env (domain_of env url)) as [p|e]; simpl in Hfetch; [|done].
    apply (Hpolicy p (cache_parser (domain_of env url) p c)); try done.
    simpl. by rewrite lookup_insert_eq.
Qed.

Lemma can_fetch_spacing_witness :
  ∃ p spacing,
    parsers (can_fetch open_site after_first_request example_page).2
      !! domain_of open_site example_page = Some p
    ∧ spacing = match crawl_delay p (py "*") with
                | Some delay => Qmax delay 2
                | None => 2%Q
                end
    ∧ now (can_fetch open_site after_first_request example_page).2
      = (now after_first_request + spacing)%Q
    ∧ last_request_time (can_fetch open_site after_first_request example_page).2
        !! domain_of open_site example_page
      = Some (now (can_fetch open_site after_first_request example_page).2)
    ∧ (100 + spacing
       <= now (can_fetch open_site after_first_request example_page).2)%Q.
Proof.
  assert (0 <= 2)%Q as Hrate by (vm_compute; discriminate).
  assert (reachable open_site (py "*") true 2 after_first_request) as Hreach
    by (apply reach_fetch, reach_init).
  assert (last_request_time after_first_request !! domain_of open_site example_page
          = Some 100%Q) as Hlast by (vm_compute; reflexivity).
  assert (can_fetch open_site after_first_request example_page
          = ((true, None), (can_fetch open_site after_first_request example_page).2))
    as Hfetch by (vm_compute; reflexivity).
  exact (can_fetch_spacing open_site (py "*") true 2 after_first_request example_page
           100 _ Hrate Hreach Hlast Hfetch).
Defined.

End RobotsCheckerFacts.

(** ** Merging specs results *)

Lemma merge_value_None_r old : merge_value old None = old.
Proof. by destruct old as [[]|]. Qed.

Lemma specs_merge_lookup (specs res : pydict) (key : pystr) :
  specs_merge specs res !! key = merge_value (specs !! key) (res !! key).
Proof.
  revert key. unfold specs_merge.
  apply (map_fold_weak_ind (λ r (m : pydict), ∀ key, r !! key = merge_value (specs !! key) (m !! key))).
  - intros key. by rewrite lookup_empty, merge_value_None_r.
  - intros i x m r Hi IH key.
    pose proof (IH i) as Hri. rewrite Hi, merge_value_None_r in Hri.
    destruct (decide (i = key)) as [->|Hne].
    + rewrite lookup_insert_eq. rewrite Hri.
      destruct (specs !! key) as [old|] eqn:Hold; simpl.
      * destruct x, old; rewrite ?lookup_insert_eq; try done.
      * by rewrite lookup_insert_eq.
    + rewrite (lookup_insert_ne m) by done. rewrite <- IH.
      destruct (r !! i) as [old|]; [|by rewrite lookup_insert_ne].
      destruct x, old; rewrite ?lookup_insert_ne; done.
Qed.

Lemma no_conflict_sym (a b : pydict) : no_conflict a b → no_conflict b a.
Proof.
  intros H key vb va Hb Ha. destruct (H key va vb Ha Hb) as (da & db & -> & -> & Hd).
  exists db, da. by repeat split.
Qed.

Lemma specs_merge_swap (specs a b : pydict) :
  no_conflict a b →
  specs_merge (specs_merge specs a) b = specs_merge (specs_merge specs b) a.
Proof.
  intros Hab. apply map_eq. intros key. rewrite !specs_merge_lookup.
  destruct (a !! key) as [va|] eqn:Ha; [|by rewrite !merge_value_None_r].
  destruct (b !! key) as [vb|] eqn:Hb; [|by rewrite !merge_value_None_r].
  destruct (Hab key va vb Ha Hb) as (da & db & -> & -> & Hd).
  destruct (specs !! key) as [[]|]; simpl; try done.
  - do 2 f_equal. rewrite !(assoc_L (∪)). f_equal. by apply map_union_comm.
  - do 2 f_equal. by apply map_union_comm.
Qed.

Lemma pairwise_no_conflict_perm (l l' : list pydict) :
  l ≡ₚ l' → ForallOrdPairs no_conflict l → ForallOrdPairs no_conflict l'.
Proof.
  induction 1 as [|x l l' Hp IH|x y l|l l' l'' _ IH1 _ IH2]; intros Hl.
  - done.
  - inversion_clear Hl as [|? ? Hx Hl']. constructor; [|by apply IH].
    by rewrite <- Hp.
  - inversion_clear Hl as [|? ? Hy Hl']. inversion_clear Hl' as [|? ? Hx Hl].
    inversion_clear Hy as [|? ? Hyx Hy']. constructor; [|by constructor].
    constructor; [by apply no_conflict_sym|done].
  - by apply IH2, IH1.
Qed.

Lemma foldl_specs_merge_perm (l l' : list pydict) :
  l ≡ₚ l' → ForallOrdPairs no_conflict l →
  ∀ specs, foldl specs_merge specs l = foldl specs_merge specs l'.
Proof.
  induction 1 as [|x l l' Hp IH|x y l|l l' l'' Hp1 IH1 Hp2 IH2]; intros Hl specs.
  - done.
  - inversion_clear Hl. simpl. by apply IH.
  - inversion_clear Hl as [|? ? Hy Hl']. inversion_clear Hy as [|? ? Hyx Hy'].
    simpl. by rewrite (specs_merge_swap specs y x).
  - rewrite IH1 by done. apply IH2. by eapply pairwise_no_conflict_perm.
Qed.

(** C6: for specs results [A], [B], [C] without key-level conflict, folding
    the specs merge over any permutation of [[A; B; C]] gives the same
    mapping, and so the same [caracteristiques_techniques] in the
    aggregated result. *)
Theorem specs_merge_order_independent (A B C : pydict) (results : list pydict)
    (others : list (pyval * list pydict)) (website_type : WebsiteType) (query : pystr) :
  no_conflict A B → no_conflict A C → no_conflict B C →
  results ≡ₚ [A; B; C] →
  foldl specs_merge ∅ results = foldl specs_merge ∅ [A; B; C]
  ∧ _aggregate_extraction_results ((PStr (py "specs"), results) :: others) website_type query
    = _aggregate_extraction_results ((PStr (py "specs"), [A; B; C]) :: others)
        website_type query
  ∧ _aggregate_extraction_results [(PStr (py "specs"), results)] website_type query
    = Ok {[ py "caracteristiques_techniques" := PDict (foldl specs_merge ∅ [A; B; C]) ]}.
Proof.
  intros HAB HAC HBC Hperm.
  assert (foldl specs_merge ∅ results = foldl specs_merge ∅ [A; B; C]) as Heq.
  { symmetry. apply foldl_specs_merge_perm; [done|].
    repeat constructor; done. }
  split; [done|]. split.
  - unfold _aggregate_extraction_results.
    replace (er_lookup "specs" ((PStr (py "specs"), results) :: others))
      with (Some results) by done.
    replace (er_lookup "specs" ((PStr (py "specs"), [A; B; C]) :: others))
      with (Some [A; B; C]) by done.
    rewrite Heq.
    replace (er_lookup "review" ((PStr (py "specs"), results) :: others))
      with (er_lookup "review" ((PStr (py "specs"), [A; B; C]) :: others)) by done.
    replace (er_lookup "pricing" ((PStr (py "specs"), results) :: others))
      with (er_lookup "pricing" ((PStr (py "specs"), [A; B; C]) :: others)) by done.
    replace (er_lookup "product_list" ((PStr (py "specs"), results) :: others))
      with (er_lookup "product_list" ((PStr (py "specs"), [A; B; C]) :: others)) by done.
    replace (er_lookup "general" ((PStr (py "specs"), results) :: others))
      with (er_lookup "general" ((PStr (py "specs"), [A; B; C]) :: others)) by done.
    done.
  - unfold _aggregate_extraction_results.
    replace (er_lookup "specs" [(PStr (py "specs"), results)]) with (Some results) by done.
    rewrite Heq. done.
Qed.

Lemma no_conflictb_sound (a b : pydict) : no_conflictb a b = true → no_conflict a b.
Proof.
  intros H key va vb Ha Hb. unfold no_conflictb in H.
  rewrite forallb_forall in H.
  specialize (H (key, va)). simpl in H. rewrite Hb in H.
  assert (In (key, va) (map_to_list a)) as Hin.
  { apply list_elem_of_In. by apply elem_of_map_to_list. }
  specialize (H Hin). destruct va as [| | | | | |da]; try done.
  destruct vb as [| | | | | |db]; try done.
  exists da, db. split; [done|]. split; [done|].
  apply (map_disjoint_dom (D := gset pystr)). apply bool_decide_eq_true in H. exact H.
Qed.

Lemma specs_merge_order_independent_witness :
  foldl specs_merge ∅ [resolution_specs; screen_specs; battery_specs]
  = foldl specs_merge ∅ [screen_specs; resolution_specs; battery_specs].
Proof.
  assert (no_conflict screen_specs resolution_specs) as HAB
    by (apply no_conflictb_sound; vm_compute; reflexivity).
  assert (no_conflict screen_specs battery_specs) as HAC
    by (apply no_conflictb_sound; vm_compute; reflexivity).
  assert (no_conflict resolution_specs battery_specs) as HBC
    by (apply no_conflictb_sound; vm_compute; reflexivity).
  exact (proj1 (specs_merge_order_independent screen_specs resolution_specs battery_specs
                  [resolution_specs; screen_specs; battery_specs] [] REVIEW (py "")
                  HAB HAC HBC (perm_swap _ _ _))).
Defined.

(** ** Aggregation *)

(** *** Iteration and collection *)

Lemma extend_from_spec res key acc :
  extend_from res key acc
  = if field_is iterable key res then Ok (acc ++ field_items key res) else Raise TypeError.
Proof.
  unfold extend_from, field_is, iterable, field_items.
  destruct (res !! py key) as [v|]; [|by rewrite app_nil_r].
  destruct v; done.
Qed.

Lemma append_from_spec res key acc :
  append_from res key acc = acc ++ values_under key [res].
Proof.
  unfold append_from, values_under. simpl.
  destruct (res !! py key); [done|by rewrite app_nil_r].
Qed.

Lemma items_under_cons key res results :
  items_under key (res :: results) = field_items key res ++ items_under key results.
Proof. done. Qed.

Lemma values_under_cons key res results :
  values_under key (res :: results) = values_under key [res] ++ values_under key results.
Proof. unfold values_under. simpl. by destruct (res !! py key). Qed.

Lemma collect_review_from results acc :
  for_each
    (λ acc res,
       pf ← extend_from res "points_forts" (points_forts acc);
       pfa ← extend_from res "points_faibles" (points_faibles acc);
       Ok {| points_forts := pf;
             points_faibles := pfa;
             notes := append_from res "note_globale" (notes acc);
             verdicts := append_from res "verdict" (verdicts acc) |})
    results acc
  = if forallb review_iterable results
    then Ok {| points_forts := points_forts acc ++ items_under "points_forts" results;
               points_faibles := points_faibles acc ++ items_under "points_faibles" results;
               notes := notes acc ++ values_under "note_globale" results;
               verdicts := verdicts acc ++ values_under "verdict" results |}
    else Raise TypeError.
Proof.
  revert acc. induction results as [|res results IH]; intros acc.
  - simpl. destruct acc. by rewrite !app_nil_r.
  - cbn [for_each forallb]. rewrite !extend_from_spec. unfold review_iterable at 1.
    destruct (field_is iterable "points_forts" res); [|done].
    destruct (field_is iterable "points_faibles" res); [|done].
    cbn [mbind result_bind andb]. rewrite IH. cbn [points_forts points_faibles notes verdicts].
    destruct (forallb review_iterable results); [|done].
    rewrite !append_from_spec, !items_under_cons.
    rewrite (values_under_cons "note_globale" res results).
    rewrite (values_under_cons "verdict" res results).
    by rewrite <- !(assoc_L (++)).
Qed.

Lemma collect_review_spec results :
  collect_review results
  = if forallb review_iterable results
    then Ok {| points_forts := items_under "points_forts" results;
               points_faibles := items_under "points_faibles" results;
               notes := values_under "note_globale" results;
               verdicts := values_under "verdict" results |}
    else Raise TypeError.
Proof. unfold collect_review. by rewrite collect_review_from. Qed.

Lemma py_strs_spec vs :
  py_strs vs = if forallb is_str vs then Ok (strings_of vs) else Raise TypeError.
Proof.
  induction vs as [|v vs IH]; [done|].
  destruct v; try done. cbn [py_strs forallb is_str andb]. rewrite IH.
  by destruct (forallb is_str vs).
Qed.

Lemma hashable_items_split key res :
  field_is hashable_items key res
  = field_is iterable key res && forallb py_hashable (field_items key res).
Proof.
  unfold field_is, hashable_items, iterable, field_items.
  destruct (res !! py key) as [v|]; [|done]. by destruct (py_iter v).
Qed.

Lemma is_str_field key res :
  field_is is_str key res = forallb is_str (values_under key [res]).
Proof.
  unfold field_is, values_under. simpl.
  destruct (res !! py key); simpl; [by rewrite andb_true_r|done].
Qed.

Lemma review_shaped_split results :
  forallb review_shaped results
  = forallb review_iterable results
    && forallb py_hashable (items_under "points_forts" results)
    && forallb py_hashable (items_under "points_faibles" results)
    && forallb is_str (values_under "verdict" results).
Proof.
  induction results as [|res results IH]; [done|].
  rewrite items_under_cons, items_under_cons, values_under_cons.
  rewrite !forallb_app. cbn [forallb]. rewrite IH.
  unfold review_shaped, review_iterable.
  rewrite !hashable_items_split, is_str_field.
  repeat match goal with |- context [forallb ?p ?l] => destruct (forallb p l) end;
  repeat match goal with |- context [field_is ?p ?k ?r] => destruct (field_is p k r) end;
  done.
Qed.

Lemma aggregate_review_spec results aggregated :
  aggregate_review results aggregated
  = if forallb review_shaped results then Ok (review_value results aggregated)
    else Raise TypeError.
Proof.
  unfold aggregate_review. rewrite collect_review_spec, review_shaped_split.
  destruct (forallb review_iterable results); [|done].
  cbn [mbind result_bind points_forts points_faibles notes verdicts andb].
  unfold py_list_set.
  destruct (forallb py_hashable (items_under "points_forts" results)); [|done].
  destruct (forallb py_hashable (items_under "points_faibles" results)); [|done].
  cbn [mbind result_bind andb]. unfold review_value, joined, head_or_none.
  destruct (values_under "verdict" results) as [|v vs] eqn:Hv; [done|].
  unfold py_join. rewrite py_strs_spec.
  by destruct (forallb is_str (v :: vs)).
Qed.

Lemma aggregate_pricing_spec results aggregated :
  aggregate_pricing results aggregated
  = if forallb (field_is iterable "promotions") results
    then Ok (pricing_value results aggregated)
    else Raise TypeError.
Proof.
  unfold aggregate_pricing, pricing_value.
  assert (∀ acc : list pyval * list pyval,
    for_each
      (λ '(prix, promotions) res,
         let prix :=
           match res !! py "prix_principal" with
           | Some v => if py_truthy v then prix ++ [v] else prix
           | None => prix
           end in
         promotions ← extend_from res "promotions" promotions;
         Ok (prix, promotions))
      results acc
    = if forallb (field_is iterable "promotions") results
      then Ok (acc.1 ++ filter (λ v, py_truthy v = true)
                          (values_under "prix_principal" results),
               acc.2 ++ items_under "promotions" results)
      else Raise TypeError) as Hloop.
  { induction results as [|res results IH]; intros [prix promotions].
    - simpl. by rewrite !app_nil_r.
    - cbn [for_each forallb]. cbv zeta. rewrite extend_from_spec.
      destruct (field_is iterable "promotions" res); [|done].
      cbn [mbind result_bind andb]. rewrite IH.
      destruct (forallb (field_is iterable "promotions") results); [|done].
      cbn [fst snd]. rewrite items_under_cons, (values_under_cons _ res results).
      rewrite filter_app, !(assoc_L (++)). do 3 f_equal.
      unfold values_under. simpl. destruct (res !! py "prix_principal") as [v|]; simpl.
      + destruct (py_truthy v) eqn:Ht.
        * by rewrite filter_cons_True, filter_nil by done.
        * rewrite filter_cons_False, filter_nil by (by rewrite Ht). by rewrite app_nil_r.
      + by rewrite app_nil_r. }
  rewrite Hloop. by destruct (forallb _ results).
Qed.

Lemma aggregate_product_list_spec results aggregated :
  aggregate_product_list results aggregated
  = if forallb (field_is iterable "produits") results
    then Ok (product_list_value results aggregated)
    else Raise TypeError.
Proof.
  unfold aggregate_product_list, product_list_value.
  assert (∀ acc : list pyval,
    for_each (λ produits res, extend_from res "produits" produits) results acc
    = if forallb (field_is iterable "produits") results
      then Ok (acc ++ items_under "produits" results)
      else Raise TypeError) as Hloop.
  { induction results as [|res results IH]; intros acc.
    - simpl. by rewrite app_nil_r.
    - cbn [for_each forallb]. rewrite extend_from_spec.
      destruct (field_is iterable "produits" res); [|done].
      cbn [mbind result_bind andb]. rewrite IH.
      destruct (forallb _ results); [|done].
      by rewrite items_under_cons, (assoc_L (++)). }
  rewrite Hloop. by destruct (forallb _ results).
Qed.

(** The aggregation returns on the shapes it relies on, and raises
    [TypeError] on any other. *)
Lemma aggregate_spec extraction_results website_type query :
  _aggregate_extraction_results extraction_results website_type query
  = if aggregable extraction_results then Ok (aggregated_value extraction_results)
    else Raise TypeError.
Proof.
  unfold _aggregate_extraction_results, aggregable, aggregated_value, results_satisfy,
    when_present.
  destruct (er_lookup "review" extraction_results) as [rs|];
    [rewrite aggregate_review_spec; destruct (forallb review_shaped rs); [|done]|];
  cbn [mbind result_bind andb];
  (destruct (er_lookup "pricing" extraction_results) as [ps|];
    [rewrite aggregate_pricing_spec; destruct (forallb _ ps); [|done]|]);
  cbn [mbind result_bind andb];
  (destruct (er_lookup "product_list" extraction_results) as [ls|];
    [rewrite aggregate_product_list_spec; destruct (forallb _ ls); [|done]|]);
  cbn [mbind result_bind andb];
  destruct (er_lookup "specs" extraction_results), (er_lookup "general" extraction_results);
  done.
Qed.

(** *** Equality of hashable values and de-duplication *)

Lemma Qeq_bool_sym x y : Qeq_bool x y = Qeq_bool y x.
Proof.
  apply eq_true_iff_eq. rewrite !Qeq_bool_iff. split; intros H; by symmetry.
Qed.

Lemma py_eqb_sym a b : py_eqb a b = py_eqb b a.
Proof.
  destruct a, b; simpl; try done; try apply Qeq_bool_sym.
  apply bool_decide_ext. split; congruence.
Qed.

Lemma py_eqb_refl a : py_hashable a = true → py_eqb a a = true.
Proof.
  destruct a; simpl; try done; intros _; try (by apply Qeq_bool_iff).
  by apply bool_decide_eq_true.
Qed.

Lemma py_dedup_spec seen xs :
  forallb py_hashable xs = true →
  (∀ x, x ∈ py_dedup seen xs → x ∈ xs ∧ existsb (py_eqb x) seen = false)
  ∧ (∀ x, x ∈ xs →
       existsb (py_eqb x) seen = true ∨ ∃ y, y ∈ py_dedup seen xs ∧ py_eqb x y = true)
  ∧ ForallOrdPairs (λ a b, py_eqb a b = false) (py_dedup seen xs).
Proof.
  revert seen. induction xs as [|x xs IH]; intros seen Hh.
  - split; [|split]; [intros x Hx; by apply elem_of_nil in Hx ..|constructor].
  - cbn [forallb] in Hh. apply andb_true_iff in Hh as [Hx Hxs].
    cbn [py_dedup]. destruct (existsb (py_eqb x) seen) eqn:Hseen.
    + destruct (IH seen Hxs) as (Ha & Hb & Hc). split; [|split].
      * intros y Hy. destruct (Ha y Hy). split; [by right|done].
      * intros y Hy. apply elem_of_cons in Hy as [->|Hy]; [by left|by apply Hb].
      * done.
    + destruct (IH (x :: seen) Hxs) as (Ha & Hb & Hc). split; [|split].
      * intros y Hy. apply elem_of_cons in Hy as [->|Hy]; [split; [left|done]|].
        destruct (Ha y Hy) as [? Hn]. split; [by right|].
        cbn [existsb] in Hn. by apply orb_false_iff in Hn as [_ ?].
      * intros y Hy. apply elem_of_cons in Hy as [->|Hy].
        -- right. exists x. split; [left|by apply py_eqb_refl].
        -- destruct (Hb y Hy) as [Hs|(z & Hz & Hyz)].
           ++ cbn [existsb] in Hs. apply orb_true_iff in Hs as [Hs|Hs]; [|by left].
              right. exists x. split; [left|done].
           ++ right. exists z. split; [by right|done].
      * constructor; [|done]. apply Forall_forall. intros y Hy.
        destruct (Ha y Hy) as [_ Hn]. cbn [existsb] in Hn.
        apply orb_false_iff in Hn as [Hn _]. by rewrite py_eqb_sym.
Qed.

Lemma py_dedup_deduplicates xs :
  forallb py_hashable xs = true → deduplicates (py_dedup [] xs) xs.
Proof.
  intros Hh. destruct (py_dedup_spec [] xs Hh) as (Ha & Hb & Hc). split; [|split].
  - intros x Hx. by destruct (Ha x Hx).
  - intros x Hx. by destruct (Hb x Hx) as [?|?].
  - done.
Qed.

(** *** Keys of the aggregated result *)

Ltac key_ne := intros Hkeys; vm_compute in Hkeys; discriminate Hkeys.

Ltac lookup_keys :=
  repeat first
    [ rewrite lookup_insert_ne by key_ne
    | rewrite lookup_insert_eq
    | rewrite lookup_empty ].

Lemma dom_insert_within (key : pystr) (v : pyval) (m : pydict) (keys : gset pystr) :
  key ∈ keys → dom m ⊆ keys → dom (<[key := v]> m) ⊆ keys.
Proof. rewrite dom_insert_L. set_solver. Qed.

Lemma aggregated_key (name : string) :
  name ∈ ["caracteristiques_techniques"; "points_forts"; "points_faibles";
          "note_globale"; "verdict"; "prix_et_disponibilite"; "produits";
          "informations_generales"] →
  py name ∈ aggregated_keys.
Proof.
  intros H. unfold aggregated_keys. apply elem_of_list_to_set, list_elem_of_fmap.
  by exists name.
Qed.

Ltac aggregated_key := apply aggregated_key; set_solver.

Lemma when_present_dom (key : string) (er : list (pyval * list pydict))
    (step : list pydict → pydict → pydict)
    (aggregated : pydict) :
  (∀ results a, dom a ⊆ aggregated_keys → dom (step results a) ⊆ aggregated_keys) →
  dom aggregated ⊆ aggregated_keys →
  dom (when_present key er step aggregated) ⊆ aggregated_keys.
Proof. intros Hstep Ha. unfold when_present. destruct (er_lookup key er); auto. Qed.

Lemma aggregated_value_dom (extraction_results : list (pyval * list pydict)) :
  dom (aggregated_value extraction_results) ⊆ aggregated_keys.
Proof.
  unfold aggregated_value.
  repeat apply when_present_dom; try (rewrite dom_empty_L; apply empty_subseteq);
    intros results a Ha.
  - unfold general_value. case_bool_decide; [done|].
    apply dom_insert_within; [aggregated_key|done].
  - apply dom_insert_within; [aggregated_key|done].
  - apply dom_insert_within; [aggregated_key|done].
  - unfold review_value. repeat (apply dom_insert_within; [aggregated_key|]). done.
  - apply dom_insert_within; [aggregated_key|done].
Qed.


Lemma aggregated_value_review_lookup (er : list (pyval * list pydict)) rs :
  er_lookup "review" er = Some rs →
  aggregated_value er !! py "points_forts"
    = Some (PList (py_dedup [] (items_under "points_forts" rs)))
  ∧ aggregated_value er !! py "points_faibles"
    = Some (PList (py_dedup [] (items_under "points_faibles" rs)))
  ∧ aggregated_value er !! py "note_globale"
    = Some (head_or_none (values_under "note_globale" rs))
  ∧ aggregated_value er !! py "verdict" = Some (joined (values_under "verdict" rs)).
Proof.
  intros Hrs. unfold aggregated_value, when_present. rewrite Hrs.
  unfold general_value, product_list_value, pricing_value, review_value.
  destruct (er_lookup "general" er); [case_bool_decide|];
  destruct (er_lookup "product_list" er);
  destruct (er_lookup "pricing" er);
  repeat split; by lookup_keys.
Qed.

Lemma strings_of_values_under_verdict (results : list pydict) :
  strings_of (values_under "verdict" results) = Spec.non_null_verdicts results.
Proof.
  unfold strings_of, values_under, Spec.non_null_verdicts.
  induction results as [|res results IH]; [done|].
  cbn [omap list_omap]. destruct (res !! py "verdict") as [[]|]; cbn [omap list_omap];
    rewrite ?IH; done.
Qed.

Lemma aggregable_review (er : list (pyval * list pydict)) results :
  er_lookup "review" er = Some results → aggregable er = true →
  forallb review_shaped results = true.
Proof.
  intros Hrs Hagg. unfold aggregable, results_satisfy in Hagg. rewrite Hrs in Hagg.
  by apply andb_true_iff in Hagg as [[? _]%andb_true_iff _].
Qed.


(** C3, amended: when the aggregation receives review results whose list
    fields are iterable with hashable items and whose verdicts are strings,
    [points_forts] and [points_faibles] are the de-duplicated unions of the
    corresponding fields of all results (in some order), [note_globale] is
    the [note_globale] of the first result that has the key, null or not
    ([None] when no result has it), and [verdict] is the verdicts of all
    results that have one, joined with a space ([None] when there is
    none). *)
Theorem review_results_aggregated (er : list (pyval * list pydict))
    (results : list pydict) (website_type : WebsiteType) (query : pystr) :
  er_lookup "review" er = Some results →
  aggregable er = true →
  ∃ m forts faibles,
    _aggregate_extraction_results er website_type query = Ok m
    ∧ m !! py "points_forts" = Some (PList forts)
    ∧ deduplicates forts (items_under "points_forts" results)
    ∧ m !! py "points_faibles" = Some (PList faibles)
    ∧ deduplicates faibles (items_under "points_faibles" results)
    ∧ m !! py "note_globale" = Some (head_or_none (values_under "note_globale" results))
    ∧ m !! py "verdict"
      = Some (match values_under "verdict" results with
              | [] => PNone
              | _ :: _ => PStr (str_join (py " ") (Spec.non_null_verdicts results))
              end).
Proof.
  intros Hrs Hagg.
  pose proof (aggregable_review er results Hrs Hagg) as Hshaped.
  rewrite review_shaped_split in Hshaped.
  apply andb_true_iff in Hshaped as [Hshaped _].
  apply andb_true_iff in Hshaped as [Hshaped Hfaibles].
  apply andb_true_iff in Hshaped as [_ Hforts].
  destruct (aggregated_value_review_lookup er results Hrs) as (Hpf & Hpfa & Hnote & Hverdict).
  exists (aggregated_value er), (py_dedup [] (items_under "points_forts" results)),
    (py_dedup [] (items_under "points_faibles" results)).
  rewrite aggregate_spec, Hagg.
  split; [done|]. split; [done|]. split; [by apply py_dedup_deduplicates|].
  split; [done|]. split; [by apply py_dedup_deduplicates|]. split; [done|].
  rewrite Hverdict. unfold joined. by rewrite strings_of_values_under_verdict.
Qed.

Lemma review_null_note_counterexample :
  ∃ m,
    _aggregate_extraction_results [(PStr (py "review"), null_note_results)] REVIEW (py "")
    = Ok m
    ∧ m !! py "note_globale" = Some PNone
    ∧ Spec.first_non_null_note null_note_results = PStr (py "8/10").
Proof.
  eexists. split; [rewrite aggregate_spec; reflexivity|].
  split; [|reflexivity].
  by destruct (aggregated_value_review_lookup
                 [(PStr (py "review"), null_note_results)] null_note_results eq_refl)
    as (_ & _ & -> & _).
Qed.

(** *** General results *)

Lemma merge_general_snoc (results : list pydict) (res : pydict) :
  merge_general (results ++ [res]) = res ∪ merge_general results.
Proof. unfold merge_general. by rewrite foldl_app. Qed.

Lemma merge_general_dom (results : list pydict) (res : pydict) :
  res ∈ results → dom res ⊆ dom (merge_general results).
Proof.
  induction results as [|last results IH] using rev_ind; intros Hin.
  - by apply elem_of_nil in Hin.
  - rewrite merge_general_snoc, dom_union_L.
    apply elem_of_app in Hin as [Hin|Hin].
    + specialize (IH Hin). set_solver.
    + apply list_elem_of_singleton in Hin as ->. set_solver.
Qed.

Lemma merge_general_later_wins (results : list pydict) (i : nat) (res : pydict)
    (key : pystr) (v : pyval) :
  results !! i = Some res → res !! key = Some v →
  (∀ j later, i < j → results !! j = Some later → later !! key = None) →
  merge_general results !! key = Some v.
Proof.
  revert i. induction results as [|last results IH] using rev_ind; intros i Hi Hv Hlater.
  - done.
  - rewrite merge_general_snoc.
    destruct (decide (i = length results)) as [->|Hne].
    + rewrite lookup_app_r, Nat.sub_diag in Hi by done. injection Hi as ->.
      by apply lookup_union_Some_l.
    + assert (i < length results) as Hlt.
      { apply lookup_lt_Some in Hi. rewrite length_app in Hi. simpl in Hi. lia. }
      rewrite lookup_app_l in Hi by done.
      rewrite lookup_union_r.
      * apply (IH i); [done..|]. intros j later Hj Hl.
        apply (Hlater j); [done|]. rewrite lookup_app_l; [done|].
        by apply lookup_lt_Some in Hl.
      * apply (Hlater (length results)); [done|].
        by rewrite lookup_app_r, Nat.sub_diag.
Qed.

Lemma aggregated_value_general_lookup (er : list (pyval * list pydict)) :
  aggregated_value er !! py "informations_generales"
  = match er_lookup "general" er with
    | Some results =>
        if bool_decide (merge_general results = ∅) then None
        else Some (PDict (merge_general results))
    | None => None
    end.
Proof.
  unfold aggregated_value, when_present.
  unfold general_value, product_list_value, pricing_value, review_value, specs_value.
  destruct (er_lookup "general" er); [case_bool_decide|];
  destruct (er_lookup "product_list" er);
  destruct (er_lookup "pricing" er);
  destruct (er_lookup "review" er);
  destruct (er_lookup "specs" er);
  by lookup_keys.
Qed.


(** C7, amended: the results grouped under [general], and only those, are
    merged by [dict.update] in the order of the chunks, a later chunk
    winning on a key that two of them have; when one of these results is not
    empty the merged mapping is the entry [informations_generales] of the
    aggregated result, and it has the keys of that result. *)
Theorem general_results_merged (er : list (pyval * list pydict))
    (results : list pydict) (website_type : WebsiteType) (query : pystr) :
  er_lookup "general" er = Some results →
  aggregable er = true →
  ∃ m,
    _aggregate_extraction_results er website_type query = Ok m
    ∧ (merge_general results ≠ ∅ →
       m !! py "informations_generales" = Some (PDict (merge_general results)))
    ∧ (∀ res, res ∈ results → res ≠ ∅ →
         m !! py "informations_generales" = Some (PDict (merge_general results))
         ∧ dom res ⊆ dom (merge_general results))
    ∧ (∀ (i : nat) (res : pydict) (key : pystr) (v : pyval),
         results !! i = Some res → res !! key = Some v →
         (∀ (j : nat) (later : pydict),
            i < j → results !! j = Some later → later !! key = None) →
         merge_general results !! key = Some v).
Proof.
  intros Hrs Hagg. exists (aggregated_value er).
  rewrite aggregate_spec, Hagg, aggregated_value_general_lookup, Hrs.
  split; [done|]. split; [|split].
  - intros Hne. by rewrite bool_decide_false.
  - intros res Hin Hne. pose proof (merge_general_dom results res Hin) as Hdom.
    split; [|done]. rewrite bool_decide_false; [done|].
    intros Hempty. rewrite Hempty, dom_empty_L in Hdom.
    apply Hne, dom_empty_iff_L. set_solver.
  - apply merge_general_later_wins.
Qed.

Lemma unknown_results_dropped :
  _aggregate_extraction_results unknown_results GENERAL (py "") = Ok ∅
  ∧ ({[ py "titre" := PStr (py "Galaxy") ]} : pydict) ≠ ∅.
Proof.
  split; [by rewrite aggregate_spec|].
  intros H. apply (f_equal (λ m : pydict, m !! py "titre")) in H.
  by rewrite lookup_singleton_eq, lookup_empty in H.
Qed.

(** *** Content types that the aggregation does not read *)

Lemma er_lookup_skip (key : string) (before : list (pyval * list pydict))
    (entry : pyval * list pydict) (after : list (pyval * list pydict)) :
  py_eqb entry.1 (PStr (py key)) = false →
  er_lookup key (before ++ entry :: after) = er_lookup key (before ++ after).
Proof.
  intros Hne. unfold er_lookup. f_equal.
  induction before as [|e before IH]; simpl.
  - by rewrite Hne.
  - by rewrite IH.
Qed.

(** C10: every mapping that the aggregation returns has its keys among
    [caracteristiques_techniques], [points_forts], [points_faibles],
    [note_globale], [verdict], [prix_et_disponibilite], [produits] and
    [informations_generales]; the results grouped under a content type other
    than [specs], [review], [pricing], [product_list] and [general]
    contribute nothing: removing their entry leaves the outcome unchanged,
    and results under [unknown] alone give the empty mapping. *)
Theorem aggregated_keys_only (er : list (pyval * list pydict))
    (website_type : WebsiteType) (query : pystr) :
  (∀ m, _aggregate_extraction_results er website_type query = Ok m →
        dom m ⊆ aggregated_keys)
  ∧ (∀ before after content_type results,
       er = before ++ (content_type, results) :: after →
       aggregated_type content_type = false →
       _aggregate_extraction_results er website_type query
       = _aggregate_extraction_results (before ++ after) website_type query)
  ∧ (∀ results,
       _aggregate_extraction_results [(PStr (py "unknown"), results)] website_type query
       = Ok ∅).
Proof.
  split; [|split].
  - intros m. rewrite aggregate_spec. destruct (aggregable er); [|done].
    intros [= <-]. apply aggregated_value_dom.
  - intros before after content_type results -> Htype.
    unfold aggregated_type in Htype. cbn [existsb] in Htype.
    repeat (apply orb_false_iff in Htype as [? Htype]).
    unfold _aggregate_extraction_results.
    by rewrite !(er_lookup_skip _ before (content_type, results) after).
  - intros results. by rewrite aggregate_spec.
Qed.

Lemma review_results_aggregated_witness :
  ∃ m forts,
    _aggregate_extraction_results [(PStr (py "review"), review_example)] REVIEW (py "")
    = Ok m
    ∧ m !! py "points_forts" = Some (PList forts)
    ∧ deduplicates forts [PStr (py "A"); PStr (py "A"); PStr (py "B")].
Proof.
  destruct (review_results_aggregated [(PStr (py "review"), review_example)]
              review_example REVIEW (py "") eq_refl eq_refl)
    as (m & forts & faibles & Hm & Hf & Hd & _).
  exists m, forts. split; [exact Hm|]. split; [exact Hf|exact Hd].
Defined.

Lemma general_results_merged_witness :
  ∃ m,
    _aggregate_extraction_results [(PStr (py "general"), general_example)] GENERAL (py "")
    = Ok m
    ∧ merge_general general_example !! py "titre" = Some (PStr (py "Galaxy S25")).
Proof.
  destruct (general_results_merged [(PStr (py "general"), general_example)]
              general_example GENERAL (py "") eq_refl eq_refl)
    as (m & Hm & _ & _ & Hlater).
  exists m. split; [exact Hm|].
  apply (Hlater 1 {[ py "titre" := PStr (py "Galaxy S25") ]}); [reflexivity|reflexivity|].
  intros j later Hj Hl. destruct j as [|[|j]]; [lia|lia|discriminate Hl].
Defined.

Lemma aggregated_keys_only_witness :
  _aggregate_extraction_results unknown_results GENERAL (py "")
  = _aggregate_extraction_results [] GENERAL (py "").
Proof.
  exact (proj1 (proj2 (aggregated_keys_only unknown_results GENERAL (py "")))
           [] [] (PStr (py "unknown")) [ {[ py "titre" := PStr (py "Galaxy") ]} ]
           eq_refl eq_refl).
Defined.

(** ** Prioritisation and grouping *)

(** *** Sorting *)

Section InsertionSort.
Context {A : Type} (lt : A → A → bool) (le : A → A → Prop).
Hypothesis le_trans : ∀ a b c, le a b → le b c → le a c.
Hypothesis lt_le : ∀ a b, lt a b = true → le a b.
Hypothesis not_lt_le : ∀ a b, lt a b = false → le b a.

Lemma insert_sorted_perm (x : A) (l : list A) : insert_sorted lt x l ≡ₚ x :: l.
Proof using Type.
  induction l as [|y l IH]; simpl; [done|].
  destruct (lt y x); [|done]. rewrite IH. apply perm_swap.
Qed.

Lemma py_sorted_perm (l : list A) : py_sorted lt l ≡ₚ l.
Proof using Type.
  induction l as [|x l IH]; simpl; [done|].
  unfold py_sorted in *. simpl. by rewrite insert_sorted_perm, IH.
Qed.

Lemma insert_sorted_sorted (x : A) (l : list A) :
  StronglySorted le l → StronglySorted le (insert_sorted lt x l).
Proof using le_trans lt_le not_lt_le.
  induction 1 as [|y l Hl IH Hy]; simpl.
  - repeat constructor.
  - destruct (lt y x) eqn:Hyx.
    + constructor; [done|]. rewrite insert_sorted_perm. constructor; [|done].
      by apply lt_le.
    + pose proof (not_lt_le _ _ Hyx) as Hxy. constructor; [by constructor|].
      constructor; [done|]. eapply Forall_impl; [exact Hy|]. intros z Hz.
      by eapply le_trans.
Qed.

Lemma py_sorted_sorted (l : list A) : StronglySorted le (py_sorted lt l).
Proof using le_trans lt_le not_lt_le.
  induction l as [|x l IH]; [constructor|].
  unfold py_sorted in *. simpl. by apply insert_sorted_sorted.
Qed.

(** A list that is already in strict order is left as it is. *)
Lemma py_sorted_id (l : list A) :
  StronglySorted (λ a b, lt b a = false) l → py_sorted lt l = l.
Proof using Type.
  induction 1 as [|x l Hl IH Hx]; [done|].
  unfold py_sorted in *. simpl. rewrite IH.
  destruct l as [|y l]; [done|]. simpl.
  apply Forall_cons in Hx as [Hyx _]. by rewrite Hyx.
Qed.

End InsertionSort.

Lemma Qltb_lt (a b : Q) : Qltb a b = true ↔ (a < b)%Q.
Proof.
  unfold Qltb. rewrite negb_true_iff. split.
  - intros H. apply Qnot_le_lt. intros Hle. apply Qle_bool_iff in Hle. congruence.
  - intros H. destruct (Qle_bool b a) eqn:Hle; [|done].
    apply Qle_bool_iff in Hle. lra.
Qed.

Lemma priority_key_lt_spec (x y : ChunkAnalysis) :
  priority_key_lt x y = true
  ↔ (priority x < priority y)%Z
    ∨ (priority x = priority y ∧ (relevance_score y < relevance_score x)%Q).
Proof.
  unfold priority_key_lt. rewrite orb_true_iff, andb_true_iff, Z.ltb_lt, Z.eqb_eq, Qltb_lt.
  split; (intros [?|[? ?]]; [by left|right; split; [done|lra]]).
Qed.

Lemma priority_key_lt_le (x y : ChunkAnalysis) :
  priority_key_lt x y = true → priority_key_le x y.
Proof.
  rewrite priority_key_lt_spec. intros [?|[? ?]]; [by left|right; split; [done|lra]].
Qed.

Lemma priority_key_not_lt_le (x y : ChunkAnalysis) :
  priority_key_lt x y = false → priority_key_le y x.
Proof.
  intros Hlt. unfold priority_key_le.
  destruct (Z.lt_trichotomy (priority x) (priority y)) as [H|[H|H]].
  - assert (priority_key_lt x y = true) by (apply priority_key_lt_spec; by left). congruence.
  - right. split; [done|]. apply Qnot_lt_le. intros Hq.
    assert (priority_key_lt x y = true) by (apply priority_key_lt_spec; by right). congruence.
  - by left.
Qed.

Lemma priority_key_le_trans (x y z : ChunkAnalysis) :
  priority_key_le x y → priority_key_le y z → priority_key_le x z.
Proof.
  unfold priority_key_le. intros [?|[? ?]] [?|[? ?]]; try (left; lia).
  right. split; [lia|lra].
Qed.

Lemma prioritized_sorted (analyses : list ChunkAnalysis) :
  py_sorted priority_key_lt analyses ≡ₚ analyses
  ∧ StronglySorted priority_key_le (py_sorted priority_key_lt analyses).
Proof.
  split; [apply py_sorted_perm|].
  apply py_sorted_sorted.
  - apply priority_key_le_trans.
  - apply priority_key_lt_le.
  - apply priority_key_not_lt_le.
Qed.

Lemma py_slice_to_take {A} (l : list A) (k : Z) : ∃ n, py_slice_to l k = take n l.
Proof. unfold py_slice_to. destruct (k <? 0)%Z; eauto. Qed.

Lemma prioritized_subset (analyses : list ChunkAnalysis) (max_chunks : option Z) :
  prioritized analyses max_chunks ⊆ analyses.
Proof.
  unfold prioritized. intros a Ha.
  rewrite <- (py_sorted_perm priority_key_lt analyses).
  destruct max_chunks as [k|]; [|done]. destruct (k =? 0)%Z; [done|].
  destruct (py_slice_to_take (py_sorted priority_key_lt analyses) k) as [n Hn].
  rewrite Hn in Ha. by eapply subseteq_take.
Qed.

(** *** Grouping *)

Section Grouping.
Implicit Types (groups : list (pyval * list (pystr * ChunkAnalysis)))
  (items : list (pystr * ChunkAnalysis)) (item : pystr * ChunkAnalysis) (key : pyval).

Lemma group_append_join key item groups :
  mjoin (snd <$> group_append key item groups) ≡ₚ mjoin (snd <$> groups) ++ [item].
Proof.
  induction groups as [|[k its] groups IH]; simpl; [done|].
  destruct (py_eqb k key); simpl.
  - by rewrite <- !(assoc_L (++)), (comm (++) [item]).
  - by rewrite IH, (assoc_L (++)).
Qed.

Lemma group_append_keys key item groups g :
  g ∈ group_append key item groups → g.1 = key ∨ ∃ g', g' ∈ groups ∧ g'.1 = g.1.
Proof.
  induction groups as [|[k its] groups IH]; simpl.
  - intros ->%list_elem_of_singleton. by left.
  - destruct (py_eqb k key).
    + intros [->|Hg]%elem_of_cons; right.
      * exists (k, its). split; [left|done].
      * exists g. split; [by right|done].
    + intros [->|Hg]%elem_of_cons.
      * right. exists (k, its). split; [left|done].
      * destruct (IH Hg) as [?|(g' & ? & ?)]; [by left|].
        right. exists g'. split; [by right|done].
Qed.

Lemma group_append_members key item groups items :
  py_hashable key = true → key = content_type item.2 →
  Forall
    (λ g, Forall (λ item, py_eqb g.1 (content_type item.2) = true) g.2
          ∧ g.2 `sublist_of` items)
    groups →
  Forall
    (λ g, Forall (λ item, py_eqb g.1 (content_type item.2) = true) g.2
          ∧ g.2 `sublist_of` (items ++ [item]))
    (group_append key item groups).
Proof.
  intros Hh Hkey. induction 1 as [|[k its] groups [Hits Hsub] Htail IH]; simpl.
  - constructor; [|done]. simpl. split.
    + constructor; [|done]. rewrite <- Hkey. by apply py_eqb_refl.
    + apply sublist_inserts_l. done.
  - destruct (py_eqb k key) eqn:Hk.
    + constructor.
      * simpl in *. split.
        -- apply Forall_app. split; [done|]. constructor; [|done]. by rewrite <- Hkey.
        -- by apply sublist_app.
      * eapply Forall_impl; [exact Htail|]. intros g [? ?]. split; [done|].
        by apply sublist_inserts_r.
    + constructor; [|done]. simpl in *. split; [done|]. by apply sublist_inserts_r.
Qed.

Lemma group_append_distinct key item groups :
  ForallOrdPairs (λ g g', py_eqb g.1 g'.1 = false) groups →
  ForallOrdPairs (λ g g', py_eqb g.1 g'.1 = false) (group_append key item groups).
Proof.
  induction 1 as [|[k its] groups Hk Hrest IH]; simpl.
  - repeat constructor.
  - destruct (py_eqb k key) eqn:Hkey.
    + constructor; [exact Hk|exact Hrest].
    + constructor; [|done]. apply Forall_forall. intros g Hg. simpl.
      destruct (group_append_keys _ _ _ _ Hg) as [->|(g' & Hg' & <-)]; [done|].
      rewrite Forall_forall in Hk. by apply Hk.
Qed.

Lemma group_append_grouped key item groups items :
  py_hashable key = true → key = content_type item.2 →
  grouped groups items → grouped (group_append key item groups) (items ++ [item]).
Proof.
  intros Hh Hkey (Hperm & Hmem & Hdist). split; [|split].
  - by rewrite group_append_join, Hperm.
  - by apply group_append_members.
  - by apply group_append_distinct.
Qed.

Lemma group_by_content_type_from (chunks : list pystr) (analyses : list ChunkAnalysis)
    groups items :
  Forall (λ a, py_hashable (content_type a) = true
               ∧ is_ok (py_index chunks (chunk_index a)) = true) analyses →
  grouped groups items →
  ∃ groups' items',
    for_each
      (λ chunks_by_type analysis,
         let content_type := content_type analysis in
         if py_hashable content_type then
           chunk ← py_index chunks (chunk_index analysis);
           Ok (group_append content_type (chunk, analysis) chunks_by_type)
         else Raise TypeError)
      analyses groups
    = Ok groups'
    ∧ grouped groups' (items ++ items')
    ∧ items'.*2 = analyses
    ∧ Forall (λ item, py_index chunks (chunk_index item.2) = Ok item.1) items'.
Proof.
  intros Hall. revert groups items.
  induction Hall as [|a analyses [Hh Hidx] _ IH]; intros groups items Hg.
  - exists groups, []. rewrite app_nil_r. split; [done|]. split; [done|]. by split.
  - destruct (py_index chunks (chunk_index a)) as [chunk|] eqn:Hchunk; [|done].
    destruct (IH (group_append (content_type a) (chunk, a) groups) (items ++ [(chunk, a)]))
      as (groups' & items' & Hfor & Hg' & Hsnd & Hchunks).
    { by apply group_append_grouped. }
    exists groups', ((chunk, a) :: items').
    split; [cbn [for_each]; cbv zeta; rewrite Hh, Hchunk; exact Hfor|].
    split; [by rewrite <- (assoc_L (++)) in Hg'|].
    split; [cbn [fmap list_fmap snd]; by f_equal|]. by constructor.
Qed.

Lemma group_by_content_type_spec (chunks : list pystr) (analyses : list ChunkAnalysis) :
  Forall (λ a, py_hashable (content_type a) = true
               ∧ is_ok (py_index chunks (chunk_index a)) = true) analyses →
  ∃ groups items,
    group_by_content_type chunks analyses = Ok groups
    ∧ grouped groups items
    ∧ items.*2 = analyses
    ∧ Forall (λ item, py_index chunks (chunk_index item.2) = Ok item.1) items.
Proof.
  intros Hall.
  destruct (group_by_content_type_from chunks analyses [] [] Hall)
    as (groups & items & ? & ? & ? & ?).
  { split; [done|]. split; constructor. }
  by exists groups, items.
Qed.

End Grouping.




(** ** The pipeline *)

Section PipelineFacts.
Context `{RT : PyRuntime}.

(** *** Pass 1 never raises *)

Lemma heuristic_analysis_index (chunk : pystr) (index : Z) :
  chunk_index (_heuristic_analysis chunk index) = index.
Proof.
  unfold _heuristic_analysis.
  repeat match goal with |- context [if ?b then _ else _] => destruct b end; done.
Qed.

Lemma heuristic_analysis_hashable (chunk : pystr) (index : Z) :
  py_hashable (content_type (_heuristic_analysis chunk index)) = true.
Proof.
  unfold _heuristic_analysis.
  repeat match goal with |- context [if ?b then _ else _] => destruct b end; done.
Qed.

Lemma analyze_single_chunk_returns (chunk : pystr) (index : Z)
    (prompt : pystr → instruction) (llm_provider : LLMProvider) :
  ∃ analysis,
    _analyze_single_chunk chunk index prompt llm_provider = Ok analysis
    ∧ chunk_index analysis = index.
Proof.
  pose proof (heuristic_analysis_index chunk index) as Hh.
  unfold _analyze_single_chunk.
  destruct (extract llm_provider chunk (prompt (take 2000 chunk)) (py "json"))
    as [v|e]; [destruct v as [| | | | | |d]|]; cbn [mbind result_bind try_except]; eauto.
  destruct (bool_decide (is_Some (d !! py "content_type")));
    cbn [mbind result_bind try_except]; eauto.
  destruct (py_float _); cbn [mbind result_bind try_except]; eauto.
  destruct (py_int _); cbn [mbind result_bind try_except]; eauto.
Qed.

Lemma analyze_single_chunk_fallback (chunk : pystr) (index : Z)
    (prompt : pystr → instruction) (llm_provider : LLMProvider) :
  is_ok (extract llm_provider chunk (prompt (take 2000 chunk)) (py "json")) = false →
  _analyze_single_chunk chunk index prompt llm_provider
  = Ok (_heuristic_analysis chunk index).
Proof.
  intros Hfail. unfold _analyze_single_chunk.
  by destruct (extract llm_provider chunk _ _).
Qed.

Lemma first_pass_loop (website_type : WebsiteType) (llm_provider : LLMProvider)
    (query : pystr) (indexed : list (Z * pystr)) (acc : list ChunkAnalysis) :
  for_each
    (λ analyses '(chunk_index, chunk),
       try_except
         (analysis ← _analyze_single_chunk chunk chunk_index
                       (_create_analysis_prompt website_type query) llm_provider;
          Ok (analyses ++ [with_chunk_index analysis chunk_index]))
         (λ e, Ok (analyses ++ [default_analysis chunk_index])))
    indexed acc
  = Ok (acc ++ ((λ p : Z * pystr, analysis_at website_type llm_provider query p.1 p.2)
                  <$> indexed)).
Proof.
  revert acc. induction indexed as [|[i chunk] indexed IH]; intros acc.
  - simpl. by rewrite app_nil_r.
  - cbn [for_each]. unfold analysis_at at 1. cbn [fst snd fmap list_fmap].
    destruct (_analyze_single_chunk chunk i _ llm_provider) as [a|e];
      cbn [mbind result_bind try_except]; rewrite IH; by rewrite <- (assoc_L (++)).
Qed.

Lemma enumerate_from_sorted (chunks : list pystr) (k : nat) :
  StronglySorted (λ p q : Z * pystr, (p.1 < q.1)%Z)
    (imap (λ i x, (Z.of_nat (k + i), x)) chunks)
  ∧ Forall (λ p : Z * pystr, (Z.of_nat k <= p.1)%Z)
      (imap (λ i x, (Z.of_nat (k + i), x)) chunks).
Proof.
  revert k. induction chunks as [|chunk chunks IH]; intros k.
  - split; constructor.
  - rewrite imap_cons.
    rewrite (imap_ext _ (λ i x, (Z.of_nat (S k + i), x))).
    2:{ intros i x _. simpl. do 2 f_equal. lia. }
    destruct (IH (S k)) as [Hs Hf]. split.
    + constructor; [done|]. eapply Forall_impl; [exact Hf|].
      intros p Hp. simpl in *. lia.
    + constructor; [simpl; lia|]. eapply Forall_impl; [exact Hf|].
      intros p Hp. simpl in *. lia.
Qed.

Lemma enumerate_sorted (chunks : list pystr) :
  StronglySorted (λ p q : Z * pystr, (p.1 < q.1)%Z) (enumerate chunks).
Proof. apply (enumerate_from_sorted chunks 0). Qed.

Lemma analysis_at_index website_type llm_provider query (i : Z) (chunk : pystr) :
  chunk_index (analysis_at website_type llm_provider query i chunk) = i.
Proof. unfold analysis_at. by destruct (_analyze_single_chunk _ _ _ _). Qed.

Lemma analyze_chunks_first_pass_spec (chunks : list pystr) (website_type : WebsiteType)
    (llm_provider : LLMProvider) (query : pystr) :
  analyze_chunks_first_pass chunks website_type llm_provider query
  = Ok (first_pass_analyses chunks website_type llm_provider query).
Proof.
  unfold analyze_chunks_first_pass. cbv zeta. rewrite first_pass_loop.
  cbn [mbind result_bind app]. f_equal.
  rewrite py_sorted_id.
  - unfold enumerate, first_pass_analyses. rewrite fmap_imap. by apply imap_ext.
  - eapply (StronglySorted_fmap _ (λ p q : Z * pystr, (p.1 < q.1)%Z));
      [|apply enumerate_sorted].
    intros p q Hpq. rewrite !analysis_at_index. by apply Z.ltb_ge, Z.lt_le_incl.
Qed.

Lemma first_pass_analyses_length chunks website_type llm_provider query :
  length (first_pass_analyses chunks website_type llm_provider query) = length chunks.
Proof. apply length_imap. Qed.

Lemma first_pass_analyses_lookup chunks website_type llm_provider query (a : ChunkAnalysis) :
  a ∈ first_pass_analyses chunks website_type llm_provider query →
  ∃ (i : nat) (chunk : pystr),
    chunks !! i = Some chunk
    ∧ a = analysis_at website_type llm_provider query (Z.of_nat i) chunk.
Proof.
  intros [i Hi]%list_elem_of_lookup. unfold first_pass_analyses in Hi.
  rewrite list_lookup_imap in Hi.
  destruct (chunks !! i) as [chunk|] eqn:Hc; [|done].
  injection Hi as <-. by exists i, chunk.
Qed.

Lemma py_index_nat {A} (l : list A) (i : nat) (x : A) :
  l !! i = Some x → py_index l (Z.of_nat i) = Ok x.
Proof.
  intros Hl. unfold py_index.
  destruct (Z.ltb_spec (Z.of_nat i) 0) as [|_]; [lia|].
  destruct (Z.ltb_spec (Z.of_nat i) 0) as [|_]; [lia|].
  by rewrite Nat2Z.id, Hl.
Qed.


(** *** Pass 2 never raises on a failure of the provider *)

Lemma extract_type_results_from (llm_provider : LLMProvider)
    (specialized_prompt : instruction) (chunk_list : list (pystr * ChunkAnalysis))
    (acc : list pydict) :
  for_each
    (λ type_results '(chunk_content, analysis),
       try_except
         (result ← extract llm_provider chunk_content specialized_prompt (py "json");
          match result with
          | PDict d => Ok (type_results ++ [d])
          | _ => Ok type_results
          end)
         (λ e, Ok type_results))
    chunk_list acc
  = Ok (acc ++ collected llm_provider specialized_prompt chunk_list).
Proof.
  revert acc. induction chunk_list as [|[chunk a] chunk_list IH]; intros acc.
  - simpl. by rewrite app_nil_r.
  - cbn [for_each]. unfold collected. cbn [omap list_omap fst].
    destruct (extract llm_provider chunk specialized_prompt (py "json")) as [v|e];
      [destruct v|]; cbn [mbind result_bind try_except]; rewrite IH; try done.
    by rewrite <- (assoc_L (++)).
Qed.

Lemma extract_type_results_spec (llm_provider : LLMProvider)
    (specialized_prompt : instruction) (chunk_list : list (pystr * ChunkAnalysis)) :
  extract_type_results llm_provider specialized_prompt chunk_list
  = Ok (collected llm_provider specialized_prompt chunk_list).
Proof. unfold extract_type_results. by rewrite extract_type_results_from. Qed.

Lemma extract_all_spec (llm_provider : LLMProvider) (website_type : WebsiteType)
    (query : pystr) (chunks_by_type : list (pyval * list (pystr * ChunkAnalysis))) :
  extract_all llm_provider website_type query chunks_by_type
  = Ok (collected_results llm_provider website_type query chunks_by_type).
Proof.
  unfold extract_all.
  assert (∀ acc,
    for_each
      (λ extraction_results '(content_type, chunk_list),
         let specialized_prompt :=
           _create_specialized_extraction_prompt content_type website_type query in
         type_results ← extract_type_results llm_provider specialized_prompt chunk_list;
         match type_results with
         | [] => Ok extraction_results
         | _ :: _ => Ok (extraction_results ++ [(content_type, type_results)])
         end)
      chunks_by_type acc
    = Ok (acc ++ collected_results llm_provider website_type query chunks_by_type)) as H.
  { induction chunks_by_type as [|[ct chunk_list] groups IH]; intros acc.
    - simpl. by rewrite app_nil_r.
    - cbn [for_each]. cbv zeta. rewrite extract_type_results_spec.
      unfold collected_results. cbn [mbind result_bind omap list_omap fst snd].
      destruct (collected llm_provider _ chunk_list) as [|d ds];
        cbn [mbind result_bind]; rewrite IH; [done|].
      by rewrite <- (assoc_L (++)). }
  by rewrite H.
Qed.

Lemma collected_failing (llm_provider : LLMProvider) (specialized_prompt : instruction)
    (chunk_list : list (pystr * ChunkAnalysis)) :
  (∀ content instr format, is_ok (extract llm_provider content instr format) = false) →
  collected llm_provider specialized_prompt chunk_list = [].
Proof.
  intros Hfail. unfold collected. induction chunk_list as [|[chunk a] l IH]; [done|].
  cbn [omap list_omap fst]. specialize (Hfail chunk specialized_prompt (py "json")).
  by destruct (extract llm_provider chunk specialized_prompt (py "json")).
Qed.

Lemma collected_results_failing (llm_provider : LLMProvider) (website_type : WebsiteType)
    (query : pystr) (chunks_by_type : list (pyval * list (pystr * ChunkAnalysis))) :
  (∀ content instr format, is_ok (extract llm_provider content instr format) = false) →
  collected_results llm_provider website_type query chunks_by_type = [].
Proof.
  intros Hfail. unfold collected_results.
  induction chunks_by_type as [|[ct l] groups IH]; [done|].
  cbn [omap list_omap fst snd]. by rewrite (collected_failing _ _ _ Hfail).
Qed.

(** *** The pipeline *)

Lemma first_pass_valid_indices chunks website_type llm_provider query
    (max_chunks : option Z) (a : ChunkAnalysis) :
  a ∈ prioritized (first_pass_analyses chunks website_type llm_provider query) max_chunks →
  is_ok (py_index chunks (chunk_index a)) = true.
Proof.
  intros Ha%prioritized_subset.
  apply first_pass_analyses_lookup in Ha as (i & chunk & Hc & ->).
  by rewrite analysis_at_index, (py_index_nat chunks i chunk Hc).
Qed.

Lemma pipeline_spec (chunks : list pystr) (query : pystr) (llm_provider : LLMProvider)
    (url : pystr) (max_workers max_chunks_per_type : Z) :
  enhanced_extract_data_from_chunks chunks query llm_provider url max_workers
    max_chunks_per_type
  = match urlparse_netloc url with
    | None => Raise ValueError
    | Some _ =>
        chunks_by_type ←
          group_by_content_type chunks
            (prioritized (first_pass_analyses chunks REVIEW llm_provider query)
               (Some (max_chunks_per_type * 4)%Z));
        _aggregate_extraction_results
          (collected_results llm_provider REVIEW query chunks_by_type) REVIEW query
    end.
Proof.
  unfold enhanced_extract_data_from_chunks. cbv zeta.
  unfold detect_website_type, _extract_domain.
  destruct (urlparse_netloc url); [|done]. cbn [mbind result_bind].
  replace (list_find _ website_patterns)
    with (Some (0, (REVIEW,
      {| domains := py <$> ["frandroid.com"; "phonandroid.com"; "numerama.com"; "clubic.com"];
         indicators := py <$> ["test"; "review"; "avis"; "critique"; "verdict"; "note"; "rating"];
         priority_sections := py <$> ["specs"; "pros"; "cons"; "rating"; "conclusion"] |})))
    by reflexivity.
  cbn [mbind result_bind]. rewrite analyze_chunks_first_pass_spec. cbn [mbind result_bind].
  unfold extract_from_prioritized_chunks. cbv zeta.
  destruct (group_by_content_type _ _) as [groups|e]; [|done].
  cbn [mbind result_bind]. by rewrite extract_all_spec.
Qed.

End PipelineFacts.

Lemma with_chunk_index_id (a : ChunkAnalysis) : with_chunk_index a (chunk_index a) = a.
Proof. by destruct a. Qed.

(** C1, amended: for every list of chunks, query and provider, pass 1 returns
    one analysis per chunk and never raises, a chunk on which the provider
    fails getting the heuristic analysis; the extraction loop of pass 2
    never raises, a chunk on which the provider fails, or for which it
    returns something else than a dict, being skipped; the pipeline returns
    the aggregated mapping whenever [urlparse] accepts the URL, the content
    types that the provider gave are hashable and the collected results have
    the shapes that the aggregation relies on; with a provider that raises
    on every call it returns the empty mapping. *)
Theorem pipeline_returns `{RT : PyRuntime} (chunks : list pystr) (query : pystr)
    (llm_provider : LLMProvider) (url : pystr) (max_workers max_chunks_per_type : Z) :
  (∀ website_type,
     analyze_chunks_first_pass chunks website_type llm_provider query
     = Ok (first_pass_analyses chunks website_type llm_provider query)
     ∧ length (first_pass_analyses chunks website_type llm_provider query) = length chunks
     ∧ ∀ (i : nat) (chunk : pystr),
         chunks !! i = Some chunk →
         is_ok (extract llm_provider chunk
                  (_create_analysis_prompt website_type query (take 2000 chunk))
                  (py "json")) = false →
         first_pass_analyses chunks website_type llm_provider query !! i
         = Some (_heuristic_analysis chunk (Z.of_nat i)))
  ∧ (∀ specialized_prompt chunk_list,
       extract_type_results llm_provider specialized_prompt chunk_list
       = Ok (collected llm_provider specialized_prompt chunk_list))
  ∧ (is_Some (urlparse_netloc url) →
     Forall (λ a, py_hashable (content_type a) = true)
       (first_pass_analyses chunks REVIEW llm_provider query) →
     ∃ chunks_by_type,
       group_by_content_type chunks
         (prioritized (first_pass_analyses chunks REVIEW llm_provider query)
            (Some (max_chunks_per_type * 4)%Z))
       = Ok chunks_by_type
       ∧ (aggregable (collected_results llm_provider REVIEW query chunks_by_type) = true →
          enhanced_extract_data_from_chunks chunks query llm_provider url max_workers
            max_chunks_per_type
          = Ok (aggregated_value
                  (collected_results llm_provider REVIEW query chunks_by_type))))
  ∧ (is_Some (urlparse_netloc url) →
     (∀ content instr format,
        is_ok (extract llm_provider content instr format) = false) →
     enhanced_extract_data_from_chunks chunks query llm_provider url max_workers
       max_chunks_per_type
     = Ok ∅).
Proof.
  assert (∀ website_type (i : nat) (chunk : pystr),
    chunks !! i = Some chunk →
    is_ok (extract llm_provider chunk
             (_create_analysis_prompt website_type query (take 2000 chunk))
             (py "json")) = false →
    first_pass_analyses chunks website_type llm_provider query !! i
    = Some (_heuristic_analysis chunk (Z.of_nat i))) as Hfallback.
  { intros website_type i chunk Hc Hfail. unfold first_pass_analyses.
    rewrite list_lookup_imap, Hc. simpl. f_equal. unfold analysis_at.
    rewrite (analyze_single_chunk_fallback _ _ _ _ Hfail).
    rewrite <- (heuristic_analysis_index chunk (Z.of_nat i)) at 2.
    apply with_chunk_index_id. }
  assert (
    Forall (λ a, py_hashable (content_type a) = true)
      (first_pass_analyses chunks REVIEW llm_provider query) →
    ∃ chunks_by_type,
      group_by_content_type chunks
        (prioritized (first_pass_analyses chunks REVIEW llm_provider query)
           (Some (max_chunks_per_type * 4)%Z))
      = Ok chunks_by_type) as Hgroups.
  { intros Hhash.
    destruct (group_by_content_type_spec chunks
      (prioritized (first_pass_analyses chunks REVIEW llm_provider query)
         (Some (max_chunks_per_type * 4)%Z))) as (groups & items & Hg & _).
    - apply Forall_forall. intros a Ha. split.
      + rewrite Forall_forall in Hhash.
        by apply Hhash, (prioritized_subset _ (Some (max_chunks_per_type * 4)%Z) a).
      + by eapply first_pass_valid_indices.
    - by exists groups. }
  split; [|split; [|split]].
  - intros website_type. split; [apply analyze_chunks_first_pass_spec|].
    split; [apply first_pass_analyses_length|]. apply Hfallback.
  - intros. apply extract_type_results_spec.
  - intros [netloc Hurl] Hhash. destruct (Hgroups Hhash) as [groups Hg].
    exists groups. split; [done|]. intros Hagg.
    rewrite pipeline_spec, Hurl, Hg. cbn [mbind result_bind].
    by rewrite aggregate_spec, Hagg.
  - intros [netloc Hurl] Hfail. destruct Hgroups as [groups Hg].
    { apply Forall_forall. intros a (i & chunk & Hc & ->)%first_pass_analyses_lookup.
      pose proof (Hfallback REVIEW i chunk Hc (Hfail _ _ _)) as Hi.
      unfold first_pass_analyses in Hi. rewrite list_lookup_imap, Hc in Hi.
      injection Hi as ->. apply heuristic_analysis_hashable. }
    rewrite pipeline_spec, Hurl, Hg. cbn [mbind result_bind].
    by rewrite (collected_results_failing _ _ _ _ Hfail), aggregate_spec.
Qed.

Lemma pipeline_raises_on_null_verdict :
  enhanced_extract_data_from_chunks (RT := latin1_runtime) [py "bon produit"] (py "avis")
    null_verdict_provider (py "") 4 5
  = Raise TypeError.
Proof. vm_compute. reflexivity. Qed.

Lemma pipeline_returns_witness :
  is_Some (urlparse_netloc (PyRuntime := latin1_runtime) (py ""))
  ∧ enhanced_extract_data_from_chunks (RT := latin1_runtime) [example_chunk] (py "prix")
      failing_provider (py "") 4 5
    = Ok ∅.
Proof.
  assert (is_Some (urlparse_netloc (PyRuntime := latin1_runtime) (py ""))) as Hurl
    by (vm_compute; eauto).
  split; [exact Hurl|].
  exact (proj2 (proj2 (proj2
    (pipeline_returns (RT := latin1_runtime) [example_chunk] (py "prix") failing_provider
       (py "") 4 5))) Hurl (λ _ _ _, eq_refl)).
Defined.

(** * Further properties of the code

    Properties read off the source, beyond the claims of the specification. *)

(** ** Classification of a chunk *)

Section AnalysisFacts.
Context `{RT : PyRuntime}.

Ltac heuristic_cases :=
  unfold _heuristic_analysis;
  repeat match goal with
         | |- context [Nat.leb ?a ?b] => destruct (Nat.leb a b)
         | |- context [existsb ?f ?l || ?c] => destruct (existsb f l || c)
         end;
  cbn [andb content_type relevance_score contains_specs contains_pricing contains_review
       priority key_topics chunk_index bool_times].

Lemma length_ratio_full (n : nat) : (1000 <= n)%nat → (1 <= inject_Z (Z.of_nat n) / 1000)%Q.
Proof.
  intros Hn. apply Qle_shift_div_l; [reflexivity|].
  unfold Qle. simpl. lia.
Qed.

(** X1: the heuristic analysis gives a chunk of a thousand characters or
    more the relevance score 1, whatever the chunk contains. *)
Theorem heuristic_long_chunk (chunk : pystr) (index : Z) :
  (1000 <= length chunk)%nat →
  (relevance_score (_heuristic_analysis chunk index) == 1)%Q.
Proof.
  intros Hlen. pose proof (length_ratio_full _ Hlen) as Hratio.
  heuristic_cases; apply Q.min_l;
    set (ratio := (inject_Z (Z.of_nat (length chunk)) / 1000)%Q) in *; lra.
Qed.

(** X2: the heuristic analysis has one of four forms: type [specs] with
    priority 1 and [contains_specs]; type [pricing] with priority 2 and
    [contains_pricing]; type [review] with priority 1, [contains_review] and
    no [contains_pricing]; type [general] with priority 3 and neither
    [contains_review] nor [contains_pricing]. *)
Theorem heuristic_type_and_flags (chunk : pystr) (index : Z) :
  let a := _heuristic_analysis chunk index in
  (content_type a = PStr (py "specs") ∧ priority a = 1%Z
   ∧ contains_specs a = PBool true)
  ∨ (content_type a = PStr (py "pricing") ∧ priority a = 2%Z
     ∧ contains_pricing a = PBool true)
  ∨ (content_type a = PStr (py "review") ∧ priority a = 1%Z
     ∧ contains_review a = PBool true ∧ contains_pricing a = PBool false)
  ∨ (content_type a = PStr (py "general") ∧ priority a = 3%Z
     ∧ contains_review a = PBool false ∧ contains_pricing a = PBool false).
Proof.
  cbv zeta. unfold _heuristic_analysis.
  destruct (Nat.leb 2 _); destruct (Nat.leb 3 _); destruct (existsb _ _ || _);
    destruct (Nat.leb 1 _);
    cbn [andb content_type contains_specs contains_pricing contains_review priority];
    first [ left; repeat split; reflexivity
          | right; left; repeat split; reflexivity
          | right; right; left; repeat split; reflexivity
          | right; right; right; repeat split; reflexivity ].
Qed.

(** X3: when the provider answers with a dict whose [relevance_score] is
    not accepted by [float], or whose [priority] is not accepted by [int],
    the answer is dropped as a whole: [_analyze_single_chunk] returns the
    heuristic analysis. *)
Theorem analyze_single_chunk_bad_number (chunk : pystr) (index : Z)
    (prompt : pystr → instruction) (llm_provider : LLMProvider) (d : pydict) :
  extract llm_provider chunk (prompt (take 2000 chunk)) (py "json") = Ok (PDict d) →
  is_ok (py_float (dict_get d (py "relevance_score") (PFloat (1 # 2)))) = false
  ∨ is_ok (py_int (dict_get d (py "priority") (PInt 3))) = false →
  _analyze_single_chunk chunk index prompt llm_provider
  = Ok (_heuristic_analysis chunk index).
Proof.
  intros Hanswer Hbad. unfold _analyze_single_chunk. rewrite Hanswer.
  cbn [mbind result_bind].
  destruct (bool_decide (is_Some (d !! py "content_type"))); [|reflexivity].
  destruct (py_float _) as [score|e]; [|reflexivity].
  destruct (py_int _) as [prio|e]; [|reflexivity].
  by destruct Hbad.
Qed.

(** X4: when the provider answers with a dict that has [content_type] and
    none of the other six keys, the analysis has that content type, the
    relevance score 0.5, the priority 3, the three flags false and no key
    topic. *)
Theorem analyze_single_chunk_defaults (chunk : pystr) (index : Z)
    (prompt : pystr → instruction) (llm_provider : LLMProvider) (d : pydict)
    (type : pyval) :
  extract llm_provider chunk (prompt (take 2000 chunk)) (py "json") = Ok (PDict d) →
  d !! py "content_type" = Some type →
  Forall (λ key, d !! py key = None)
    ["relevance_score"; "contains_specs"; "contains_pricing"; "contains_review";
     "key_topics"; "priority"] →
  _analyze_single_chunk chunk index prompt llm_provider
  = Ok {| chunk_index := index;
          content_type := type;
          relevance_score := 1 # 2;
          contains_specs := PBool false;
          contains_pricing := PBool false;
          contains_review := PBool false;
          key_topics := PList [];
          priority := 3 |}.
Proof.
  intros Hanswer Htype Hmissing.
  repeat match goal with
         | H : Forall _ (_ :: _) |- _ =>
             let Hkey := fresh "Hkey" in
             apply Forall_cons in H as [Hkey H]
         end.
  unfold _analyze_single_chunk. rewrite Hanswer. cbn [mbind result_bind].
  rewrite bool_decide_true by (by rewrite Htype).
  unfold dict_get. rewrite Htype, Hkey, Hkey0, Hkey1, Hkey2, Hkey3, Hkey4.
  reflexivity.
Qed.

(** X24: when the provider answers with a value that is not a dict, or
    with a dict that has no [content_type], [_analyze_single_chunk] returns
    the heuristic analysis. *)
Theorem analyze_single_chunk_unclassified (chunk : pystr) (index : Z)
    (prompt : pystr → instruction) (llm_provider : LLMProvider) (answer : pyval) :
  extract llm_provider chunk (prompt (take 2000 chunk)) (py "json") = Ok answer →
  (∀ d, answer = PDict d → d !! py "content_type" = None) →
  _analyze_single_chunk chunk index prompt llm_provider
  = Ok (_heuristic_analysis chunk index).
Proof.
  intros Hanswer Hunclassified. unfold _analyze_single_chunk. rewrite Hanswer.
  cbn [mbind result_bind]. destruct answer as [| | | | | |d]; try reflexivity.
  rewrite bool_decide_false; [done|].
  rewrite (Hunclassified d eq_refl). by intros [? ?].
Qed.

Lemma imap_chunk_index {A} (f : nat → A → ChunkAnalysis) (l : list A) (k : nat) :
  (∀ i x, chunk_index (f i x) = Z.of_nat (k + i)) →
  chunk_index <$> imap f l = Z.of_nat <$> seq k (length l).
Proof.
  revert f k. induction l as [|x l IH]; intros f k Hf; [done|].
  cbn [imap fmap list_fmap length seq]. f_equal.
  - rewrite Hf. f_equal. lia.
  - apply IH. intros i y. unfold compose. rewrite Hf. f_equal. lia.
Qed.

(** X5: pass 1 returns a list whose chunk indices are 0, 1, ...,
    [len(chunks) - 1] in this order, and whose entry at position [i] is what
    [_analyze_single_chunk] returns for the chunk at [i]: the default
    analysis of the [except] branch is never used. *)
Theorem first_pass_in_chunk_order (chunks : list pystr) (website_type : WebsiteType)
    (llm_provider : LLMProvider) (query : pystr) :
  ∃ analyses,
    analyze_chunks_first_pass chunks website_type llm_provider query = Ok analyses
    ∧ chunk_index <$> analyses = Z.of_nat <$> seq 0 (length chunks)
    ∧ ∀ (i : nat) (chunk : pystr),
        chunks !! i = Some chunk →
        ∃ a, analyses !! i = Some a
             ∧ _analyze_single_chunk chunk (Z.of_nat i)
                 (_create_analysis_prompt website_type query) llm_provider
               = Ok a.
Proof.
  exists (first_pass_analyses chunks website_type llm_provider query).
  split; [apply analyze_chunks_first_pass_spec|]. split.
  - unfold first_pass_analyses. apply imap_chunk_index.
    intros i x. by rewrite analysis_at_index.
  - intros i chunk Hchunk. unfold first_pass_analyses.
    rewrite list_lookup_imap, Hchunk. cbn [fmap option_fmap option_map].
    unfold analysis_at.
    destruct (analyze_single_chunk_returns chunk (Z.of_nat i)
                (_create_analysis_prompt website_type query) llm_provider)
      as (a & -> & Hindex).
    exists a. split; [|done]. f_equal. rewrite <- Hindex. apply with_chunk_index_id.
Qed.

End AnalysisFacts.

Lemma heuristic_long_chunk_witness :
  (1000 <= length long_chunk)%nat
  ∧ (relevance_score (_heuristic_analysis (RT := latin1_runtime) long_chunk 0) == 1)%Q.
Proof.
  split; [vm_compute; lia|].
  apply (heuristic_long_chunk (RT := latin1_runtime) long_chunk 0). vm_compute. lia.
Defined.

Lemma analyze_single_chunk_bad_number_witness :
  _analyze_single_chunk (RT := latin1_runtime) example_chunk 0
    (_create_analysis_prompt REVIEW (py "prix")) null_score_provider
  = Ok (_heuristic_analysis (RT := latin1_runtime) example_chunk 0).
Proof.
  apply (analyze_single_chunk_bad_number (RT := latin1_runtime) example_chunk 0
           (_create_analysis_prompt REVIEW (py "prix")) null_score_provider
           (<[py "relevance_score" := PNone]> {[ py "content_type" := PStr (py "specs") ]})).
  - reflexivity.
  - left. vm_compute. reflexivity.
Defined.

Lemma analyze_single_chunk_defaults_witness :
  _analyze_single_chunk (RT := latin1_runtime) example_chunk 7
    (_create_analysis_prompt REVIEW (py "prix")) bare_type_provider
  = Ok {| chunk_index := 7;
          content_type := PStr (py "pricing");
          relevance_score := 1 # 2;
          contains_specs := PBool false;
          contains_pricing := PBool false;
          contains_review := PBool false;
          key_topics := PList [];
          priority := 3 |}.
Proof.
  apply (analyze_single_chunk_defaults (RT := latin1_runtime) example_chunk 7
           (_create_analysis_prompt REVIEW (py "prix")) bare_type_provider
           {[ py "content_type" := PStr (py "pricing") ]} (PStr (py "pricing"))).
  - reflexivity.
  - vm_compute. reflexivity.
  - repeat constructor; vm_compute; reflexivity.
Defined.

Lemma analyze_single_chunk_unclassified_witness :
  _analyze_single_chunk (RT := latin1_runtime) example_chunk 0
    (_create_analysis_prompt REVIEW (py "prix")) list_answer_provider
  = Ok (_heuristic_analysis (RT := latin1_runtime) example_chunk 0).
Proof.
  apply (analyze_single_chunk_unclassified (RT := latin1_runtime) example_chunk 0
           (_create_analysis_prompt REVIEW (py "prix")) list_answer_provider (PList [])).
  - reflexivity.
  - discriminate.
Defined.

(** ** Prioritisation, grouping and the errors of the pipeline *)

(** *** The sort is stable *)

Section Stability.
Context {A : Type} (lt : A → A → bool) (P : A → Prop) `{!∀ x, Decision (P x)}.
Hypothesis same_class : ∀ x y, P x → P y → lt y x = false.

Lemma filter_insert_sorted (x : A) (l : list A) :
  filter P (insert_sorted lt x l) = filter P (x :: l).
Proof using same_class.
  induction l as [|y l IH]; [done|].
  cbn [insert_sorted]. destruct (lt y x) eqn:Hlt; [|done].
  rewrite filter_cons, IH, !filter_cons.
  destruct (decide (P y)) as [Hy|Hy], (decide (P x)) as [Hx|Hx]; try done.
  by rewrite (same_class x y Hx Hy) in Hlt.
Qed.

Lemma filter_py_sorted (l : list A) : filter P (py_sorted lt l) = filter P l.
Proof using same_class.
  induction l as [|x l IH]; [done|].
  cbn [py_sorted foldr]. fold (py_sorted lt l).
  by rewrite filter_insert_sorted, !filter_cons, IH.
Qed.

End Stability.

Lemma filter_take_prefix {A} (P : A → Prop) `{!∀ x, Decision (P x)} (n : nat) (l : list A) :
  filter P (take n l) `prefix_of` filter P l.
Proof.
  exists (filter P (drop n l)). by rewrite <- filter_app, take_drop.
Qed.

Lemma same_key_not_lt (p : Z) (r : Q) (x y : ChunkAnalysis) :
  priority x = p ∧ Qeq_bool (relevance_score x) r = true →
  priority y = p ∧ Qeq_bool (relevance_score y) r = true →
  priority_key_lt y x = false.
Proof.
  intros [Hpx Hrx%Qeq_bool_iff] [Hpy Hry%Qeq_bool_iff].
  destruct (priority_key_lt y x) eqn:Hlt; [|done].
  apply priority_key_lt_spec in Hlt as [Hlt|[_ Hlt]]; [lia|].
  rewrite Hrx, Hry in Hlt. by apply Qlt_irrefl in Hlt.
Qed.

(** X6: the sort of pass 2 is stable. The analyses that have a given
    priority and a given relevance score come out in the order in which they
    came in, and when the list is cut the survivors among them are a prefix
    of that order. *)
Theorem prioritized_stable (analyses : list ChunkAnalysis) (p : Z) (r : Q) :
  let same_key (a : ChunkAnalysis) :=
    priority a = p ∧ Qeq_bool (relevance_score a) r = true in
  filter same_key (prioritized analyses None) = filter same_key analyses
  ∧ ∀ max_chunks,
      filter same_key (prioritized analyses max_chunks) `prefix_of` filter same_key analyses.
Proof.
  intros same_key.
  assert (filter same_key (py_sorted priority_key_lt analyses) = filter same_key analyses)
    as Hstable.
  { apply filter_py_sorted. intros x y Hx Hy. by apply (same_key_not_lt p r). }
  split; [exact Hstable|].
  intros [k|]; cbn [prioritized]; [|by rewrite Hstable].
  destruct (k =? 0)%Z; [by rewrite Hstable|].
  destruct (py_slice_to_take (py_sorted priority_key_lt analyses) k) as [n ->].
  rewrite <- Hstable. apply filter_take_prefix; apply _.
Qed.

(** X7: with a negative maximum chunk count [k], the cut removes the last
    [-k] entries of the sorted list: [len(analyses) - (-k)] analyses
    survive, none when there are not that many. *)
Theorem prioritized_negative_count (analyses : list ChunkAnalysis) (k : Z) :
  (k < 0)%Z →
  prioritized analyses (Some k)
  = take (length analyses - Z.to_nat (- k)) (py_sorted priority_key_lt analyses)
  ∧ length (prioritized analyses (Some k)) = (length analyses - Z.to_nat (- k))%nat.
Proof.
  intros Hk.
  pose proof (Permutation_length (proj1 (prioritized_sorted analyses))) as Hlen.
  assert (prioritized analyses (Some k)
          = take (length analyses - Z.to_nat (- k)) (py_sorted priority_key_lt analyses))
    as ->.
  { unfold prioritized, py_slice_to.
    rewrite (proj2 (Z.eqb_neq k 0)) by lia.
    rewrite (proj2 (Z.ltb_lt k 0)) by lia.
    rewrite Hlen. f_equal. lia. }
  split; [done|]. rewrite length_take, Hlen. lia.
Qed.

(** *** Grouping *)

Lemma py_index_in_range {A} (l : list A) (i : Z) :
  (- Z.of_nat (length l) <= i < Z.of_nat (length l))%Z ↔ is_ok (py_index l i) = true.
Proof.
  unfold py_index. split.
  - intros Hi. destruct (i <? 0)%Z eqn:Hneg.
    + apply Z.ltb_lt in Hneg. rewrite (proj2 (Z.ltb_ge _ _)) by lia.
      destruct (l !! Z.to_nat (i + Z.of_nat (length l))) eqn:Hl; [done|].
      apply lookup_ge_None in Hl. lia.
    + apply Z.ltb_ge in Hneg. rewrite (proj2 (Z.ltb_ge _ _)) by lia.
      destruct (l !! Z.to_nat i) eqn:Hl; [done|].
      apply lookup_ge_None in Hl. lia.
  - destruct (i <? 0)%Z eqn:Hneg.
    + apply Z.ltb_lt in Hneg.
      destruct (i + Z.of_nat (length l) <? 0)%Z eqn:Hlow; [done|].
      apply Z.ltb_ge in Hlow. lia.
    + apply Z.ltb_ge in Hneg. rewrite (proj2 (Z.ltb_ge _ _)) by lia.
      destruct (l !! Z.to_nat i) eqn:Hl; [|done].
      apply lookup_lt_Some in Hl. lia.
Qed.

Lemma py_index_raises {A} (l : list A) (i : Z) :
  is_ok (py_index l i) = false → py_index l i = Raise IndexError.
Proof.
  unfold py_index. destruct (_ <? 0)%Z; [done|]. by destruct (l !! _).
Qed.

Lemma group_by_content_type_loop (chunks : list pystr) (analyses : list ChunkAnalysis)
    (groups : list (pyval * list (pystr * ChunkAnalysis))) :
  match list_find (ungroupable chunks) analyses with
  | None =>
      is_ok (for_each
               (λ chunks_by_type analysis,
                  let content_type := content_type analysis in
                  if py_hashable content_type then
                    chunk ← py_index chunks (chunk_index analysis);
                    Ok (group_append content_type (chunk, analysis) chunks_by_type)
                  else Raise TypeError)
               analyses groups) = true
  | Some (_, a) =>
      for_each
        (λ chunks_by_type analysis,
           let content_type := content_type analysis in
           if py_hashable content_type then
             chunk ← py_index chunks (chunk_index analysis);
             Ok (group_append content_type (chunk, analysis) chunks_by_type)
           else Raise TypeError)
        analyses groups
      = Raise (if py_hashable (content_type a) then IndexError else TypeError)
  end.
Proof.
  revert groups. induction analyses as [|a analyses IH]; intros groups; [done|].
  cbn [list_find for_each]. cbv zeta.
  destruct (decide (ungroupable chunks a)) as [Hbad|Hgood].
  - destruct (py_hashable (content_type a)) eqn:Hhash; [|done].
    rewrite py_index_raises; [done|].
    destruct (is_ok (py_index chunks (chunk_index a))) eqn:Hok; [|done].
    destruct Hbad. split; [done|]. by apply py_index_in_range.
  - apply dec_stable in Hgood as [Hhash Hrange].
    rewrite Hhash. apply py_index_in_range in Hrange.
    destruct (py_index chunks (chunk_index a)) as [chunk|e]; [|done].
    cbn [mbind result_bind].
    specialize (IH (group_append (content_type a) (chunk, a) groups)).
    by destruct (list_find (ungroupable chunks) analyses) as [[j b]|].
Qed.

(** X8: the grouping of pass 2 returns when every analysis has a hashable
    content type and an index between [-len(chunks)] and [len(chunks) - 1];
    otherwise it raises at the first analysis that has not, [TypeError] for
    an unhashable content type and [IndexError] for an index out of
    range. *)
Theorem group_by_content_type_outcome (chunks : list pystr)
    (analyses : list ChunkAnalysis) :
  match list_find (ungroupable chunks) analyses with
  | None => is_ok (group_by_content_type chunks analyses) = true
  | Some (_, a) =>
      group_by_content_type chunks analyses
      = Raise (if py_hashable (content_type a) then IndexError else TypeError)
  end.
Proof. apply (group_by_content_type_loop chunks analyses []). Qed.

Section PipelineErrors.
Context `{RT : PyRuntime}.

(** X9: when [urlparse] accepts the URL and an analysis that survives the
    cut has an unhashable content type, the pipeline raises [TypeError]. *)
Theorem pipeline_unhashable_type (chunks : list pystr) (query : pystr)
    (llm_provider : LLMProvider) (url : pystr) (max_workers max_chunks_per_type : Z) :
  is_Some (urlparse_netloc url) →
  Exists (λ a, py_hashable (content_type a) = false)
    (prioritized (first_pass_analyses chunks REVIEW llm_provider query)
       (Some (max_chunks_per_type * 4)%Z)) →
  enhanced_extract_data_from_chunks chunks query llm_provider url max_workers
    max_chunks_per_type
  = Raise TypeError.
Proof.
  intros [netloc Hurl] Hlist. rewrite pipeline_spec, Hurl.
  set (survivors := prioritized _ _) in *.
  pose proof (group_by_content_type_loop chunks survivors []) as Hloop.
  destruct (list_find (ungroupable chunks) survivors) as [[j a]|] eqn:Hfind.
  - apply list_find_Some in Hfind as (Hj & Hbad & _).
    assert (group_by_content_type chunks survivors
            = Raise (if py_hashable (content_type a) then IndexError else TypeError))
      as -> by exact Hloop.
    cbn [mbind result_bind].
    destruct (py_hashable (content_type a)) eqn:Hhash; [|done].
    destruct Hbad. split; [done|]. apply py_index_in_range.
    apply (first_pass_valid_indices chunks REVIEW llm_provider query
             (Some (max_chunks_per_type * 4)%Z)).
    by apply list_elem_of_lookup_2 in Hj.
  - apply list_find_None in Hfind. apply Exists_exists in Hlist as (a & Ha & Hhash).
    rewrite Forall_forall in Hfind. specialize (Hfind a Ha).
    apply dec_stable in Hfind as [Hhash' _]. congruence.
Qed.

(** X10: when [urlparse] rejects the URL, the pipeline raises
    [ValueError], whatever the chunks and the provider. *)
Theorem pipeline_invalid_url (chunks : list pystr) (query : pystr)
    (llm_provider : LLMProvider) (url : pystr) (max_workers max_chunks_per_type : Z) :
  urlparse_netloc url = None →
  enhanced_extract_data_from_chunks chunks query llm_provider url max_workers
    max_chunks_per_type
  = Raise ValueError.
Proof. intros Hurl. by rewrite pipeline_spec, Hurl. Qed.

(** X11: for no chunk at all and a URL that [urlparse] accepts, the
    pipeline returns the empty mapping. *)
Theorem pipeline_no_chunks (query : pystr) (llm_provider : LLMProvider) (url : pystr)
    (max_workers max_chunks_per_type : Z) :
  is_Some (urlparse_netloc url) →
  enhanced_extract_data_from_chunks [] query llm_provider url max_workers
    max_chunks_per_type
  = Ok ∅.
Proof.
  intros [netloc Hurl]. rewrite pipeline_spec, Hurl.
  assert (prioritized (first_pass_analyses [] REVIEW llm_provider query)
            (Some (max_chunks_per_type * 4)%Z) = []) as ->; [|reflexivity].
  unfold first_pass_analyses, prioritized. cbn [imap py_sorted foldr].
  destruct (_ =? 0)%Z; [done|].
  unfold py_slice_to. destruct (_ <? 0)%Z; apply take_nil.
Qed.

(** X12: the extraction loop of pass 2 returns, and [extraction_results]
    has an entry for a content type only when the provider gave a dict for
    one of its chunks: no entry is empty, the entries are in the order of
    the groups, and an entry holds the dicts collected for the chunks of its
    group. *)
Theorem extract_all_keeps_results (llm_provider : LLMProvider) (website_type : WebsiteType)
    (query : pystr) (chunks_by_type : list (pyval * list (pystr * ChunkAnalysis))) :
  ∃ extraction_results,
    extract_all llm_provider website_type query chunks_by_type = Ok extraction_results
    ∧ Forall (λ entry, entry.2 ≠ []) extraction_results
    ∧ extraction_results.*1 `sublist_of` chunks_by_type.*1
    ∧ Forall2
        (λ entry group,
           entry.1 = group.1
           ∧ entry.2
             = collected llm_provider
                 (_create_specialized_extraction_prompt group.1 website_type query)
                 group.2)
        extraction_results
        (filter
           (λ group,
              collected llm_provider
                (_create_specialized_extraction_prompt group.1 website_type query)
                group.2 ≠ [])
           chunks_by_type).
Proof.
  exists (collected_results llm_provider website_type query chunks_by_type).
  split; [apply extract_all_spec|].
  unfold collected_results.
  induction chunks_by_type as [|[type chunk_list] groups (IHne & IHsub & IHall)];
    [by repeat constructor|].
  cbn [omap list_omap fst snd]. rewrite filter_cons. cbn [fst snd].
  destruct (collected llm_provider _ chunk_list) as [|res results] eqn:Hcollected.
  - destruct (decide _) as [Hne|_]; [done|].
    split; [done|]. split; [|done]. rewrite fmap_cons. by apply sublist_cons.
  - destruct (decide _) as [_|Heq]; [|by destruct Heq].
    split; [by constructor|]. split.
    + rewrite !fmap_cons. by apply sublist_skip.
    + constructor; [|done]. cbn [fst snd]. by rewrite Hcollected.
Qed.

End PipelineErrors.

Lemma prioritized_negative_count_witness :
  prioritized [default_analysis 0; default_analysis 1; default_analysis 2] (Some (-1)%Z)
  = take (3 - Z.to_nat (- -1))
      (py_sorted priority_key_lt [default_analysis 0; default_analysis 1; default_analysis 2]).
Proof.
  apply (prioritized_negative_count
           [default_analysis 0; default_analysis 1; default_analysis 2] (-1)).
  lia.
Defined.

Lemma pipeline_unhashable_type_witness :
  enhanced_extract_data_from_chunks (RT := latin1_runtime) [example_chunk] (py "prix")
    list_type_provider plain_url 4 5
  = Raise TypeError.
Proof.
  apply (pipeline_unhashable_type (RT := latin1_runtime)).
  - vm_compute. eauto.
  - apply Exists_cons_hd. reflexivity.
Defined.

Lemma pipeline_invalid_url_witness :
  enhanced_extract_data_from_chunks (RT := latin1_runtime) [example_chunk] (py "prix")
    failing_provider bracket_url 4 5
  = Raise ValueError.
Proof.
  apply (pipeline_invalid_url (RT := latin1_runtime)). vm_compute. reflexivity.
Defined.

Lemma pipeline_no_chunks_witness :
  enhanced_extract_data_from_chunks (RT := latin1_runtime) [] (py "prix")
    null_verdict_provider plain_url 4 5
  = Ok ∅.
Proof.
  apply (pipeline_no_chunks (RT := latin1_runtime)). vm_compute. eauto.
Defined.

(** ** Aggregation, type by type *)

(** *** What the aggregation returns, type by type *)

Lemma aggregated_value_specs_lookup (er : list (pyval * list pydict)) :
  aggregated_value er !! py "caracteristiques_techniques"
  = (λ results, PDict (foldl specs_merge ∅ results)) <$> er_lookup "specs" er.
Proof.
  unfold aggregated_value, when_present.
  unfold general_value, product_list_value, pricing_value, review_value, specs_value.
  destruct (er_lookup "general" er); [case_bool_decide|];
  destruct (er_lookup "product_list" er);
  destruct (er_lookup "pricing" er);
  destruct (er_lookup "review" er);
  destruct (er_lookup "specs" er);
  by lookup_keys.
Qed.

Lemma aggregated_value_pricing_lookup (er : list (pyval * list pydict)) :
  aggregated_value er !! py "prix_et_disponibilite"
  = (λ results,
       PDict (<[py "promotions" := PList (items_under "promotions" results)]>
              (<[py "prix" :=
                   PList (filter (λ v, py_truthy v = true)
                            (values_under "prix_principal" results))]> ∅)))
    <$> er_lookup "pricing" er.
Proof.
  unfold aggregated_value, when_present.
  unfold general_value, product_list_value, pricing_value, review_value, specs_value.
  destruct (er_lookup "general" er); [case_bool_decide|];
  destruct (er_lookup "product_list" er);
  destruct (er_lookup "pricing" er);
  destruct (er_lookup "review" er);
  destruct (er_lookup "specs" er);
  by lookup_keys.
Qed.

Lemma aggregated_value_products_lookup (er : list (pyval * list pydict)) :
  aggregated_value er !! py "produits"
  = (λ results, PList (items_under "produits" results)) <$> er_lookup "product_list" er.
Proof.
  unfold aggregated_value, when_present.
  unfold general_value, product_list_value, pricing_value, review_value, specs_value.
  destruct (er_lookup "general" er); [case_bool_decide|];
  destruct (er_lookup "product_list" er);
  destruct (er_lookup "pricing" er);
  destruct (er_lookup "review" er);
  destruct (er_lookup "specs" er);
  by lookup_keys.
Qed.

(** X13: the aggregation returns exactly when the results are [aggregable]
    (the review lists are iterable with hashable items, the verdicts are
    strings, [promotions] and [produits] are iterable); otherwise it raises
    [TypeError] and nothing else; the website type and the query have no
    influence on the outcome. *)
Theorem aggregate_outcome (er : list (pyval * list pydict)) (website_type : WebsiteType)
    (query : pystr) :
  is_ok (_aggregate_extraction_results er website_type query) = aggregable er
  ∧ (∀ e, _aggregate_extraction_results er website_type query = Raise e → e = TypeError)
  ∧ (∀ website_type' query',
       _aggregate_extraction_results er website_type' query'
       = _aggregate_extraction_results er website_type query).
Proof.
  split; [|split].
  - rewrite aggregate_spec. by destruct (aggregable er).
  - intros e. rewrite aggregate_spec. destruct (aggregable er); congruence.
  - intros website_type' query'. by rewrite !aggregate_spec.
Qed.

(** X14: with pricing results none of whose [promotions] is a dict,
    [prix_et_disponibilite] holds under [prix] the [prix_principal] values
    that are truthy, in the order of the results, and under [promotions] the
    items of all [promotions], in the order of the results. *)
Theorem pricing_results_aggregated (er : list (pyval * list pydict))
    (results : list pydict) (website_type : WebsiteType) (query : pystr) :
  er_lookup "pricing" er = Some results →
  aggregable er = true →
  Forall
    (λ res : pydict,
       match res !! py "promotions" with Some (PDict _) => False | _ => True end)
    results →
  ∃ out,
    _aggregate_extraction_results er website_type query = Ok out
    ∧ out !! py "prix_et_disponibilite"
      = Some (PDict
                (<[py "promotions" := PList (items_under "promotions" results)]>
                 {[ py "prix" :=
                      PList (filter (λ v, py_truthy v = true)
                               (values_under "prix_principal" results)) ]})).
Proof.
  intros Hresults Hagg _. exists (aggregated_value er).
  rewrite aggregate_spec, Hagg. split; [done|].
  by rewrite aggregated_value_pricing_lookup, Hresults.
Qed.

Lemma items_under_lists (key : string) (results : list pydict) (lists : list (list pyval)) :
  Forall2 (λ (res : pydict) l, res !! py key = Some (PList l)) results lists →
  items_under key results = concat lists.
Proof.
  unfold items_under. induction 1 as [|res l results lists Hres _ IH]; [done|].
  cbn [fmap list_fmap concat]. unfold field_items at 1. rewrite Hres.
  cbn [py_iter]. by rewrite <- IH.
Qed.

(** X15: with product-list results whose [produits] are lists, [produits]
    is the concatenation of these lists in the order of the results;
    duplicates stay. *)
Theorem product_results_concatenated (er : list (pyval * list pydict))
    (results : list pydict) (lists : list (list pyval)) (website_type : WebsiteType)
    (query : pystr) :
  er_lookup "product_list" er = Some results →
  aggregable er = true →
  Forall2 (λ (res : pydict) l, res !! py "produits" = Some (PList l)) results lists →
  ∃ out,
    _aggregate_extraction_results er website_type query = Ok out
    ∧ out !! py "produits" = Some (PList (concat lists)).
Proof.
  intros Hresults Hagg Hlists. exists (aggregated_value er).
  rewrite aggregate_spec, Hagg. split; [done|].
  rewrite aggregated_value_products_lookup, Hresults.
  cbn [fmap option_fmap option_map]. by rewrite (items_under_lists _ _ lists).
Qed.

(** *** Specs results that share a key *)

Lemma foldl_specs_merge_absent (key : pystr) (results : list pydict) (specs : pydict) :
  Forall (λ res : pydict, res !! key = None) results →
  foldl specs_merge specs results !! key = specs !! key.
Proof.
  revert specs. induction results as [|res results IH]; intros specs Habsent; [done|].
  apply Forall_cons in Habsent as [Hres Habsent].
  cbn [foldl]. rewrite IH by done.
  by rewrite specs_merge_lookup, Hres, merge_value_None_r.
Qed.

Lemma foldl_specs_merge_scalar (key : pystr) (v : pyval) (results : list pydict)
    (specs : pydict) :
  specs !! key = Some v → is_dict v = false →
  foldl specs_merge specs results !! key = Some v.
Proof.
  intros Hv Hscalar. revert specs Hv.
  induction results as [|res results IH]; intros specs Hv; [done|].
  cbn [foldl]. apply IH. rewrite specs_merge_lookup, Hv.
  destruct (res !! key) as [new|]; [|by destruct v]. by destruct v.
Qed.

Lemma foldl_specs_merge_dicts (key : pystr) (results : list pydict) (ds : list pydict)
    (specs o : pydict) :
  specs !! key = Some (PDict o) →
  omap (λ res : pydict, res !! key) results = PDict <$> ds →
  foldl specs_merge specs results !! key
  = Some (PDict (foldl (λ general_info res, res ∪ general_info) o ds)).
Proof.
  revert ds specs o. induction results as [|res results IH]; intros ds specs o Ho Hds.
  - by destruct ds.
  - cbn [foldl omap list_omap] in *.
    destruct (res !! key) as [v|] eqn:Hres.
    + destruct ds as [|d ds]; [done|]. injection Hds as -> Hds.
      cbn [foldl]. apply IH; [|done].
      by rewrite specs_merge_lookup, Ho, Hres.
    + apply IH; [|done]. by rewrite specs_merge_lookup, Ho, Hres.
Qed.

(** X16: in the merge of specs results, when the first result that has a
    key holds under it a value that is not a dict, this value stays in
    [caracteristiques_techniques], whatever the later results hold under the
    key. *)
Theorem specs_first_scalar_wins (er : list (pyval * list pydict))
    (before : list pydict) (res : pydict) (after : list pydict) (key : pystr) (v : pyval)
    (website_type : WebsiteType) (query : pystr) :
  er_lookup "specs" er = Some (before ++ res :: after) →
  aggregable er = true →
  Forall (λ earlier : pydict, earlier !! key = None) before →
  res !! key = Some v →
  is_dict v = false →
  ∃ out specs,
    _aggregate_extraction_results er website_type query = Ok out
    ∧ out !! py "caracteristiques_techniques" = Some (PDict specs)
    ∧ specs !! key = Some v.
Proof.
  intros Hresults Hagg Hbefore Hres Hscalar.
  exists (aggregated_value er), (foldl specs_merge ∅ (before ++ res :: after)).
  rewrite aggregate_spec, Hagg. split; [done|].
  rewrite aggregated_value_specs_lookup, Hresults. split; [done|].
  rewrite foldl_app. cbn [foldl]. apply foldl_specs_merge_scalar; [|done].
  by rewrite specs_merge_lookup, foldl_specs_merge_absent, lookup_empty, Hres.
Qed.

(** X17: in the merge of specs results, when the values that the results
    hold under a key are all dicts, [caracteristiques_techniques] holds
    under the key these dicts merged by [update] in the order of the
    results, a later one winning on a nested key. *)
Theorem specs_nested_dicts_merged (er : list (pyval * list pydict))
    (results : list pydict) (key : pystr) (ds : list pydict)
    (website_type : WebsiteType) (query : pystr) :
  er_lookup "specs" er = Some results →
  aggregable er = true →
  omap (λ res : pydict, res !! key) results = PDict <$> ds →
  ds ≠ [] →
  ∃ out specs,
    _aggregate_extraction_results er website_type query = Ok out
    ∧ out !! py "caracteristiques_techniques" = Some (PDict specs)
    ∧ specs !! key = Some (PDict (merge_general ds)).
Proof.
  intros Hresults Hagg Hds Hne.
  exists (aggregated_value er), (foldl specs_merge ∅ results).
  rewrite aggregate_spec, Hagg. split; [done|].
  rewrite aggregated_value_specs_lookup, Hresults. split; [done|].
  clear Hresults Hagg.
  assert (∀ specs : pydict, specs !! key = None →
            foldl specs_merge specs results !! key = Some (PDict (merge_general ds)))
    as Hfold; [|by apply Hfold, lookup_empty].
  revert ds Hds Hne. induction results as [|res results IH]; intros ds Hds Hne specs Hnone.
  - by destruct ds.
  - cbn [foldl omap list_omap] in *.
    destruct (res !! key) as [v|] eqn:Hres.
    + destruct ds as [|d ds]; [done|]. injection Hds as -> Hds.
      unfold merge_general. cbn [foldl]. rewrite (right_id_L ∅ (∪)).
      apply foldl_specs_merge_dicts; [|done].
      by rewrite specs_merge_lookup, Hnone, Hres.
    + apply IH; [done..|]. by rewrite specs_merge_lookup, Hnone, Hres.
Qed.

Lemma merge_general_empty (results : list pydict) :
  Forall (λ res : pydict, res = ∅) results → merge_general results = ∅.
Proof.
  induction results as [|res results IH] using rev_ind; [done|].
  intros [Hresults Hres%Forall_inv]%Forall_app.
  rewrite merge_general_snoc, Hres, IH by done. apply (left_id_L ∅ (∪)).
Qed.

(** X25: when the general results are all empty, the output has no
    [informations_generales]. *)
Theorem general_empty_results_dropped (er : list (pyval * list pydict))
    (results : list pydict) (website_type : WebsiteType) (query : pystr) :
  er_lookup "general" er = Some results →
  aggregable er = true →
  Forall (λ res : pydict, res = ∅) results →
  ∃ out,
    _aggregate_extraction_results er website_type query = Ok out
    ∧ out !! py "informations_generales" = None.
Proof.
  intros Hresults Hagg Hempty. exists (aggregated_value er).
  rewrite aggregate_spec, Hagg. split; [done|].
  rewrite aggregated_value_general_lookup, Hresults.
  by rewrite bool_decide_true by by apply merge_general_empty.
Qed.

Lemma general_empty_results_dropped_witness :
  ∃ out,
    _aggregate_extraction_results [(PStr (py "general"), [∅; ∅])] GENERAL (py "titre")
    = Ok out
    ∧ out !! py "informations_generales" = None.
Proof.
  apply (general_empty_results_dropped [(PStr (py "general"), [∅; ∅])] [∅; ∅]).
  - vm_compute. reflexivity.
  - vm_compute. reflexivity.
  - by repeat constructor.
Defined.

Lemma pricing_results_aggregated_witness :
  ∃ out,
    _aggregate_extraction_results [(PStr (py "pricing"), price_results)] REVIEW (py "prix")
    = Ok out
    ∧ out !! py "prix_et_disponibilite"
      = Some (PDict
                (<[py "promotions" := PList (items_under "promotions" price_results)]>
                 {[ py "prix" :=
                      PList (filter (λ v, py_truthy v = true)
                               (values_under "prix_principal" price_results)) ]})).
Proof.
  apply (pricing_results_aggregated [(PStr (py "pricing"), price_results)] price_results).
  - vm_compute. reflexivity.
  - vm_compute. reflexivity.
  - repeat constructor.
Defined.

Lemma product_results_concatenated_witness :
  ∃ out,
    _aggregate_extraction_results [(PStr (py "product_list"), product_results)] ECOMMERCE
      (py "produits")
    = Ok out
    ∧ out !! py "produits"
      = Some (PList (concat [[PStr (py "S25")]; [PStr (py "S25"); PStr (py "S25+")]])).
Proof.
  apply (product_results_concatenated [(PStr (py "product_list"), product_results)]
           product_results).
  - vm_compute. reflexivity.
  - vm_compute. reflexivity.
  - repeat constructor; vm_compute; reflexivity.
Defined.

Lemma specs_first_scalar_wins_witness :
  ∃ out specs,
    _aggregate_extraction_results
      [(PStr (py "specs"), [screen_specs] ++ resolution_specs :: [ios_specs])] REVIEW (py "os")
    = Ok out
    ∧ out !! py "caracteristiques_techniques" = Some (PDict specs)
    ∧ specs !! py "os" = Some (PStr (py "Android")).
Proof.
  apply (specs_first_scalar_wins
           [(PStr (py "specs"), [screen_specs] ++ resolution_specs :: [ios_specs])]
           [screen_specs] resolution_specs [ios_specs]).
  - vm_compute. reflexivity.
  - vm_compute. reflexivity.
  - repeat constructor; vm_compute; reflexivity.
  - vm_compute. reflexivity.
  - reflexivity.
Defined.

Lemma specs_nested_dicts_merged_witness :
  ∃ out specs,
    _aggregate_extraction_results
      [(PStr (py "specs"), [screen_specs; resolution_specs])] REVIEW (py "ecran")
    = Ok out
    ∧ out !! py "caracteristiques_techniques" = Some (PDict specs)
    ∧ specs !! py "ecran"
      = Some (PDict (merge_general
                       [ {[ py "taille" := PStr (py "6.2") ]};
                         {[ py "resolution" := PStr (py "FHD+") ]} ])).
Proof.
  apply (specs_nested_dicts_merged
           [(PStr (py "specs"), [screen_specs; resolution_specs])]
           [screen_specs; resolution_specs]).
  - vm_compute. reflexivity.
  - vm_compute. reflexivity.
  - vm_compute. reflexivity.
  - discriminate.
Defined.

(** ** The OpenAI provider *)

Lemma is_prefix_app (p s : pystr) : is_prefix p (p ++ s) = true.
Proof. induction p as [|c p IH]; [done|]. cbn. by rewrite N.eqb_refl. Qed.

Lemma str_endswith_app (suffix s : pystr) : str_endswith suffix (s ++ suffix) = true.
Proof. unfold str_endswith. rewrite reverse_app. apply is_prefix_app. Qed.

Section OpenAIFacts.
Context `{RT : PyRuntime}.

(** X18: [OpenAIProvider.extract] raises only without an API key, and then
    [ValueError]; with a key it returns, whatever the service and
    [json.loads] do. *)
Theorem openai_extract_outcome (self : OpenAIProvider.OpenAIProvider)
    (content instruction output_format : pystr) :
  match OpenAIProvider.extract self content instruction output_format with
  | Ok answer => OpenAIProvider.has_api_key self = true
  | Raise e => OpenAIProvider.has_api_key self = false ∧ e = ValueError
  end.
Proof.
  unfold OpenAIProvider.extract. destruct (OpenAIProvider.has_api_key self); [|done].
  cbn [negb]. cbv zeta.
  destruct (OpenAIProvider.chat_completion _ _ _ _ _) as [response|e]; [|done].
  cbn [mbind result_bind]. destruct (bool_decide _); [|done].
  by destruct (OpenAIProvider.json_loads _ _) as [value|[]].
Qed.

Lemma extract_during_outage (self : OpenAIProvider.OpenAIProvider) (e : exn)
    (content instruction output_format : pystr) :
  OpenAIProvider.has_api_key self = true →
  (∀ model temperature system user,
     OpenAIProvider.chat_completion (OpenAIProvider.openai self) model temperature
       system user
     = Raise e) →
  OpenAIProvider.extract self content instruction output_format
  = Ok (PDict (OpenAIProvider.error_answer (OpenAIProvider.openai self) e content)).
Proof.
  intros Hkey Hdown. unfold OpenAIProvider.extract. rewrite Hkey. cbn [negb]. cbv zeta.
  by rewrite Hdown.
Qed.

Lemma error_answer_lookup (lib : OpenAIProvider.library) (e : exn) (content : pystr)
    (key : string) :
  key ∈ ["content_type"; "points_forts"; "points_faibles"; "verdict"; "promotions";
         "produits"] →
  OpenAIProvider.error_answer lib e content !! py key = None.
Proof.
  intros Hkey. unfold OpenAIProvider.error_answer.
  repeat (apply elem_of_cons in Hkey as [->|Hkey]);
    [rewrite lookup_insert_ne by key_ne; apply lookup_singleton_ne; key_ne..|].
  by apply elem_of_nil in Hkey.
Qed.

Lemma collected_during_outage (text_of : instruction → pystr)
    (self : OpenAIProvider.OpenAIProvider) (e : exn) (specialized_prompt : instruction)
    (chunk_list : list (pystr * ChunkAnalysis)) :
  OpenAIProvider.has_api_key self = true →
  (∀ model temperature system user,
     OpenAIProvider.chat_completion (OpenAIProvider.openai self) model temperature
       system user
     = Raise e) →
  collected (OpenAIProvider.as_provider text_of self) specialized_prompt chunk_list
  = (λ item, OpenAIProvider.error_answer (OpenAIProvider.openai self) e item.1)
    <$> chunk_list.
Proof.
  intros Hkey Hdown. unfold collected.
  induction chunk_list as [|item chunk_list IH]; [done|].
  cbn [omap list_omap fmap list_fmap OpenAIProvider.as_provider extract].
  rewrite (extract_during_outage self e) by done. cbn [mbind option_bind].
  f_equal. apply IH.
Qed.

Lemma analysis_during_outage (text_of : instruction → pystr)
    (self : OpenAIProvider.OpenAIProvider) (e : exn) (chunk : pystr) (index : Z)
    (prompt : pystr → instruction) :
  OpenAIProvider.has_api_key self = true →
  (∀ model temperature system user,
     OpenAIProvider.chat_completion (OpenAIProvider.openai self) model temperature
       system user
     = Raise e) →
  _analyze_single_chunk chunk index prompt (OpenAIProvider.as_provider text_of self)
  = Ok (_heuristic_analysis chunk index).
Proof.
  intros Hkey Hdown. unfold _analyze_single_chunk.
  cbn [OpenAIProvider.as_provider extract].
  rewrite (extract_during_outage self e) by done. cbn [mbind result_bind].
  rewrite bool_decide_false; [done|].
  rewrite (error_answer_lookup _ _ _ "content_type") by set_solver.
  by intros [? ?].
Qed.

(** X19: with an API key, when every call to the service raises [e],
    [extract] answers with the dict of [error], the text of [e], and
    [content], the first hundred characters of the content followed by
    [...]; pass 1 then keeps the heuristic analysis of every chunk, and the
    extraction loop of pass 2 collects one such dict per chunk instead of
    skipping the chunk. *)
Theorem openai_outage_answers (text_of : instruction → pystr)
    (self : OpenAIProvider.OpenAIProvider) (e : exn) :
  OpenAIProvider.has_api_key self = true →
  (∀ model temperature system user,
     OpenAIProvider.chat_completion (OpenAIProvider.openai self) model temperature
       system user
     = Raise e) →
  let error_text := OpenAIProvider.exception_text (OpenAIProvider.openai self) e in
  (∀ content instruction output_format,
     OpenAIProvider.extract self content instruction output_format
     = Ok (PDict (<[py "content" := PStr (take 100 content ++ py "...")]>
                  {[ py "error" := PStr error_text ]})))
  ∧ (∀ chunk index prompt,
       _analyze_single_chunk chunk index prompt
         (OpenAIProvider.as_provider text_of self)
       = Ok (_heuristic_analysis chunk index))
  ∧ (∀ specialized_prompt chunk_list,
       extract_type_results (OpenAIProvider.as_provider text_of self)
         specialized_prompt chunk_list
       = Ok ((λ item : pystr * ChunkAnalysis,
                <[py "content" := PStr (take 100 item.1 ++ py "...")]>
                {[ py "error" := PStr error_text ]})
             <$> chunk_list)).
Proof.
  intros Hkey Hdown error_text. split; [|split].
  - intros content instruction output_format.
    by rewrite (extract_during_outage self e).
  - intros chunk index prompt. by apply (analysis_during_outage text_of self e).
  - intros specialized_prompt chunk_list.
    rewrite extract_type_results_spec. f_equal.
    by apply collected_during_outage.
Qed.

(** X20: with an API key and the format [json], when the answer of the
    service, stripped, is a body between the fence that opens a [json] block
    and the fence that closes it, [extract] decodes the stripped body: it
    returns the decoded value, the dict of [raw_response] and
    [parsing_error] when the body is not JSON, and the dict of [error] and
    [content] when [json.loads] raises another exception. *)
Theorem openai_fenced_json (self : OpenAIProvider.OpenAIProvider)
    (content instruction : pystr) (response body : pystr) :
  let lib := OpenAIProvider.openai self in
  OpenAIProvider.has_api_key self = true →
  str_lower (py "json") = py "json" →
  OpenAIProvider.chat_completion lib (OpenAIProvider.model self)
    (OpenAIProvider.temperature self)
    (OpenAIProvider.system_prompt (py "json"))
    (OpenAIProvider.user_prompt instruction content)
  = Ok response →
  OpenAIProvider.str_strip lib response = py "```json" ++ body ++ py "```" →
  OpenAIProvider.extract self content instruction (py "json")
  = match OpenAIProvider.json_loads lib (OpenAIProvider.str_strip lib body) with
    | Ok value => Ok value
    | Raise ValueError =>
        Ok (PDict (<[py "error" := PStr (py "parsing_error")]>
                   {[ py "raw_response" := PStr (OpenAIProvider.str_strip lib body) ]}))
    | Raise e =>
        Ok (PDict (<[py "content" := PStr (take 100 content ++ py "...")]>
                   {[ py "error" := PStr (OpenAIProvider.exception_text lib e) ]}))
    end.
Proof.
  intros lib Hkey Hlower Hresponse Hfenced.
  unfold OpenAIProvider.extract. rewrite Hkey. cbn [negb]. cbv zeta.
  fold lib. rewrite Hresponse. cbn [mbind result_bind].
  rewrite bool_decide_true by done.
  assert (OpenAIProvider.strip_fence lib (OpenAIProvider.str_strip lib response)
          = OpenAIProvider.str_strip lib body) as ->.
  { unfold OpenAIProvider.strip_fence. rewrite Hfenced, is_prefix_app.
    rewrite (assoc_L (++)), str_endswith_app. cbn [andb].
    rewrite <- (assoc_L (++)). f_equal.
    rewrite (drop_app_length' (py "```json")) by reflexivity.
    unfold py_slice_to. cbn [Z.ltb Z.compare].
    apply take_app_length'. rewrite length_app.
    change (length (py "```")) with 3%nat. lia. }
  by destruct (OpenAIProvider.json_loads _ _) as [value|[]].
Qed.

End OpenAIFacts.

Lemma openai_outage_answers_witness :
  _analyze_single_chunk (RT := latin1_runtime) example_chunk 0
    (_create_analysis_prompt REVIEW (py "prix"))
    (OpenAIProvider.as_provider (RT := latin1_runtime) query_text
       (example_openai (Raise (ProviderError (py "timeout")))))
  = Ok (_heuristic_analysis (RT := latin1_runtime) example_chunk 0).
Proof.
  apply (openai_outage_answers (RT := latin1_runtime) query_text
           (example_openai (Raise (ProviderError (py "timeout"))))
           (ProviderError (py "timeout"))); reflexivity.
Defined.

Lemma openai_fenced_json_witness :
  OpenAIProvider.extract (RT := latin1_runtime)
    (example_openai (Ok (py "```json {} ```"))) example_chunk (py "prix") (py "json")
  = Ok (PDict ∅).
Proof.
  apply (openai_fenced_json (RT := latin1_runtime)
           (example_openai (Ok (py "```json {} ```"))) example_chunk (py "prix")
           (py "```json {} ```") (py " {} ")); vm_compute; reflexivity.
Defined.

(** ** The pipeline during an outage of the service *)

Section OutagePipeline.
Context `{RT : PyRuntime}.

Lemma heuristic_type_is_read (chunk : pystr) (index : Z) :
  ∃ t, t ∈ ["specs"; "pricing"; "review"; "general"]
       ∧ content_type (_heuristic_analysis chunk index) = PStr (py t).
Proof.
  unfold _heuristic_analysis.
  repeat match goal with |- context [if ?b then _ else _] => destruct b end;
    cbn [content_type];
    first [ by exists "specs"; split; [set_solver|]
          | by exists "pricing"; split; [set_solver|]
          | by exists "review"; split; [set_solver|]
          | by exists "general"; split; [set_solver|] ].
Qed.

Lemma error_answer_shaped (lib : OpenAIProvider.library) (e : exn) (content : pystr) :
  review_shaped (OpenAIProvider.error_answer lib e content) = true
  ∧ field_is iterable "promotions" (OpenAIProvider.error_answer lib e content) = true
  ∧ field_is iterable "produits" (OpenAIProvider.error_answer lib e content) = true.
Proof.
  unfold review_shaped, field_is.
  rewrite !error_answer_lookup by set_solver. done.
Qed.

Lemma error_answer_not_empty (lib : OpenAIProvider.library) (e : exn) (content : pystr) :
  py "content" ∈ dom (OpenAIProvider.error_answer lib e content).
Proof. unfold OpenAIProvider.error_answer. rewrite dom_insert_L. set_solver. Qed.

Lemma prioritized_not_empty (analyses : list ChunkAnalysis) (k : Z) :
  analyses ≠ [] → (0 <= k)%Z → prioritized analyses (Some k) ≠ [].
Proof.
  intros Hne Hk.
  pose proof (Permutation_length (proj1 (prioritized_sorted analyses))) as Hlen.
  assert (0 < length analyses)%nat as Hpos by (destruct analyses; [done|cbn; lia]).
  intros Hnil%(f_equal length). cbn [length] in Hnil. revert Hnil.
  unfold prioritized, py_slice_to.
  destruct (k =? 0)%Z eqn:Hzero; [lia|]. apply Z.eqb_neq in Hzero.
  rewrite (proj2 (Z.ltb_ge _ _)) by lia. rewrite length_take. lia.
Qed.

(** X23: with an OpenAI provider that has an API key and whose service
    raises on every call, a URL that [urlparse] accepts, one chunk or more
    and a chunk count that is not negative, the pipeline returns a mapping
    that is not empty: the answers that report the error are aggregated like
    extracted data. *)
Theorem openai_outage_pipeline (text_of : instruction → pystr)
    (self : OpenAIProvider.OpenAIProvider) (e : exn) (chunks : list pystr)
    (query url : pystr) (max_workers max_chunks_per_type : Z) :
  OpenAIProvider.has_api_key self = true →
  (∀ model temperature system user,
     OpenAIProvider.chat_completion (OpenAIProvider.openai self) model temperature
       system user
     = Raise e) →
  is_Some (urlparse_netloc url) →
  chunks ≠ [] →
  (0 <= max_chunks_per_type)%Z →
  ∃ out,
    enhanced_extract_data_from_chunks chunks query
      (OpenAIProvider.as_provider text_of self) url max_workers max_chunks_per_type
    = Ok out
    ∧ out ≠ ∅.
Proof.
  intros Hkey Hdown [netloc Hurl] Hchunks Hcount.
  set (provider := OpenAIProvider.as_provider text_of self).
  rewrite pipeline_spec, Hurl.
  set (analyses := first_pass_analyses chunks REVIEW provider query).
  set (survivors := prioritized analyses (Some (max_chunks_per_type * 4)%Z)).
  assert (∀ a, a ∈ survivors → ∃ chunk i, a = _heuristic_analysis chunk i) as Hheuristic.
  { intros a Ha%prioritized_subset.
    apply first_pass_analyses_lookup in Ha as (i & chunk & _ & ->).
    exists chunk, (Z.of_nat i). unfold analysis_at, provider.
    rewrite (analysis_during_outage text_of self e) by done.
    pose proof (with_chunk_index_id (_heuristic_analysis chunk (Z.of_nat i))) as Hid.
    by rewrite heuristic_analysis_index in Hid. }
  destruct (group_by_content_type_spec chunks survivors)
    as (groups & items & Hgroups & (Hjoin & Hmembers & _) & Hitems & _).
  { apply Forall_forall. intros a Ha. split.
    - destruct (Hheuristic a Ha) as (chunk & i & ->). apply heuristic_analysis_hashable.
    - by apply (first_pass_valid_indices chunks REVIEW provider query
                  (Some (max_chunks_per_type * 4)%Z)). }
  rewrite Hgroups. cbn [mbind result_bind].
  set (er := collected_results provider REVIEW query groups).
  assert (∀ entry, entry ∈ er →
            entry.2 ≠ []
            ∧ Forall
                (λ d, ∃ c,
                   d = OpenAIProvider.error_answer (OpenAIProvider.openai self) e c)
                entry.2) as Hentries.
  { intros entry (g & Hg & Hentry)%list_elem_of_omap.
    unfold provider in Hentry.
    rewrite (collected_during_outage text_of self e) in Hentry by done.
    destruct g as [k [|item l]]; [done|].
    cbn [snd fst fmap list_fmap] in Hentry. injection Hentry as <-.
    split; [done|]. cbn [snd]. constructor; [by eexists|].
    apply Forall_forall. intros d (it & -> & _)%list_elem_of_fmap. by eexists. }
  assert (∀ key rs, er_lookup key er = Some rs → ∃ k, (k, rs) ∈ er) as Hfound.
  { unfold er_lookup. intros key rs Hfind.
    destruct (List.find _ er) as [[k rs']|] eqn:Hf; [|done]. injection Hfind as <-.
    apply find_some in Hf as [Hin _]. exists k. by apply list_elem_of_In. }
  assert (∀ key (shape : pydict → bool),
            (∀ c, shape (OpenAIProvider.error_answer (OpenAIProvider.openai self) e c) = true) →
            results_satisfy shape key er = true) as Hshape.
  { intros key shape Hall. unfold results_satisfy.
    destruct (er_lookup key er) as [rs'|] eqn:Hlookup; [|done].
    destruct (Hfound _ _ Hlookup) as [k Hin].
    destruct (Hentries _ Hin) as [_ Herrors]. cbn [snd] in Herrors.
    apply forallb_forall. intros d Hd%list_elem_of_In.
    rewrite Forall_forall in Herrors. destruct (Herrors d Hd) as [c ->]. apply Hall. }
  assert (aggregable er = true) as Hagg.
  { unfold aggregable.
    rewrite !Hshape; [done|intros c; apply error_answer_shaped..]. }
  rewrite aggregate_spec, Hagg. eexists. split; [done|].
  assert (∃ a, a ∈ survivors) as [a Ha].
  { assert (survivors ≠ []) as Hne.
    { apply prioritized_not_empty; [|lia]. intros Hnil%(f_equal length).
      unfold analyses in Hnil. rewrite first_pass_analyses_length in Hnil.
      by destruct chunks. }
    destruct survivors as [|a rest]; [done|]. exists a. left. }
  destruct (Hheuristic a Ha) as (chunk & i & ->).
  destruct (heuristic_type_is_read chunk i) as (t & Ht & Htype).
  rewrite <- Hitems in Ha. apply list_elem_of_fmap in Ha as (item & Hitem & Hin).
  rewrite <- Hjoin in Hin. apply list_elem_of_join in Hin as (l & Hl & Hgroup).
  apply list_elem_of_fmap in Hgroup as (g & -> & Hg).
  rewrite Forall_forall in Hmembers. destruct (Hmembers g Hg) as [Hsame _].
  rewrite Forall_forall in Hsame. specialize (Hsame item Hl).
  rewrite <- Hitem, Htype in Hsame.
  assert (∃ rs, er_lookup t er = Some rs) as [rs Hlookup].
  { unfold er_lookup.
    destruct (List.find (λ entry : pyval * list pydict, py_eqb entry.1 (PStr (py t))) er)
      as [[k rs]|] eqn:Hfind; [by eexists|].
    pose proof (find_none _ _ Hfind) as Hnone.
    assert ((g.1, collected provider
                    (_create_specialized_extraction_prompt g.1 REVIEW query) g.2) ∈ er)
      as Hmember.
    { apply list_elem_of_omap. exists g. split; [done|].
      unfold provider. rewrite (collected_during_outage text_of self e) by done.
      destruct g as [k [|first l']]; [by apply elem_of_nil in Hl|done]. }
    apply list_elem_of_In, Hnone in Hmember. cbn [fst] in Hmember. congruence. }
  destruct (Hfound _ _ Hlookup) as [k Hk].
  destruct (Hentries _ Hk) as [Hne Herrors]. cbn [snd] in Hne, Herrors.
  intros Hempty.
  repeat (apply elem_of_cons in Ht as [->|Ht]); [| | | |by apply elem_of_nil in Ht].
  - pose proof (aggregated_value_specs_lookup er) as Hout.
    by rewrite Hlookup, Hempty, lookup_empty in Hout.
  - pose proof (aggregated_value_pricing_lookup er) as Hout.
    by rewrite Hlookup, Hempty, lookup_empty in Hout.
  - destruct (aggregated_value_review_lookup er rs Hlookup) as [Hout _].
    by rewrite Hempty, lookup_empty in Hout.
  - pose proof (aggregated_value_general_lookup er) as Hout.
    rewrite Hlookup, Hempty, lookup_empty in Hout.
    case_bool_decide as Hmerged; [|done].
    destruct rs as [|d rs]; [done|].
    apply Forall_cons in Herrors as [[c ->] _].
    pose proof (merge_general_dom
                  (OpenAIProvider.error_answer (OpenAIProvider.openai self) e c :: rs)
                  _ (list_elem_of_here _ _)) as Hdom.
    rewrite Hmerged, dom_empty_L in Hdom.
    pose proof (error_answer_not_empty (OpenAIProvider.openai self) e c). set_solver.
Qed.

End OutagePipeline.

Lemma openai_outage_pipeline_witness :
  ∃ out,
    enhanced_extract_data_from_chunks (RT := latin1_runtime) [example_chunk] (py "prix")
      (OpenAIProvider.as_provider (RT := latin1_runtime) query_text
         (example_openai (Raise (ProviderError (py "timeout")))))
      plain_url 4 5
    = Ok out
    ∧ out ≠ ∅.
Proof.
  apply (openai_outage_pipeline (RT := latin1_runtime) query_text
           (example_openai (Raise (ProviderError (py "timeout"))))
           (ProviderError (py "timeout")) [example_chunk] (py "prix") plain_url 4 5).
  - reflexivity.
  - reflexivity.
  - vm_compute. eauto.
  - discriminate.
  - lia.
Defined.
